(** * TradeLite Pro backend: the analytics services and the mock simulator

    A shallow embedding of
      - [app/services/sentiment_analysis_service.py]  (module [Sentiment]),
      - [app/services/anomaly_detection_service.py]   (module [Anomaly]),
      - [app/api/simulations.py], [generate_mock_data] (module [Simulation]),
      - [app/services/ai_service.py]                  (module [Feedback]),
    with the Python built-ins they rely on in module [Py].

    Conventions.
    - A Python [str] is a [string] over the ASCII alphabet (the keyword
      lexicons, the templates and the section markers of the source are all
      ASCII); bytes above 127 are left alone by [lower] and count neither as
      word characters nor as white space.
    - A Python [int] is a [Z].
    - A Python [float] is a binary64 [float] (Rocq's primitive floats) in the
      sentiment scorer, the anomaly detector and the feedback generator.  The
      simulator's prices are taken as exact rationals in lowest terms
      ([Qc]), so that [round(x, 2)] is the exact decimal rounding; overflow
      and rounding error of binary64 are outside that part of the model.
    - The random source is an explicit stream of draws threaded through the
      code as a counter. *)

From stdpp Require Import base option list gmap strings.
From Stdlib Require Import ZArith List String Ascii Lia Bool.
From Stdlib Require Import QArith Qround Qcanon Lqa.
From Stdlib Require Import Floats Uint63 DecimalString Sorted.
Import ListNotations.

Local Open Scope string_scope.
Local Open Scope Z_scope.

(* ===================================================================== *)
(** * Python built-ins on strings *)
(* ===================================================================== *)

Module Py.

Definition in_range (lo hi : nat) (c : ascii) : bool :=
  (lo <=? nat_of_ascii c)%nat && (nat_of_ascii c <=? hi)%nat.

Definition is_upper (c : ascii) : bool := in_range 65 90 c.
Definition is_lower (c : ascii) : bool := in_range 97 122 c.
Definition is_digit (c : ascii) : bool := in_range 48 57 c.

(** [\w] of the [re] module, on ASCII. *)
Definition is_word (c : ascii) : bool :=
  is_upper c || is_lower c || is_digit c || Ascii.eqb c "_"%char.

(** White space removed by [str.strip()] and tested by [str.isspace()]:
    TAB, LF, VT, FF, CR, the separators 28-31 and the space. *)
Definition is_space (c : ascii) : bool :=
  in_range 9 13 c || in_range 28 32 c.

Definition lower_char (c : ascii) : ascii :=
  if is_upper c then ascii_of_nat (nat_of_ascii c + 32) else c.

(** [s.lower()] *)
Fixpoint lower (s : string) : string :=
  match s with
  | EmptyString => EmptyString
  | String c s' => String (lower_char c) (lower s')
  end.

(** [s.startswith(p)] *)
Fixpoint startswith (p s : string) : bool :=
  match p, s with
  | EmptyString, _ => true
  | String _ _, EmptyString => false
  | String a p', String b s' => Ascii.eqb a b && startswith p' s'
  end.

(** [sub in s] *)
Fixpoint contains (sub s : string) : bool :=
  startswith sub s ||
  match s with
  | EmptyString => false
  | String _ s' => contains sub s'
  end.

(** [s.endswith(p)] *)
Fixpoint endswith (p s : string) : bool :=
  String.eqb p s ||
  match s with
  | EmptyString => false
  | String _ s' => endswith p s'
  end.

Fixpoint drop (n : nat) (s : string) : string :=
  match n, s with
  | O, _ => s
  | S n', String _ s' => drop n' s'
  | S _, EmptyString => EmptyString
  end.

(** [s.split(sep)] for a non-empty separator: a left-to-right scan that
    cuts at each occurrence of [sep] and resumes after it.  [cur] holds the
    characters of the current piece, most recent first; [skip] counts the
    characters of a separator still to be passed over. *)
Fixpoint split_go (sep : string) (skip : nat) (cur : list ascii) (s : string)
  : list string :=
  match s with
  | EmptyString => [string_of_list_ascii (rev cur)]
  | String c s' =>
      match skip with
      | S k => split_go sep k cur s'
      | O =>
          if startswith sep s
          then string_of_list_ascii (rev cur)
                 :: split_go sep (String.length sep - 1) [] s'
          else split_go sep 0 (c :: cur) s'
      end
  end.

Definition split (sep s : string) : list string := split_go sep 0 [] s.

(** [s.lstrip(chars)], [s.rstrip(chars)], [s.strip(chars)] for a
    predicate on characters. *)
Fixpoint lstrip (f : ascii -> bool) (s : string) : string :=
  match s with
  | EmptyString => EmptyString
  | String c s' => if f c then lstrip f s' else s
  end.

Fixpoint rstrip (f : ascii -> bool) (s : string) : string :=
  match s with
  | EmptyString => EmptyString
  | String c s' =>
      match rstrip f s' with
      | EmptyString => if f c then EmptyString else String c EmptyString
      | r => String c r
      end
  end.

Definition strip (f : ascii -> bool) (s : string) : string :=
  rstrip f (lstrip f s).

(** Truth value of a string: non-empty. *)
Definition truthy (s : string) : bool :=
  match s with EmptyString => false | _ => true end.

(** [str(n)] for an [int]. *)
Definition str_of_int (z : Z) : string :=
  NilZero.string_of_int (Z.to_int z).

(** ** The fragment of [re] the scorer uses

    The patterns are [r'\b' + keyword + r'\b'] for keywords made of
    letters only, so a pattern is a sequence of literal characters and
    word-boundary assertions. *)
Inductive re_item : Type :=
| Boundary
| Lit (c : ascii).

Definition is_word_opt (o : option ascii) : bool :=
  match o with Some c => is_word c | None => false end.

Definition next_char (s : string) : option ascii :=
  match s with EmptyString => None | String c _ => Some c end.

(** Does the pattern match at the current position?  [prev] is the
    character just before it ([None] at the start of the text). *)
Fixpoint match_here (pat : list re_item) (prev : option ascii) (s : string)
  : bool :=
  match pat with
  | [] => true
  | Boundary :: pat' =>
      xorb (is_word_opt prev) (is_word_opt (next_char s))
      && match_here pat' prev s
  | Lit c :: pat' =>
      match s with
      | EmptyString => false
      | String d s' => Ascii.eqb c d && match_here pat' (Some d) s'
      end
  end.

(** [re.search(pat, s)] as a truth value: a match at some position. *)
Fixpoint search_from (pat : list re_item) (prev : option ascii) (s : string)
  : bool :=
  match_here pat prev s ||
  match s with
  | EmptyString => false
  | String c s' => search_from pat (Some c) s'
  end.

Definition re_search (pat : list re_item) (s : string) : bool :=
  search_from pat None s.

(** The number of positions at which the pattern matches. *)
Fixpoint count_from (pat : list re_item) (prev : option ascii) (s : string)
  : Z :=
  (if match_here pat prev s then 1 else 0) +
  match s with
  | EmptyString => 0
  | String c s' => count_from pat (Some c) s'
  end.

Definition re_count (pat : list re_item) (s : string) : Z :=
  count_from pat None s.

Fixpoint lits (s : string) : list re_item :=
  match s with
  | EmptyString => []
  | String c s' => Lit c :: lits s'
  end.

(** [r'\b' + keyword + r'\b'] *)
Definition word_pattern (keyword : string) : list re_item :=
  Boundary :: lits keyword ++ [Boundary].

(** [float(z)] for an [int] below 2^63 in absolute value. *)
Definition float_of_Z (z : Z) : float :=
  if z <? 0 then PrimFloat.opp (PrimFloat.of_uint63 (Uint63.of_Z (- z)))
  else PrimFloat.of_uint63 (Uint63.of_Z z).

(** [a > b] and [a < b] on floats (false when either is NaN). *)
Definition fgt (a b : float) : bool := PrimFloat.ltb b a.
Definition flt (a b : float) : bool := PrimFloat.ltb a b.

End Py.

(* ===================================================================== *)
(** * Sentiment scorer *)
(* ===================================================================== *)

Module Sentiment.
Import Py.

Record SentimentAnalysisResponse : Type := {
  sentiment : string;
  score : float;
  explanation : string
}.

Definition positive_keywords : list string :=
  [ "bullish"; "uptrend"; "growth"; "profit"; "gain"; "outperform";
    "buy"; "strong"; "positive"; "up"; "rise"; "rising"; "rally";
    "opportunity"; "optimistic"; "confident"; "exceed"; "beat";
    "momentum"; "recovery"; "upgrade"; "success"; "improve" ].

Definition negative_keywords : list string :=
  [ "bearish"; "downtrend"; "decline"; "loss"; "risk"; "underperform";
    "sell"; "weak"; "negative"; "down"; "fall"; "falling"; "drop";
    "threat"; "pessimistic"; "concerned"; "miss"; "below";
    "slowdown"; "recession"; "downgrade"; "failure"; "worsen" ].

(** [sum(1 for keyword in keywords if re.search(r'\b' + keyword + r'\b',
    text_lower))] *)
Definition keyword_count (keywords : list string) (text_lower : string) : Z :=
  fold_left
    (fun acc keyword =>
       if re_search (word_pattern keyword) text_lower then acc + 1 else acc)
    keywords 0.

Definition positive_count (text : string) : Z :=
  keyword_count positive_keywords (lower text).

Definition negative_count (text : string) : Z :=
  keyword_count negative_keywords (lower text).

Definition analyze_sentiment (text : string) : SentimentAnalysisResponse :=
  let positive_count := positive_count text in
  let negative_count := negative_count text in
  let total_count := positive_count + negative_count in
  if total_count =? 0 then
    {| sentiment := "neutral";
       score := 0%float;
       explanation := "No clear sentiment indicators found in the text." |}
  else
    let sentiment_score :=
      PrimFloat.div (float_of_Z (positive_count - negative_count))
                    (float_of_Z total_count) in
    if fgt sentiment_score 0.25%float then
      {| sentiment := "positive";
         score := sentiment_score;
         explanation :=
           "The text contains more positive financial indicators ("
           ++ str_of_int positive_count ++ ") than negative ones ("
           ++ str_of_int negative_count ++ ")." |}
    else if flt sentiment_score (-0.25)%float then
      {| sentiment := "negative";
         score := sentiment_score;
         explanation :=
           "The text contains more negative financial indicators ("
           ++ str_of_int negative_count ++ ") than positive ones ("
           ++ str_of_int positive_count ++ ")." |}
    else
      {| sentiment := "neutral";
         score := sentiment_score;
         explanation :=
           "The text contains a balanced mix of positive ("
           ++ str_of_int positive_count ++ ") and negative ("
           ++ str_of_int negative_count ++ ") financial indicators." |}.

(** What the specification calls the number of whole-word matches of a
    lexicon: every occurrence of every term counted. *)
Definition occurrences (keyword text_lower : string) : Z :=
  re_count (word_pattern keyword) text_lower.

Definition occurrence_sum (keywords : list string) (text_lower : string) : Z :=
  fold_right (fun keyword acc => occurrences keyword text_lower + acc)
             0 keywords.

(** The same sum with every term capped at one: the number of lexicon
    terms that occur at all. *)
Definition presence_sum (keywords : list string) (text_lower : string) : Z :=
  fold_right (fun keyword acc => Z.min 1 (occurrences keyword text_lower) + acc)
             0 keywords.

(** The quotient computed for the counts [p] and [n]. *)
Definition quotient (p n : Z) : float :=
  PrimFloat.div (float_of_Z (p - n)) (float_of_Z (p + n)).

(** What has to hold of the quotient, as a test on one pair of counts:
    it lies in [-1, 1], and the two threshold tests on the binary64 value
    agree with the exact comparisons of [(p - n) / (p + n)] with 1/4 and
    -1/4. *)
Definition quotient_ok (p n : Z) : bool :=
  (p + n =? 0) ||
  (PrimFloat.leb (-1)%float (quotient p n)
   && PrimFloat.leb (quotient p n) 1%float
   && Bool.eqb (fgt (quotient p n) 0.25%float) (p + n <? 4 * (p - n))
   && Bool.eqb (flt (quotient p n) (-0.25)%float) (4 * (p - n) <? - (p + n))).

Definition count_range : list Z := map Z.of_nat (seq 0 24).

End Sentiment.

(* ===================================================================== *)
(** * Anomaly detector *)
(* ===================================================================== *)

Module Anomaly.
Import Py.

Record AnomalyDetectionResponse : Type := {
  anomalies : list Z;
  scores : list float;
  threshold : float
}.

(** [l[start:stop]] with Python's treatment of negative and
    out-of-range bounds. *)
Definition clamp_index (len k : Z) : Z :=
  if k <? 0 then Z.max (k + len) 0 else Z.min k len.

Definition slice {A : Type} (l : list A) (start stop : Z) : list A :=
  let len := Z.of_nat (List.length l) in
  let a := clamp_index len start in
  let b := clamp_index len stop in
  firstn (Z.to_nat (b - a)) (skipn (Z.to_nat a) l).

Section Detector.

(** [np.mean] and [np.std] (the population standard deviation) belong
    to numpy; the detector is embedded over any pair of such functions. *)
Variables np_mean np_std : list float -> float.

Definition z_threshold : float := 3%float.

(** One iteration of [for i in range(len(data_array))], on the pair
    [(scores, anomalies)]. *)
Definition loop_body (data : list float) (window_size : Z)
    (st : list float * list Z) (i : nat) : list float * list Z :=
  let '(scores, anomalies) := st in
  if Z.of_nat i <? window_size then
    ((scores ++ [0%float])%list, anomalies)
  else
    let window := slice data (Z.of_nat i - window_size) (Z.of_nat i) in
    let window_mean := np_mean window in
    let window_std := np_std window in
    if PrimFloat.eqb window_std 0%float then
      ((scores ++ [0%float])%list, anomalies)
    else
      let z_score :=
        PrimFloat.abs
          (PrimFloat.div (PrimFloat.sub (nth i data 0%float) window_mean)
                         window_std) in
      let scores := (scores ++ [z_score])%list in
      if fgt z_score z_threshold
      then (scores, (anomalies ++ [Z.of_nat i])%list)
      else (scores, anomalies).

Definition detect_anomalies (data : list float) (window_size : Z)
  : AnomalyDetectionResponse :=
  if Z.of_nat (List.length data) <? window_size then
    {| anomalies := [];
       scores := repeat 0%float (List.length data);
       threshold := 3%float |}
  else
    let '(scores, anomalies) :=
      fold_left (loop_body data window_size)
                (seq 0 (List.length data)) ([], []) in
    {| anomalies := anomalies;
       scores := scores;
       threshold := z_threshold |}.

(** The value the loop appends to [scores] at index [i], in closed form. *)
Definition score_at (data : list float) (window_size : Z) (i : nat) : float :=
  if Z.of_nat i <? window_size then 0%float
  else
    let window := slice data (Z.of_nat i - window_size) (Z.of_nat i) in
    if PrimFloat.eqb (np_std window) 0%float then 0%float
    else
      PrimFloat.abs
        (PrimFloat.div (PrimFloat.sub (nth i data 0%float) (np_mean window))
                       (np_std window)).

(** The score as the specification writes it: [|S[i] - mean| / std] over
    the window [S[i - window_size : i]], and 0.0 before the first full
    window and on a window of zero deviation. *)
Definition spec_score (data : list float) (window_size : Z) (i : nat) : float :=
  if Z.of_nat i <? window_size then 0%float
  else
    let window := slice data (Z.of_nat i - window_size) (Z.of_nat i) in
    if PrimFloat.eqb (np_std window) 0%float then 0%float
    else
      PrimFloat.div
        (PrimFloat.abs (PrimFloat.sub (nth i data 0%float) (np_mean window)))
        (np_std window).

(** The indices among the first [k] whose score exceeds the threshold. *)
Definition flagged (data : list float) (window_size : Z) (k : nat) : list Z :=
  map Z.of_nat
      (List.filter (fun i => fgt (score_at data window_size i) z_threshold)
                   (seq 0 k)).

End Detector.

(** A reference pair for running the detector: left-to-right sums, which
    is how numpy adds the elements of an array of fewer than 8 elements. *)
Definition fsum (l : list float) : float :=
  fold_left PrimFloat.add l 0%float.

Definition mean (l : list float) : float :=
  PrimFloat.div (fsum l) (float_of_Z (Z.of_nat (List.length l))).

Definition std (l : list float) : float :=
  let m := mean l in
  PrimFloat.sqrt
    (mean (map (fun x => PrimFloat.mul (PrimFloat.sub x m)
                                       (PrimFloat.sub x m)) l)).

End Anomaly.

(* ===================================================================== *)
(** * Mock market-path generator *)
(* ===================================================================== *)

(** The control flow of [generate_mock_data] over exact rationals: the
    same loop, windows and table, with arithmetic that neither rounds nor
    overflows.  It serves what does not depend on the rounding of a value
    (how many points a run has, their days, which indicators are present,
    the sign of a price) and runs whose values are exact in binary64 too.
    The figures a run records are those of [Simulation64] below, where every
    operation is the interpreter's. *)
Module Simulation.

Local Open Scope Qc_scope.

Record SimulationDataPoint : Type := {
  day : Z;
  price : Qc;
  sma20 : option Qc;
  ema10 : option Qc
}.

(** [id] (a fresh UUID) and [created_at] (the wall clock) come from the
    environment and are left out of the record. *)
Record SimulationResult : Type := {
  user_id : string;
  asset : string;
  strategy : string;
  timeframe : Z;
  initial_capital : Qc;
  final_capital : Qc;
  roi : Qc;
  data : list SimulationDataPoint
}.

(** Rounding to the nearest integer, ties to even. *)
Definition round_half_even (x : Qc) : Z :=
  let f := Qfloor x in
  match Qccompare (x - Q2Qc (inject_Z f)) (Q2Qc (1 # 2)) with
  | Lt => f
  | Gt => (f + 1)%Z
  | Eq => if Z.even f then f else (f + 1)%Z
  end.

(** [round(x, 2)] on a rational: the nearest multiple of 1/100, ties to
    even.  On a float, [round] is [Simulation64.round2]. *)
Definition round2 (x : Qc) : Qc :=
  Q2Qc (round_half_even (x * Q2Qc 100) # 100).

(** [max(a, b)]: the first argument unless the second is greater. *)
Definition py_max (a b : Qc) : Qc :=
  match Qccompare a b with Lt => b | _ => a end.

(** [sum(l)] *)
Definition qsum (l : list Qc) : Qc := fold_left Qcplus l 0.

(** [range(a, b)] *)
Definition range (a b : nat) : list nat := seq a (b - a).

(** The random source: [draws k] is the value of the [k]-th call of
    [random.random()]; the code threads the number of calls made. *)
Definition rng : Type := nat -> Qc.

(** [random.uniform(a, b)] is [a + (b - a) * random()]. *)
Definition uniform (draws : rng) (k : nat) (a b : Qc) : Qc :=
  a + (b - a) * draws k.

(** [start_price] and [volatility] by asset. *)
Definition asset_params (asset : string) : Qc * Qc :=
  if String.eqb asset "BTC" then (Q2Qc 30000, Q2Qc (3 # 100))
  else if String.eqb asset "ETH" then (Q2Qc 2000, Q2Qc (4 # 100))
  else (Q2Qc 100, Q2Qc (2 # 100)).

Definition dummy_point : SimulationDataPoint :=
  {| day := 0; price := 0; sma20 := None; ema10 := None |}.

(** The loop state: calls of the random source so far, [current_price]
    and [data]. *)
Definition loop_state : Type :=
  (nat * Qc * list SimulationDataPoint)%type.

(** One iteration of [for i in range(timeframe)]. *)
Definition loop_body (draws : rng) (volatility : Qc)
    (st : loop_state) (i : nat) : loop_state :=
  let '(k, current_price, data) := st in
  let change := current_price * volatility * (draws k - Q2Qc (1 # 2)) in
  let current_price := py_max (current_price + change) (Q2Qc (1 # 10)) in
  let sma20 :=
    if (19 <=? i)%nat then
      let sma_prices :=
        map (fun j => price (nth j data dummy_point)) (range (i - 19) i) in
      Some (qsum sma_prices / Q2Qc 20)
    else None in
  let ema10 :=
    if (9 <=? i)%nat then
      let ema_prices :=
        map (fun j => price (nth j data dummy_point)) (range (i - 9) i) in
      Some (qsum ema_prices / Q2Qc 10)
    else None in
  (S k, current_price,
   (data ++ [ {| day := Z.of_nat i + 1;
                 price := round2 current_price;
                 sma20 := option_map round2 sma20;
                 ema10 := option_map round2 ema10 |} ])%list).

Definition price_loop (draws : rng) (asset : string) (timeframe : Z)
  : loop_state :=
  let '(start_price, volatility) := asset_params asset in
  fold_left (loop_body draws volatility)
            (range 0 (Z.to_nat timeframe)) (O, start_price, []).

(** The dictionary literal [strategy_performance]: its five values are
    drawn in this order, whatever the strategy. *)
Definition strategy_performance (draws : rng) (k : nat)
  : list (string * Qc) :=
  [ ("sma_crossover", uniform draws k (Q2Qc (- 1 # 10)) (Q2Qc (3 # 10)));
    ("ema_crossover", uniform draws (k + 1) (Q2Qc (- 5 # 100)) (Q2Qc (25 # 100)));
    ("macd", uniform draws (k + 2) (Q2Qc (- 15 # 100)) (Q2Qc (35 # 100)));
    ("rsi", uniform draws (k + 3) (Q2Qc (- 2 # 10)) (Q2Qc (4 # 10)));
    ("bollinger", uniform draws (k + 4) (Q2Qc (- 1 # 10)) (Q2Qc (3 # 10))) ].

(** [d.get(key, default)] on a dictionary given by its items. *)
Fixpoint dict_get {V : Type} (d : list (string * V)) (key : string)
    (default : V) : V :=
  match d with
  | [] => default
  | (k, v) :: d' => if String.eqb k key then v else dict_get d' key default
  end.

(** The value of the local variable [performance]. *)
Definition performance (draws : rng) (asset strategy : string)
    (timeframe : Z) : Qc :=
  let '(k, _, _) := price_loop draws asset timeframe in
  dict_get (strategy_performance draws k) strategy (Q2Qc (1 # 10)).

Definition generate_mock_data (draws : rng) (asset strategy : string)
    (timeframe : Z) (initial_capital : Qc) : SimulationResult :=
  let '(_, _, data) := price_loop draws asset timeframe in
  let performance := performance draws asset strategy timeframe in
  let final_capital := initial_capital * (1 + performance) in
  let roi := performance * Q2Qc 100 in
  {| user_id := "mock-user-id";
     asset := asset;
     strategy := strategy;
     timeframe := timeframe;
     initial_capital := initial_capital;
     final_capital := round2 final_capital;
     roi := round2 roi;
     data := data |}.

(** The loop after [n] iterations. *)
Definition run (draws : rng) (start_price volatility : Qc) (n : nat)
  : loop_state :=
  fold_left (loop_body draws volatility) (range 0 n) (O, start_price, []).

(** [current_price] after one more step, the [k]-th draw being used. *)
Definition next_price (draws : rng) (volatility : Qc) (k : nat)
    (current_price : Qc) : Qc :=
  py_max (current_price
          + current_price * volatility * (draws k - Q2Qc (1 # 2)))
         (Q2Qc (1 # 10)).

(** The prices recorded at the indices [range(a, b)] of [data]. *)
Definition prices_in (data : list SimulationDataPoint) (a b : nat) : list Qc :=
  map (fun j => price (nth j data dummy_point)) (range a b).

(** The point appended at iteration [i], given the points recorded so far
    and the new [current_price]. *)
Definition new_point (data : list SimulationDataPoint) (i : nat)
    (current_price : Qc) : SimulationDataPoint :=
  {| day := Z.of_nat i + 1;
     price := round2 current_price;
     sma20 :=
       if (19 <=? i)%nat
       then Some (round2 (qsum (prices_in data (i - 19) i) / Q2Qc 20))
       else None;
     ema10 :=
       if (9 <=? i)%nat
       then Some (round2 (qsum (prices_in data (i - 9) i) / Q2Qc 10))
       else None |}.

(** The recorded prices of a result, in order. *)
Definition prices (r : SimulationResult) : list Qc := map price (data r).

(** The strategies of the performance table. *)
Definition known_strategies : list string :=
  ["sma_crossover"; "ema_crossover"; "macd"; "rsi"; "bollinger"].

(** What the specification calls the simple moving average of the [n]
    prices strictly preceding index [i]. *)
Definition mean_of_preceding (n : nat) (prices : list Qc) (i : nat) : Qc :=
  qsum (firstn n (skipn (i - n) prices)) / Q2Qc (inject_Z (Z.of_nat n)).

(** The stream whose every draw is 0.5, so that the price never moves. *)
Definition steady : rng := fun _ => Q2Qc (1 # 2).

End Simulation.

(* ===================================================================== *)
(** * The market-path generator in binary64 *)
(* ===================================================================== *)

(** [generate_mock_data] once more, with the arithmetic of the interpreter:
    every number is a binary64 float, every operation rounds, and
    [round(x, 2)] goes through the decimal expansion of [x].  [Simulation]
    above follows the same control flow over exact rationals and serves the
    properties that no rounding can change; the values a run records are
    those of this module. *)
Module Simulation64.

Local Open Scope float_scope.

Record SimulationDataPoint : Type := {
  day : Z;
  price : float;
  sma20 : option float;
  ema10 : option float
}.

Record SimulationResult : Type := {
  user_id : string;
  asset : string;
  strategy : string;
  timeframe : Z;
  initial_capital : float;
  final_capital : float;
  roi : float;
  data : list SimulationDataPoint
}.

(** The decimal literals of the source, as the nearest binary64 values. *)
Definition lit_0_1 : float := 0x1.999999999999ap-4.
Definition lit_0_02 : float := 0x1.47ae147ae147bp-6.
Definition lit_0_03 : float := 0x1.eb851eb851eb8p-6.
Definition lit_0_04 : float := 0x1.47ae147ae147bp-5.
Definition lit_0_05 : float := 0x1.999999999999ap-5.
Definition lit_0_15 : float := 0x1.3333333333333p-3.
Definition lit_0_2 : float := 0x1.999999999999ap-3.
Definition lit_0_3 : float := 0x1.3333333333333p-2.
Definition lit_0_35 : float := 0x1.6666666666666p-2.
Definition lit_0_4 : float := 0x1.999999999999ap-2.

(** The exact value of a finite float, as a fraction. *)
Definition exact (x : float) : Q :=
  match Prim2SF x with
  | S754_finite s m e =>
      let n := if s then Z.neg m else Z.pos m in
      match e with
      | Z0 => n # 1
      | Z.pos p => (n * Z.pow 2 (Z.pos p)) # 1
      | Z.neg p => n # (Pos.pow 2 p)
      end
  | _ => 0%Q
  end.

(** Rounding a fraction to the nearest integer, ties to even. *)
Definition round_half_even (x : Q) : Z :=
  let f := Qfloor x in
  match Qcompare (x - inject_Z f) (1 # 2) with
  | Lt => f
  | Gt => (f + 1)%Z
  | Eq => if Z.even f then f else (f + 1)%Z
  end.

(** The binary64 value nearest to [n / 100]: the correctly rounded
    quotient, as the conversion of the decimal string computes it.  A
    count of 0 keeps the sign of the number it comes from. *)
Definition of_hundredths (n : Z) (negative : bool) : float :=
  match n with
  | Z0 => if negative then (- 0%float) else 0%float
  | Z.pos p =>
      SF2Prim (SFdiv prec emax (S754_finite false p 0)
                 (S754_finite false 100 0))
  | Z.neg p =>
      SF2Prim (SFdiv prec emax (S754_finite true p 0)
                 (S754_finite false 100 0))
  end.

(** [round(x, 2)] on a float: infinities, NaN and zeros are returned as
    they are; a finite [x] is written in decimal with two digits after the
    point, correctly rounded from its exact value with ties to the even
    digit, and the decimal is read back as the nearest float. *)
Definition round2 (x : float) : float :=
  match Prim2SF x with
  | S754_finite s _ _ =>
      of_hundredths (round_half_even (exact x * 100)) s
  | _ => x
  end.

(** [max(a, b)]: the first argument unless the second is greater. *)
Definition py_max (a b : float) : float :=
  if a <? b then b else a.

(** The built-in [sum] on a list of floats, in its two versions: up to
    CPython 3.11 the elements are added from left to right, starting from
    the integer 0. *)
Definition sum_left (l : list float) : float :=
  fold_left PrimFloat.add l 0.

(** From CPython 3.12 on the float loop carries a compensation term
    (Neumaier's variant of Kahan's summation), added at the end when it is
    finite and not zero. *)
Definition compensated_step (st : float * float) (x : float)
  : float * float :=
  let '(f_result, c) := st in
  let t := f_result + x in
  if abs x <=? abs f_result
  then (t, c + ((f_result - t) + x))
  else (t, c + ((x - t) + f_result)).

Definition is_finite (x : float) : bool :=
  match Prim2SF x with
  | S754_finite _ _ _ | S754_zero _ => true
  | _ => false
  end.

Definition sum_compensated (l : list float) : float :=
  match l with
  | [] => 0
  | x :: rest =>
      let '(f_result, c) := fold_left compensated_step rest (0 + x, 0) in
      if negb (c =? 0) && is_finite c then f_result + c else f_result
  end.

(** The random source: [draws k] is the value of the [k]-th call of
    [random.random()]; the code threads the number of calls made. *)
Definition rng : Type := nat -> float.

(** [random.uniform(a, b)] is [a + (b - a) * random()]. *)
Definition uniform (draws : rng) (k : nat) (a b : float) : float :=
  a + (b - a) * draws k.

(** [start_price] and [volatility] by asset; the integer start price
    enters the arithmetic as a float. *)
Definition asset_params (asset : string) : float * float :=
  if String.eqb asset "BTC" then (30000, lit_0_03)
  else if String.eqb asset "ETH" then (2000, lit_0_04)
  else (100, lit_0_02).

Definition dummy_point : SimulationDataPoint :=
  {| day := 0; price := 0; sma20 := None; ema10 := None |}.

Definition loop_state : Type :=
  (nat * float * list SimulationDataPoint)%type.

Section Walk.

(** The built-in [sum], whichever version the interpreter has. *)
Variable py_sum : list float -> float.

(** One iteration of [for i in range(timeframe)]. *)
Definition loop_body (draws : rng) (volatility : float)
    (st : loop_state) (i : nat) : loop_state :=
  let '(k, current_price, data) := st in
  let change := current_price * volatility * (draws k - 0.5) in
  let current_price := py_max (current_price + change) lit_0_1 in
  let sma20 :=
    if (19 <=? i)%nat then
      let sma_prices :=
        map (fun j => price (nth j data dummy_point))
            (Simulation.range (i - 19) i) in
      Some (py_sum sma_prices / 20)
    else None in
  let ema10 :=
    if (9 <=? i)%nat then
      let ema_prices :=
        map (fun j => price (nth j data dummy_point))
            (Simulation.range (i - 9) i) in
      Some (py_sum ema_prices / 10)
    else None in
  (S k, current_price,
   (data ++ [ {| day := Z.of_nat i + 1;
                 price := round2 current_price;
                 sma20 := option_map round2 sma20;
                 ema10 := option_map round2 ema10 |} ])%list).

Definition price_loop (draws : rng) (asset : string) (timeframe : Z)
  : loop_state :=
  let '(start_price, volatility) := asset_params asset in
  fold_left (loop_body draws volatility)
            (Simulation.range 0 (Z.to_nat timeframe)) (O, start_price, []).

(** The dictionary literal [strategy_performance]: its five values are
    drawn in this order, whatever the strategy. *)
Definition strategy_performance (draws : rng) (k : nat)
  : list (string * float) :=
  [ ("sma_crossover", uniform draws k (- lit_0_1) lit_0_3);
    ("ema_crossover", uniform draws (k + 1) (- lit_0_05) 0.25);
    ("macd", uniform draws (k + 2) (- lit_0_15) lit_0_35);
    ("rsi", uniform draws (k + 3) (- lit_0_2) lit_0_4);
    ("bollinger", uniform draws (k + 4) (- lit_0_1) lit_0_3) ].

(** The value of the local variable [performance]. *)
Definition performance (draws : rng) (asset strategy : string)
    (timeframe : Z) : float :=
  let '(k, _, _) := price_loop draws asset timeframe in
  Simulation.dict_get (strategy_performance draws k) strategy lit_0_1.

Definition generate_mock_data (draws : rng) (asset strategy : string)
    (timeframe : Z) (initial_capital : float) : SimulationResult :=
  let '(_, _, data) := price_loop draws asset timeframe in
  let performance := performance draws asset strategy timeframe in
  let final_capital := initial_capital * (1 + performance) in
  let roi := performance * 100 in
  {| user_id := "mock-user-id";
     asset := asset;
     strategy := strategy;
     timeframe := timeframe;
     initial_capital := initial_capital;
     final_capital := round2 final_capital;
     roi := round2 roi;
     data := data |}.

(** The loop after [n] iterations. *)
Definition run (draws : rng) (start_price volatility : float) (n : nat)
  : loop_state :=
  fold_left (loop_body draws volatility) (Simulation.range 0 n)
            (O, start_price, []).

(** [current_price] after one more step, the [k]-th draw being used. *)
Definition next_price (draws : rng) (volatility : float) (k : nat)
    (current_price : float) : float :=
  py_max (current_price + current_price * volatility * (draws k - 0.5))
         lit_0_1.

(** The prices recorded at the indices [range(a, b)] of [data]. *)
Definition prices_in (data : list SimulationDataPoint) (a b : nat)
  : list float :=
  map (fun j => price (nth j data dummy_point)) (Simulation.range a b).

(** The point appended at iteration [i], given the points recorded so far
    and the new [current_price]. *)
Definition new_point (data : list SimulationDataPoint) (i : nat)
    (current_price : float) : SimulationDataPoint :=
  {| day := Z.of_nat i + 1;
     price := round2 current_price;
     sma20 :=
       if (19 <=? i)%nat
       then Some (round2 (py_sum (prices_in data (i - 19) i) / 20))
       else None;
     ema10 :=
       if (9 <=? i)%nat
       then Some (round2 (py_sum (prices_in data (i - 9) i) / 10))
       else None |}.

(** The reading of "the performance is drawn from a bounded uniform
    range" used below: one call of the random source, mapped onto an
    interval of positive width the way [random.uniform] does it. *)
Definition drawn_from_range (asset strategy : string) (timeframe : Z)
  : Prop :=
  exists (lo hi : float) (k : nat),
    (lo <? hi) = true /\
    forall draws : rng,
      performance draws asset strategy timeframe = uniform draws k lo hi.

End Walk.

(** The recorded prices of a result, in order. *)
Definition prices (r : SimulationResult) : list float := map price (data r).

(** The performance table read as data: the bounds of each strategy's
    interval and the position of its draw among the five. *)
Definition performance_range (strategy : string)
  : option (float * float * nat) :=
  if String.eqb "sma_crossover" strategy
  then Some (- lit_0_1, lit_0_3, 0%nat)
  else if String.eqb "ema_crossover" strategy
  then Some (- lit_0_05, 0.25, 1%nat)
  else if String.eqb "macd" strategy
  then Some (- lit_0_15, lit_0_35, 2%nat)
  else if String.eqb "rsi" strategy
  then Some (- lit_0_2, lit_0_4, 3%nat)
  else if String.eqb "bollinger" strategy
  then Some (- lit_0_1, lit_0_3, 4%nat)
  else None.

(** The stream whose every draw is 0.5, so that the price never moves. *)
Definition steady : rng := fun _ => 0.5.

End Simulation64.

(* ===================================================================== *)
(** * Feedback generator *)
(* ===================================================================== *)

Module Feedback.
Import Py.

Record EducationalFeedbackResponse : Type := {
  feedback : string;
  key_points : list string;
  improvement_suggestions : list string
}.

(** A value of the [performance] dictionary ([Dict[str, Any]], decoded
    from JSON).  [PyOther] stands for a list or a dictionary, given by the
    text [str()] prints for it. *)
Inductive pyval : Type :=
| PyNone
| PyBool (b : bool)
| PyInt (z : Z)
| PyFloat (f : float)
| PyStr (s : string)
| PyOther (text : string).

Inductive exn : Type :=
| TypeError
| ProviderError (msg : string).

(** A computation that returns or raises. *)
Inductive result (A : Type) : Type :=
| Ok (a : A)
| Raise (e : exn).
Arguments Ok {A} a.
Arguments Raise {A} e.

#[global] Instance result_bind : MBind result :=
  fun A B (f : A -> result B) (m : result A) =>
    match m with
    | Ok a => f a
    | Raise e => Raise e
    end.

(** [try: body  except Exception: handler] *)
Definition try_except {A : Type} (body : result A) (handler : exn -> result A)
  : result A :=
  match body with
  | Ok a => Ok a
  | Raise e => handler e
  end.

(** [d.get(key, default)] *)
Definition dict_get (d : gmap string pyval) (key : string) (dflt : pyval)
  : pyval :=
  match d !! key with
  | Some v => v
  | None => dflt
  end.

(** [v > n] for an integer literal [n]: numbers compare, anything else
    raises [TypeError]. *)
Definition py_gt (v : pyval) (n : Z) : result bool :=
  match v with
  | PyBool b => Ok (Z.b2z b >? n)
  | PyInt z => Ok (z >? n)
  | PyFloat f => Ok (fgt f (float_of_Z n))
  | PyNone | PyStr _ | PyOther _ => Raise TypeError
  end.

Definition nl : string := String (ascii_of_nat 10) EmptyString.

(** The characters of [strip("- ")]. *)
Definition dash_or_space (c : ascii) : bool :=
  Ascii.eqb c "-"%char || Ascii.eqb c " "%char.

(** [[p.strip("- ") for p in section.split("\n")[1:] if p.strip()]] *)
Definition section_items (section : string) : list string :=
  map (strip dash_or_space)
      (filter (fun p => truthy (strip is_space p))
              (tl (split nl section))).

Definition is_key_points (section : string) : bool :=
  contains "key point" (lower section).

Definition is_suggestions (section : string) : bool :=
  contains "improvement" (lower section)
  || contains "suggestion" (lower section).

(** One iteration of [for section in sections], on the pair
    [(key_points, improvement_suggestions)]. *)
Definition section_step (st : list string * list string) (section : string)
  : list string * list string :=
  let '(key_points, improvement_suggestions) := st in
  if is_key_points section then
    ((key_points ++ section_items section)%list, improvement_suggestions)
  else if is_suggestions section then
    (key_points, (improvement_suggestions ++ section_items section)%list)
  else (key_points, improvement_suggestions).

Definition default_key_points : list string :=
  [ "Understanding market trends";
    "Risk management is essential";
    "Past performance is not indicative of future results" ].

Definition default_suggestions : list string :=
  [ "Consider backtesting with different parameters";
    "Combine with other indicators for confirmation" ].

(** The parsing of a provider's answer; the text of this part is the same
    in [_get_deepseek_feedback] and [_get_openai_feedback]. *)
Definition parse_response (content : string) : EducationalFeedbackResponse :=
  let sections := split (nl ++ nl) content in
  let feedback :=
    match sections with
    | first :: _ => first
    | [] => ""
    end in
  let '(key_points, improvement_suggestions) :=
    fold_left section_step sections ([], []) in
  let key_points :=
    match key_points with
    | [] => default_key_points
    | _ => key_points
    end in
  let improvement_suggestions :=
    match improvement_suggestions with
    | [] => default_suggestions
    | _ => improvement_suggestions
    end in
  {| feedback := feedback;
     key_points := firstn 5 key_points;
     improvement_suggestions := firstn 3 improvement_suggestions |}.

(** [strategy_name]: the readable name, or the key itself. *)
Definition strategy_names : list (string * string) :=
  [ ("sma_crossover", "Simple Moving Average Crossover");
    ("ema_crossover", "Exponential Moving Average Crossover");
    ("macd", "Moving Average Convergence Divergence (MACD)");
    ("rsi", "Relative Strength Index (RSI)");
    ("bollinger", "Bollinger Bands") ].

Record template : Type := {
  t_feedback : string;
  t_key_points : list string;
  t_improvement_suggestions : list string
}.

Section Generator.

(** [str(x)] of a float belongs to the interpreter. *)
Variable float_repr : float -> string.

(** [settings.DEEPSEEK_API_KEY] and [settings.OPENAI_API_KEY]. *)
Variables DEEPSEEK_API_KEY OPENAI_API_KEY : string.

(** The two providers: the text of [response.choices[0].message.content]
    for a request built from these four arguments, or the exception the
    call raises. *)
Variables deepseek_chat openai_chat :
  string -> string -> Z -> gmap string pyval -> result string.

(** The text an f-string prints for a value. *)
Definition py_str (v : pyval) : string :=
  match v with
  | PyNone => "None"
  | PyBool true => "True"
  | PyBool false => "False"
  | PyInt z => str_of_int z
  | PyFloat f => float_repr f
  | PyStr s => s
  | PyOther text => text
  end.

Definition _get_deepseek_feedback (asset strategy : string) (timeframe : Z)
    (performance : gmap string pyval) : result EducationalFeedbackResponse :=
  content ← deepseek_chat asset strategy timeframe performance;
  Ok (parse_response content).

Definition _get_openai_feedback (asset strategy : string) (timeframe : Z)
    (performance : gmap string pyval) : result EducationalFeedbackResponse :=
  content ← openai_chat asset strategy timeframe performance;
  Ok (parse_response content).

Definition strategy_templates (asset : string) (timeframe : Z)
  : list (string * template) :=
  [ ("sma_crossover",
     {| t_feedback :=
         "This simulation demonstrates a Simple Moving Average (SMA)"
           ++ " Crossover strategy applied to "
           ++ asset
           ++ " over "
           ++ str_of_int timeframe
           ++ " days. The strategy involves tracking two moving averages -"
           ++ " typically a short-term and long-term SMA - and generating"
           ++ " buy signals when the short-term SMA crosses above the"
           ++ " long-term SMA, and sell signals when it crosses below. This"
           ++ " strategy aims to identify trend changes and can be"
           ++ " effective in trending markets, but may generate false"
           ++ " signals in sideways or highly volatile markets.";
      t_key_points :=
        [ "SMA Crossover strategies work best in trending markets";
          "The choice of SMA periods significantly impacts performance";
          "This strategy typically lags behind price movements due to"
            ++ " the nature of moving averages";
          "False signals are common during sideways market conditions" ];
      t_improvement_suggestions :=
        [ "Consider adding a confirmation indicator like volume or RSI";
          "Test different SMA period combinations to optimize for your"
            ++ " asset";
          "Implement a stop-loss strategy to manage downside risk" ] |});
    ("ema_crossover",
     {| t_feedback :=
         "This simulation demonstrates an Exponential Moving Average"
           ++ " (EMA) Crossover strategy applied to "
           ++ asset
           ++ " over "
           ++ str_of_int timeframe
           ++ " days. EMA crossover strategies are similar to SMA"
           ++ " crossovers but give more weight to recent price data,"
           ++ " making them more responsive to new information. The"
           ++ " strategy generates buy signals when a shorter-term EMA"
           ++ " crosses above a longer-term EMA, and sell signals when it"
           ++ " crosses below. EMA crossovers can respond faster to trend"
           ++ " changes than SMA crossovers, but this responsiveness can"
           ++ " also lead to more false signals in volatile markets.";
      t_key_points :=
        [ "EMA Crossover strategies respond faster to price changes"
            ++ " than SMA strategies";
          "The strategy is more sensitive to recent price movements";
          "While more responsive, EMA crossovers can generate more"
            ++ " false signals in volatile markets";
          "The choice of EMA periods significantly impacts performance" ];
      t_improvement_suggestions :=
        [ "Consider using a price filter to reduce false signals";
          "Test different EMA period combinations to find optimal"
            ++ " settings";
          "Combine with volatility indicators to avoid trading during"
            ++ " choppy markets" ] |});
    ("macd",
     {| t_feedback :=
         "This simulation demonstrates a Moving Average Convergence"
           ++ " Divergence (MACD) strategy applied to "
           ++ asset
           ++ " over "
           ++ str_of_int timeframe
           ++ " days. MACD is a trend-following momentum indicator that"
           ++ " shows the relationship between two moving averages of an"
           ++ " asset's price. The MACD line is calculated by subtracting"
           ++ " the 26-period EMA from the 12-period EMA. A 9-period EMA of"
           ++ " the MACD, called the 'signal line', is then plotted on top"
           ++ " of the MACD line. Buy signals typically occur when the MACD"
           ++ " line crosses above the signal line, and sell signals when"
           ++ " it crosses below. MACD can also show divergence with price,"
           ++ " potentially indicating trend reversals.";
      t_key_points :=
        [ "MACD combines trend following and momentum in one indicator";
          "Signal line crossovers are the primary trading signals";
          "Divergence between MACD and price can indicate potential"
            ++ " reversals";
          "MACD histogram shows the difference between MACD and signal"
            ++ " line" ];
      t_improvement_suggestions :=
        [ "Use MACD in conjunction with price action analysis";
          "Consider the overall trend direction before taking MACD"
            ++ " signals";
          "Look for MACD divergence to identify potential trend"
            ++ " exhaustion" ] |});
    ("rsi",
     {| t_feedback :=
         "This simulation demonstrates a Relative Strength Index (RSI)"
           ++ " strategy applied to "
           ++ asset
           ++ " over "
           ++ str_of_int timeframe
           ++ " days. RSI is a momentum oscillator that measures the speed"
           ++ " and change of price movements on a scale from 0 to 100."
           ++ " Traditional interpretation considers RSI values over 70 as"
           ++ " overbought and under 30 as oversold, potentially signaling"
           ++ " reversal points. RSI strategies can be effective for"
           ++ " identifying potential reversal points in the market, but"
           ++ " can lead to premature entries during strong trends. The"
           ++ " indicator works best in ranging markets and should be used"
           ++ " with caution during strong trending periods.";
      t_key_points :=
        [ "RSI measures the magnitude of recent price changes to"
            ++ " evaluate overbought or oversold conditions";
          "Traditional overbought level is 70 and oversold level is 30";
          "RSI can remain in overbought/oversold territory during"
            ++ " strong trends";
          "RSI divergence with price can signal potential trend"
            ++ " reversals" ];
      t_improvement_suggestions :=
        [ "Adjust the RSI overbought/oversold levels based on the"
            ++ " asset's volatility";
          "Combine RSI with trend indicators to avoid counter-trend"
            ++ " trades";
          "Look for RSI divergence to confirm potential reversal"
            ++ " signals" ] |});
    ("bollinger",
     {| t_feedback :=
         "This simulation demonstrates a Bollinger Bands strategy"
           ++ " applied to "
           ++ asset
           ++ " over "
           ++ str_of_int timeframe
           ++ " days. Bollinger Bands consist of a middle band (typically a"
           ++ " 20-period SMA) with an upper and lower band set at standard"
           ++ " deviations away from the middle band. The bands expand and"
           ++ " contract based on volatility. Common strategies include"
           ++ " buying when the price touches the lower band and selling"
           ++ " when it touches the upper band (mean reversion), or"
           ++ " entering trades when the price breaks out of the bands"
           ++ " after a period of low volatility (volatility expansion)."
           ++ " Bollinger Bands are versatile and can be used in both"
           ++ " trending and ranging markets with appropriate adjustments.";
      t_key_points :=
        [ "Bollinger Bands adapt to market volatility by widening and"
            ++ " narrowing";
          "Price touching the bands alone is not necessarily a signal"
            ++ " to trade";
          "Band width indicates market volatility - narrow bands often"
            ++ " precede significant moves";
          "The middle band (SMA) can act as support/resistance in"
            ++ " trending markets" ];
      t_improvement_suggestions :=
        [ "Combine with volume indicators to confirm breakouts";
          "Use additional indicators to determine if the market is"
            ++ " trending or ranging";
          "Consider using Bollinger Band %B or Bandwidth for additional"
            ++ " insights" ] |}) ].

Definition default_template (asset strategy_name : string) (timeframe : Z)
    (performance : gmap string pyval) : template :=
  {| t_feedback :=
     "This simulation demonstrates a "
       ++ strategy_name
       ++ " strategy applied to "
       ++ asset
       ++ " over "
       ++ str_of_int timeframe
       ++ " days. The performance shows an ROI of "
       ++ py_str (dict_get performance "roi" (PyStr "unknown"))
       ++ "%. Trading strategies can perform differently depending on"
       ++ " market conditions, timeframes, and specific assets. It's"
       ++ " important to understand the underlying principles of the"
       ++ " strategy and how various market factors can influence its"
       ++ " performance.";
  t_key_points :=
    [ "Different strategies perform better in different market"
     ++ " conditions";
      "Risk management is essential for long-term success";
      "Past performance is not indicative of future results";
      "Understanding the underlying principles of a strategy is"
     ++ " more valuable than blindly following signals" ];
  t_improvement_suggestions :=
    [ "Backtest the strategy across different market conditions";
      "Consider combining multiple indicators for confirmation";
      "Implement proper position sizing and risk management rules" ] |}.

Definition _get_template_feedback (asset strategy : string) (timeframe : Z)
    (performance : gmap string pyval) : result EducationalFeedbackResponse :=
  let strategy_name := Simulation.dict_get strategy_names strategy strategy in
  let template :=
    Simulation.dict_get (strategy_templates asset timeframe) strategy
      (default_template asset strategy_name timeframe performance) in
  let roi := dict_get performance "roi" (PyInt 0) in
  performance_feedback ←
    (above15 ← py_gt roi 15;
     if above15 : bool then
       Ok (
          "The strategy performed well with an ROI of "
            ++ py_str roi
            ++ "%, but remember that past performance doesn't guarantee"
            ++ " future results. Market conditions can change rapidly.")
     else
       above0 ← py_gt roi 0;
       if above0 : bool then
         Ok (
            "The strategy showed a positive ROI of "
              ++ py_str roi
              ++ "%, which is a moderate result. Consider how different market"
              ++ " conditions might affect performance.")
       else
         Ok (
            "The strategy resulted in a negative ROI of "
              ++ py_str roi
              ++ "%. This provides a valuable learning opportunity to"
              ++ " understand what factors contributed to the"
              ++ " underperformance."));
  let combined_feedback :=
    t_feedback template ++ " " ++ performance_feedback in
  Ok {| feedback := combined_feedback;
        key_points := t_key_points template;
        improvement_suggestions := t_improvement_suggestions template |}.

Definition apology : EducationalFeedbackResponse :=
  {| feedback :=
       "Unable to generate feedback at this time. Please try again later.";
     key_points := ["System is currently experiencing issues."];
     improvement_suggestions := ["Please try again later."] |}.

(** A tier guarded by [if key:] and [try: return ... except Exception:]:
    its result if it returns one, otherwise whatever comes next. *)
Definition tier (key : string)
    (attempt next : result EducationalFeedbackResponse)
  : result EducationalFeedbackResponse :=
  if truthy key then try_except attempt (fun _ => next) else next.

Definition get_educational_feedback (asset strategy : string)
    (timeframe : Z) (performance : gmap string pyval)
  : EducationalFeedbackResponse :=
  let body :=
    tier DEEPSEEK_API_KEY
      (_get_deepseek_feedback asset strategy timeframe performance)
      (tier OPENAI_API_KEY
         (_get_openai_feedback asset strategy timeframe performance)
         (_get_template_feedback asset strategy timeframe performance)) in
  match body with
  | Ok r => r
  | Raise _ => apology
  end.

End Generator.

(** ** Notions used to state the properties *)

(** The first piece of [s.split(sep)]: the text before the first
    occurrence of [sep]. *)
Fixpoint first_piece (sep s : string) : string :=
  match s with
  | EmptyString => EmptyString
  | String c s' =>
      if startswith sep s then EmptyString
      else String c (first_piece sep s')
  end.

(** A parsed list, or the fixed default when nothing was parsed. *)
Definition or_default (dflt l : list string) : list string :=
  match l with
  | [] => dflt
  | _ => l
  end.

(** The specification's reading of the narrative: the first section that
    is neither a key-point section nor a suggestion section. *)
Definition spec_narrative (sections : list string) : string :=
  match
    List.filter (fun s => negb (is_key_points s || is_suggestions s)) sections
  with
  | first :: _ => first
  | [] => ""
  end.

(** The specification's reading of a section's items: its lines that start
    with the bullet prefix, without that prefix. *)
Definition spec_bullets (section : string) : list string :=
  map (drop 2) (List.filter (startswith "- ") (split nl section)).

(** The value of the local variable [template]. *)
Definition template_for (float_repr : float -> string)
    (asset strategy : string) (timeframe : Z)
    (performance : gmap string pyval) : template :=
  Simulation.dict_get (strategy_templates asset timeframe) strategy
    (default_template float_repr asset
       (Simulation.dict_get strategy_names strategy strategy)
       timeframe performance).

(** The value compared with 15 and 0 in the template tier. *)
Definition roi_of (performance : gmap string pyval) : pyval :=
  dict_get performance "roi" (PyInt 0).

(** The values Python compares with an integer without raising. *)
Definition is_number (v : pyval) : bool :=
  match v with
  | PyBool _ | PyInt _ | PyFloat _ => true
  | PyNone | PyStr _ | PyOther _ => false
  end.

(** How a template narrative names the strategy: the wording of the
    strategy's own template, and the given key for any other strategy. *)
Definition strategy_phrase (strategy : string) : string :=
  Simulation.dict_get
    [ ("sma_crossover", "Simple Moving Average (SMA) Crossover strategy");
      ("ema_crossover", "Exponential Moving Average (EMA) Crossover strategy");
      ("macd", "Moving Average Convergence Divergence (MACD) strategy");
      ("rsi", "Relative Strength Index (RSI) strategy");
      ("bollinger", "Bollinger Bands strategy") ]
    strategy (strategy ++ " strategy").

(** A provider tier that yields nothing: no key configured, or the call
    raises. *)
Definition unavailable (key : string)
    (attempt : result EducationalFeedbackResponse) : Prop :=
  truthy key = false \/ exists e, attempt = Raise e.

(** The sentence appended to the narrative when the ROI is 0. *)
Definition learning_sentence : string :=
  "The strategy resulted in a negative ROI of 0%. This provides a valuable"
  ++ " learning opportunity to understand what factors contributed to the"
  ++ " underperformance.".

(** A response of the shape every tier promises. *)
Definition well_formed (r : EducationalFeedbackResponse) : Prop :=
  (List.length (key_points r) <= 5)%nat /\
  (List.length (improvement_suggestions r) <= 3)%nat /\
  feedback r <> "".

End Feedback.

(* ===================================================================== *)
(** * Further notions used to state properties *)
(* ===================================================================== *)

Module Notions.
Import Py.

(** A text made of word characters only: a single word, or the empty
    text. *)
Fixpoint all_word (s : string) : bool :=
  match s with
  | EmptyString => true
  | String c s' => is_word c && all_word s'
  end.

(** Membership of a word in a lexicon. *)
Definition in_lexicon (keywords : list string) (word : string) : bool :=
  existsb (String.eqb word) keywords.

(** The first and the last character of a string. *)
Definition first_char (s : string) : option ascii := next_char s.

Fixpoint last_char (s : string) : option ascii :=
  match s with
  | EmptyString => None
  | String c EmptyString => Some c
  | String _ s' => last_char s'
  end.

(** Does the character, if any, satisfy the predicate? *)
Definition holds_opt (f : ascii -> bool) (o : option ascii) : bool :=
  match o with
  | Some c => f c
  | None => false
  end.

(** The three performance sentences of the template tier, for an ROI
    printed as [shown]. *)
Definition well_sentence (shown : string) : string :=
  "The strategy performed well with an ROI of " ++ shown
  ++ "%, but remember that past performance doesn't guarantee future"
  ++ " results. Market conditions can change rapidly.".

Definition moderate_sentence (shown : string) : string :=
  "The strategy showed a positive ROI of " ++ shown
  ++ "%, which is a moderate result. Consider how different market"
  ++ " conditions might affect performance.".

Definition negative_sentence (shown : string) : string :=
  "The strategy resulted in a negative ROI of " ++ shown
  ++ "%. This provides a valuable learning opportunity to understand what"
  ++ " factors contributed to the underperformance.".

(** The test behind the extreme and the balanced scores, on one pair of
    counts: a one-sided pair gives exactly 1.0 or -1.0, an even pair 0.0. *)
Definition extreme_ok (p n : Z) : bool :=
  (if (n =? 0) && (0 <? p)
   then PrimFloat.Leibniz.eqb (Sentiment.quotient p n) 1%float else true)
  && (if (p =? 0) && (0 <? n)
      then PrimFloat.Leibniz.eqb (Sentiment.quotient p n) (-1)%float
      else true)
  && (if (p =? n) && (0 <? p)
      then PrimFloat.Leibniz.eqb (Sentiment.quotient p n) 0%float else true).

End Notions.

(* ===================================================================== *)
(** * The HTTP handlers and their collaborators *)
(* ===================================================================== *)

Module Http.

(** What a handler raises: an [HTTPException] with its status code and
    detail, or any other exception, given by its message. *)
Inductive error : Type :=
| HTTPException (status_code : Z) (detail : string)
| OtherException (message : string).

(** A handler returns or raises. *)
Inductive outcome (A : Type) : Type :=
| Returns (a : A)
| Raises (e : error).
Arguments Returns {A} a.
Arguments Raises {A} e.

#[global] Instance outcome_bind : MBind outcome :=
  fun A B (f : A -> outcome B) (m : outcome A) =>
    match m with
    | Returns a => f a
    | Raises e => Raises e
    end.

(** The Redis client: the entries of the server, each with the expiry it
    was stored with, and, when the server cannot be reached, the message of
    the exception every command raises.  Expiry itself (the passing of time)
    is not part of the model: an entry stays until it is overwritten. *)
Record redis_client : Type := {
  failure : option string;
  entries : gmap string (Z * string)
}.

(** [redis.get(key)] *)
Definition redis_get (r : redis_client) (key : string) : outcome (option string) :=
  match failure r with
  | Some message => Raises (OtherException message)
  | None => Returns (snd <$> entries r !! key)
  end.

(** [redis.setex(key, seconds, value)] *)
Definition redis_setex (r : redis_client) (key : string) (seconds : Z)
    (value : string) : outcome redis_client :=
  match failure r with
  | Some message => Raises (OtherException message)
  | None =>
      Returns {| failure := None;
                 entries := <[key := (seconds, value)]> (entries r) |}
  end.

Definition HTTP_400_BAD_REQUEST : Z := 400.
Definition HTTP_401_UNAUTHORIZED : Z := 401.
Definition HTTP_404_NOT_FOUND : Z := 404.
Definition HTTP_500_INTERNAL_SERVER_ERROR : Z := 500.

Section Framework.

(** [str(e)] of an [HTTPException] belongs to the framework. *)
Variable str_http : Z -> string -> string.

(** [str(e)] *)
Definition str_error (e : error) : string :=
  match e with
  | HTTPException status_code detail => str_http status_code detail
  | OtherException message => message
  end.

(** [try: body  except Exception as e: raise HTTPException(500, str(e))] *)
Definition except_500 {A : Type} (body : outcome A) : outcome A :=
  match body with
  | Returns a => Returns a
  | Raises e =>
      Raises (HTTPException HTTP_500_INTERNAL_SERVER_ERROR (str_error e))
  end.

(** The same with [except HTTPException: raise] in front. *)
Definition except_http_then_500 {A : Type} (body : outcome A) : outcome A :=
  match body with
  | Returns a => Returns a
  | Raises (HTTPException status_code detail) =>
      Raises (HTTPException status_code detail)
  | Raises (OtherException message) =>
      Raises (HTTPException HTTP_500_INTERNAL_SERVER_ERROR message)
  end.

End Framework.

(** The outcomes that are a result or a response with status 500. *)
Definition returns_or_500 {A : Type} (o : outcome A) : Prop :=
  match o with
  | Returns _ => True
  | Raises (HTTPException status_code _) =>
      status_code = HTTP_500_INTERNAL_SERVER_ERROR
  | Raises (OtherException _) => False
  end.

End Http.

(* ===================================================================== *)
(** * [app/api/ai.py] *)
(* ===================================================================== *)

Module AiApi.
Import Py Http.

Section Handlers.

Variable str_http : Z -> string -> string.

(** The body shared by the three handlers: look the key up, answer from
    the cache when the entry is not empty, otherwise compute, store for one
    hour and answer.  [to_json] and [parse_raw] are the model's [.json()]
    and [.parse_raw()]; the handler returns its response together with the
    cache it leaves. *)
Definition cached_call {R : Type} (to_json : R -> string)
    (parse_raw : string -> outcome R) (cache_key : string) (compute : R)
    (redis : redis_client) : outcome (R * redis_client) :=
  except_500 str_http
    (cached_result ← redis_get redis cache_key;
     match cached_result with
     | Some (String c raw) =>
         response ← parse_raw (String c raw);
         Returns (response, redis)
     | Some EmptyString | None =>
         let result := compute in
         redis' ← redis_setex redis cache_key 3600 (to_json result);
         Returns (result, redis')
     end).

(** [hash(s)] of the interpreter, and [json.dumps] of a list of floats. *)
Variable py_hash : string -> Z.
Variable json_dumps : list float -> string.

Section Sentiment.
Variable to_json : Sentiment.SentimentAnalysisResponse -> string.
Variable parse_raw : string -> outcome Sentiment.SentimentAnalysisResponse.

Definition sentiment_key (text : string) : string :=
  "sentiment:" ++ str_of_int (py_hash text).

Definition sentiment_analysis (text : string) (redis : redis_client)
  : outcome (Sentiment.SentimentAnalysisResponse * redis_client) :=
  cached_call to_json parse_raw (sentiment_key text)
    (Sentiment.analyze_sentiment text) redis.

End Sentiment.

Section Anomalies.
Variables np_mean np_std : list float -> float.
Variable to_json : Anomaly.AnomalyDetectionResponse -> string.
Variable parse_raw : string -> outcome Anomaly.AnomalyDetectionResponse.

Definition anomalies_key (data : list float) (window_size : Z) : string :=
  "anomalies:" ++ str_of_int (py_hash (json_dumps data)) ++ "-"
  ++ str_of_int window_size.

Definition anomaly_detection (data : list float) (window_size : Z)
    (redis : redis_client) : outcome (Anomaly.AnomalyDetectionResponse * redis_client) :=
  cached_call to_json parse_raw (anomalies_key data window_size)
    (Anomaly.detect_anomalies np_mean np_std data window_size) redis.

End Anomalies.

Section Feedback.
Variable float_repr : float -> string.
Variables DEEPSEEK_API_KEY OPENAI_API_KEY : string.
Variables deepseek_chat openai_chat :
  string -> string -> Z -> gmap string Feedback.pyval
  -> Feedback.result string.
Variable to_json : Feedback.EducationalFeedbackResponse -> string.
Variable parse_raw : string -> outcome Feedback.EducationalFeedbackResponse.

Definition feedback_key (asset strategy : string) (timeframe : Z) : string :=
  "feedback:" ++ asset ++ "-" ++ strategy ++ "-" ++ str_of_int timeframe.

Definition educational_feedback (asset strategy : string) (timeframe : Z)
    (performance : gmap string Feedback.pyval) (redis : redis_client)
  : outcome (Feedback.EducationalFeedbackResponse * redis_client) :=
  cached_call to_json parse_raw (feedback_key asset strategy timeframe)
    (Feedback.get_educational_feedback float_repr DEEPSEEK_API_KEY
       OPENAI_API_KEY deepseek_chat openai_chat asset strategy timeframe
       performance)
    redis.

End Feedback.

End Handlers.

End AiApi.

(* ===================================================================== *)
(** * [app/api/simulations.py]: the handlers *)
(* ===================================================================== *)

Module SimulationApi.
Import Py Http.

(** A [SimulationResult] as the handlers see it: the generated result with
    the two fields the environment provides, the UUID and the time stamp. *)
Record StoredSimulation : Type := {
  id : string;
  created_at : string;
  result : Simulation.SimulationResult
}.

Section Handlers.

Variable str_http : Z -> string -> string.

(** [.json()] and [.parse_raw()] of the model. *)
Variable to_json : StoredSimulation -> string.
Variable parse_raw : string -> outcome StoredSimulation.

Definition simulation_key (simulation_id : string) : string :=
  "simulation:" ++ simulation_id.

(** [create_simulation]: [uuid] and [now] are what [uuid.uuid4()] and the
    clock give during the call, [draws] the random source. *)
Definition create_simulation (uuid now : string) (draws : Simulation.rng)
    (asset strategy : string) (timeframe : Z) (initial_capital : Qc)
    (redis : redis_client) : outcome (StoredSimulation * redis_client) :=
  except_500 str_http
    (let result :=
       {| id := uuid;
          created_at := now;
          result :=
            Simulation.generate_mock_data draws asset strategy timeframe
              initial_capital |} in
     redis' ← redis_setex redis (simulation_key (id result)) 3600
                (to_json result);
     Returns (result, redis')).

(** [get_simulation] *)
Definition get_simulation (simulation_id : string) (redis : redis_client)
  : outcome StoredSimulation :=
  except_http_then_500
    (cached_simulation ← redis_get redis (simulation_key simulation_id);
     match cached_simulation with
     | Some (String c raw) => parse_raw (String c raw)
     | Some EmptyString | None =>
         Raises (HTTPException HTTP_404_NOT_FOUND "Simulation not found")
     end).

End Handlers.

(** [random.choice(seq)] for a non-empty list: the element at the index
    the random source picks below [len(seq)]; [picks j] is the outcome of
    its [j]-th pick, reduced to the length at hand. *)
Definition choice {A : Type} (picks : nat -> nat) (j : nat) (seq : list A)
    (default : A) : A :=
  nth (picks j mod List.length seq) seq default.

Definition mock_assets : list string := ["BTC"; "ETH"; "AAPL"; "MSFT"; "TSLA"].
Definition mock_strategies : list string :=
  ["sma_crossover"; "ema_crossover"; "macd"; "rsi"; "bollinger"].
Definition mock_timeframes : list Z := [7; 14; 30; 60; 90].

(** The state of the random source between two mock simulations: the
    number of calls of [random.random()] and the number of picks so far. *)
Definition source_state : Type := (nat * nat)%type.

(** One element of the comprehension of [list_simulations]: three picks,
    then a simulation that draws from where the previous one stopped. *)
Definition mock_simulation (draws : Simulation.rng) (picks : nat -> nat)
    (st : source_state) : Simulation.SimulationResult * source_state :=
  let '(k, j) := st in
  let asset := choice picks j mock_assets "" in
  let strategy := choice picks (j + 1) mock_strategies "" in
  let timeframe := choice picks (j + 2) mock_timeframes 0 in
  (Simulation.generate_mock_data (fun n => draws (k + n)%nat) asset strategy
     timeframe (Q2Qc 10000),
   ((k + Z.to_nat timeframe + 5)%nat, (j + 3)%nat)).

(** [[... for _ in range(n)]] *)
Fixpoint mock_simulations (draws : Simulation.rng) (picks : nat -> nat)
    (n : nat) (st : source_state) : list Simulation.SimulationResult :=
  match n with
  | O => []
  | S n' =>
      let '(r, st') := mock_simulation draws picks st in
      r :: mock_simulations draws picks n' st'
  end.

(** [list_simulations]: [offset] is accepted and not used. *)
Definition list_simulations (draws : Simulation.rng) (picks : nat -> nat)
    (limit offset : Z) : list Simulation.SimulationResult :=
  mock_simulations draws picks (Z.to_nat (Z.min limit 5)) (O, O).

(** What every mock simulation looks like. *)
Definition mock_shape (r : Simulation.SimulationResult) : Prop :=
  In (Simulation.asset r) mock_assets /\
  In (Simulation.strategy r) Simulation.known_strategies /\
  In (Simulation.timeframe r) mock_timeframes /\
  Simulation.initial_capital r = Q2Qc 10000 /\
  Z.of_nat (List.length (Simulation.data r)) = Simulation.timeframe r.

End SimulationApi.

(* ===================================================================== *)
(** * [app/api/auth.py] *)
(* ===================================================================== *)

Module AuthApi.
Import Py Http.

(** What the identity provider answers: an error with its message, or
    none; the user and the session are read only when there is no error. *)
Record auth_response : Type := {
  error : option string;
  user_id : string;
  user_email : string;
  access_token : string
}.

Inductive register_reply : Type :=
| UserResponse (id email : string).

Inductive login_reply : Type :=
| TokenResponse (access_token token_type : string).

Inductive message_reply : Type :=
| Message (message : string).

Section Handlers.

Variable str_http : Z -> string -> string.

(** [if response.error: raise HTTPException(status, detail)] *)
Definition check_error (status_code : Z) (detail : string -> string)
    (response : auth_response) : outcome unit :=
  match error response with
  | Some message => Raises (HTTPException status_code (detail message))
  | None => Returns tt
  end.

(** [register]; [sign_up] is the outcome of [supabase.auth.sign_up]. *)
Definition register (sign_up : outcome auth_response)
  : outcome register_reply :=
  except_500 str_http
    (response ← sign_up;
     _ ← check_error HTTP_400_BAD_REQUEST (fun message => message) response;
     Returns (UserResponse (user_id response) (user_email response))).

(** [login] *)
Definition login (sign_in_with_password : outcome auth_response)
  : outcome login_reply :=
  except_500 str_http
    (response ← sign_in_with_password;
     _ ← check_error HTTP_401_UNAUTHORIZED
           (fun _ => "Invalid credentials") response;
     Returns (TokenResponse (access_token response) "bearer")).

(** [logout] *)
Definition logout (sign_out : outcome auth_response)
  : outcome message_reply :=
  except_500 str_http
    (response ← sign_out;
     _ ← check_error HTTP_400_BAD_REQUEST (fun message => message) response;
     Returns (Message "Successfully logged out")).

(** [reset_password] *)
Definition reset_password (reset_password_email : outcome auth_response)
  : outcome message_reply :=
  except_500 str_http
    (response ← reset_password_email;
     _ ← check_error HTTP_400_BAD_REQUEST (fun message => message) response;
     Returns (Message "Password reset email sent")).

End Handlers.

End AuthApi.

(* ===================================================================== *)
(** * Properties of the sentiment scorer *)
(* ===================================================================== *)

Section SentimentFacts.
Import Py Sentiment.

Lemma count_from_nonneg pat prev s : 0 <= count_from pat prev s.
Proof.
  revert prev. induction s as [|c s IH]; intros prev; simpl.
  - destruct (match_here pat prev ""); lia.
  - specialize (IH (Some c)). destruct (match_here pat prev (String c s)); lia.
Qed.

(** [re.search] finds a match exactly when there is at least one. *)
Lemma search_from_count pat prev s :
  search_from pat prev s = (0 <? count_from pat prev s).
Proof.
  revert prev. induction s as [|c s IH]; intros prev; simpl.
  - destruct (match_here pat prev ""); reflexivity.
  - rewrite IH. pose proof (count_from_nonneg pat (Some c) s) as Hc.
    destruct (match_here pat prev (String c s)); simpl.
    + symmetry. apply Z.ltb_lt. lia.
    + reflexivity.
Qed.

Lemma search_as_min keyword t :
  (if re_search (word_pattern keyword) t then 1 else 0)
  = Z.min 1 (occurrences keyword t).
Proof.
  unfold re_search, occurrences, re_count. rewrite search_from_count.
  pose proof (count_from_nonneg (word_pattern keyword) None t) as Hc.
  destruct (0 <? count_from (word_pattern keyword) None t) eqn:E.
  - apply Z.ltb_lt in E. lia.
  - apply Z.ltb_ge in E. lia.
Qed.

Lemma keyword_count_acc keywords t acc :
  fold_left
    (fun acc keyword =>
       if re_search (word_pattern keyword) t then acc + 1 else acc)
    keywords acc
  = acc + presence_sum keywords t.
Proof.
  revert acc. induction keywords as [|k ks IH]; intros acc; simpl.
  - lia.
  - rewrite IH. rewrite <- search_as_min.
    destruct (re_search (word_pattern k) t); lia.
Qed.

Lemma keyword_count_presence keywords t :
  keyword_count keywords t = presence_sum keywords t.
Proof. unfold keyword_count. rewrite keyword_count_acc. lia. Qed.

Lemma presence_sum_bounds keywords t :
  0 <= presence_sum keywords t <= Z.of_nat (List.length keywords).
Proof.
  induction keywords as [|k ks IH].
  - simpl. lia.
  - change (presence_sum (k :: ks) t)
      with (Z.min 1 (occurrences k t) + presence_sum ks t).
    pose proof (count_from_nonneg (word_pattern k) None t) as Hc.
    unfold occurrences, re_count.
    change (List.length (k :: ks)) with (S (List.length ks)). lia.
Qed.

Lemma positive_count_range text : 0 <= positive_count text <= 23.
Proof.
  unfold positive_count. rewrite keyword_count_presence.
  apply (presence_sum_bounds positive_keywords).
Qed.

Lemma negative_count_range text : 0 <= negative_count text <= 23.
Proof.
  unfold negative_count. rewrite keyword_count_presence.
  apply (presence_sum_bounds negative_keywords).
Qed.

End SentimentFacts.

(** C1, at a failing input: the comment above the two counts reads "Count
    occurrences of keywords"; in ["gain gain"] the term occurs twice as a
    whole word, and [positive_count] is 1, not the sum of the occurrences. *)
Lemma positive_count_ignores_repeats :
  Sentiment.occurrences "gain" (Py.lower "gain gain") = 2 /\
  Sentiment.positive_count "gain gain" = 1 /\
  Sentiment.positive_count "gain gain"
  <> Sentiment.occurrence_sum Sentiment.positive_keywords (Py.lower "gain gain").
Proof. repeat split; vm_compute; congruence. Qed.

(** What the two counts are for every text: the number of terms of the
    lexicon that have at least one whole-word match in the lower-cased text;
    a term contributes 1 however often it occurs, so each count lies between
    0 and 23. *)
Theorem keyword_counts_are_presence_counts (text : string) :
  Sentiment.positive_count text
  = Sentiment.presence_sum Sentiment.positive_keywords (Py.lower text) /\
  Sentiment.negative_count text
  = Sentiment.presence_sum Sentiment.negative_keywords (Py.lower text) /\
  0 <= Sentiment.positive_count text <= 23 /\
  0 <= Sentiment.negative_count text <= 23.
Proof.
  split; [apply keyword_count_presence|].
  split; [apply keyword_count_presence|].
  split; [apply positive_count_range | apply negative_count_range].
Qed.

Section SentimentScore.
Import Py Sentiment.

Lemma quotient_table :
  forallb (fun p => forallb (quotient_ok p) count_range) count_range = true.
Proof. vm_compute. reflexivity. Qed.

Lemma in_count_range z : 0 <= z <= 23 -> In z count_range.
Proof.
  intros Hz. unfold count_range. apply in_map_iff.
  exists (Z.to_nat z). split; [lia|]. apply in_seq. lia.
Qed.

Lemma quotient_ok_all p n :
  0 <= p <= 23 -> 0 <= n <= 23 -> quotient_ok p n = true.
Proof.
  intros Hp Hn. pose proof quotient_table as T.
  rewrite forallb_forall in T. specialize (T p (in_count_range p Hp)).
  rewrite forallb_forall in T. exact (T n (in_count_range n Hn)).
Qed.

Lemma quotient_facts p n :
  0 <= p <= 23 -> 0 <= n <= 23 -> p + n <> 0 ->
  PrimFloat.leb (-1)%float (quotient p n) = true /\
  PrimFloat.leb (quotient p n) 1%float = true /\
  fgt (quotient p n) 0.25%float = (p + n <? 4 * (p - n)) /\
  flt (quotient p n) (-0.25)%float = (4 * (p - n) <? - (p + n)).
Proof.
  intros Hp Hn Hne. pose proof (quotient_ok_all p n Hp Hn) as H.
  unfold quotient_ok in H.
  destruct (p + n =? 0) eqn:E; [apply Z.eqb_eq in E; lia|].
  simpl in H. repeat (apply andb_prop in H; destruct H as [H ?]).
  repeat split; try assumption; apply Bool.eqb_prop; assumption.
Qed.

End SentimentScore.

(** The scorer on abstract counts: what [analyze_sentiment] computes from
    [positive_count] and [negative_count]. *)
Lemma analyze_sentiment_unfold (text : string) :
  Sentiment.analyze_sentiment text
  = let p := Sentiment.positive_count text in
    let n := Sentiment.negative_count text in
    if p + n =? 0 then
      {| Sentiment.sentiment := "neutral";
         Sentiment.score := 0%float;
         Sentiment.explanation :=
           "No clear sentiment indicators found in the text." |}
    else if Py.fgt (Sentiment.quotient p n) 0.25%float then
      {| Sentiment.sentiment := "positive";
         Sentiment.score := Sentiment.quotient p n;
         Sentiment.explanation :=
           "The text contains more positive financial indicators ("
           ++ Py.str_of_int p ++ ") than negative ones ("
           ++ Py.str_of_int n ++ ")." |}
    else if Py.flt (Sentiment.quotient p n) (-0.25)%float then
      {| Sentiment.sentiment := "negative";
         Sentiment.score := Sentiment.quotient p n;
         Sentiment.explanation :=
           "The text contains more negative financial indicators ("
           ++ Py.str_of_int n ++ ") than positive ones ("
           ++ Py.str_of_int p ++ ")." |}
    else
      {| Sentiment.sentiment := "neutral";
         Sentiment.score := Sentiment.quotient p n;
         Sentiment.explanation :=
           "The text contains a balanced mix of positive ("
           ++ Py.str_of_int p ++ ") and negative ("
           ++ Py.str_of_int n ++ ") financial indicators." |}.
Proof.
  unfold Sentiment.analyze_sentiment, Sentiment.quotient. cbv zeta.
  reflexivity.
Qed.

(** C6: for every text, with no keyword match the result is score 0.0,
    category neutral and the "no clear sentiment indicators" explanation;
    otherwise the score is (positive_count - negative_count) divided by
    their sum, it lies in [-1, 1], and in every case the category is
    positive when the score exceeds 0.25, negative when it is below -0.25
    and neutral otherwise. *)
Theorem analyze_sentiment_score_category (text : string) :
  let p := Sentiment.positive_count text in
  let n := Sentiment.negative_count text in
  let r := Sentiment.analyze_sentiment text in
  (p + n = 0 ->
   Sentiment.score r = 0%float /\
   Sentiment.sentiment r = "neutral" /\
   Sentiment.explanation r
   = "No clear sentiment indicators found in the text.") /\
  (p + n <> 0 ->
   Sentiment.score r
   = PrimFloat.div (Py.float_of_Z (p - n)) (Py.float_of_Z (p + n))) /\
  PrimFloat.leb (-1)%float (Sentiment.score r) = true /\
  PrimFloat.leb (Sentiment.score r) 1%float = true /\
  Sentiment.sentiment r
  = (if Py.fgt (Sentiment.score r) 0.25%float then "positive"
     else if Py.flt (Sentiment.score r) (-0.25)%float then "negative"
     else "neutral").
Proof.
  cbv zeta. rewrite analyze_sentiment_unfold. cbv zeta.
  generalize (positive_count_range text) (negative_count_range text).
  generalize (Sentiment.positive_count text) (Sentiment.negative_count text).
  intros p n Hp Hn.
  fold (Sentiment.quotient p n).
  destruct (p + n =? 0) eqn:E.
  - apply Z.eqb_eq in E.
    split; [intros _; split; [reflexivity|split; reflexivity]|].
    split; [intros Hne; lia|].
    split; [reflexivity|]. split; reflexivity.
  - apply Z.eqb_neq in E.
    destruct (quotient_facts p n Hp Hn E) as (Hlo & Hhi & _ & _).
    split; [intros H0; lia|].
    destruct (Py.fgt (Sentiment.quotient p n) 0.25%float) eqn:G.
    + cbn [Sentiment.score Sentiment.sentiment]. rewrite G.
      split; [intros _; reflexivity|].
      split; [assumption|]. split; [assumption|reflexivity].
    + destruct (Py.flt (Sentiment.quotient p n) (-0.25)%float) eqn:L;
        cbn [Sentiment.score Sentiment.sentiment]; rewrite G, L;
        (split; [intros _; reflexivity|]);
        (split; [assumption|]); (split; [assumption|reflexivity]).
Qed.

(** The threshold tests on the binary64 score decide the exact rational
    comparisons: the category is positive exactly when
    [(p - n) / (p + n) > 1/4] and negative exactly when it is below [-1/4]. *)
Lemma analyze_sentiment_category_exact (text : string) :
  let p := Sentiment.positive_count text in
  let n := Sentiment.negative_count text in
  Sentiment.sentiment (Sentiment.analyze_sentiment text)
  = (if p + n <? 4 * (p - n) then "positive"
     else if 4 * (p - n) <? - (p + n) then "negative"
     else "neutral").
Proof.
  cbv zeta. rewrite analyze_sentiment_unfold. cbv zeta.
  generalize (positive_count_range text) (negative_count_range text).
  generalize (Sentiment.positive_count text) (Sentiment.negative_count text).
  intros p n Hp Hn.
  destruct (p + n =? 0) eqn:E.
  - apply Z.eqb_eq in E. cbn [Sentiment.sentiment].
    replace (p + n <? 4 * (p - n)) with false by (symmetry; apply Z.ltb_ge; lia).
    replace (4 * (p - n) <? - (p + n)) with false
      by (symmetry; apply Z.ltb_ge; lia).
    reflexivity.
  - apply Z.eqb_neq in E.
    destruct (quotient_facts p n Hp Hn E) as (_ & _ & Hg & Hl).
    rewrite Hg, Hl.
    destruct (p + n <? 4 * (p - n)); [reflexivity|].
    destruct (4 * (p - n) <? - (p + n)); reflexivity.
Qed.

(* ===================================================================== *)
(** * Properties of the anomaly detector *)
(* ===================================================================== *)

Section FloatFacts.

Lemma SFabs_round_aux prec emax s m e l :
  SFabs (binary_round_aux prec emax s m e l)
  = binary_round_aux prec emax false m e l.
Proof.
  unfold binary_round_aux.
  destruct (shr_fexp prec emax m e l) as [mrs' e'].
  destruct (shr_fexp prec emax _ e' loc_Exact) as [mrs'' e''].
  destruct (shr_m mrs''); try reflexivity.
  destruct (e'' <=? emax - prec)%Z; reflexivity.
Qed.

Lemma SFabs_div prec emax x y :
  SFabs (SFdiv prec emax x y) = SFdiv prec emax (SFabs x) (SFabs y).
Proof.
  destruct x as [sx|sx| |sx mx ex], y as [sy|sy| |sy my ey];
    try reflexivity.
  cbn [SFdiv SFabs xorb].
  destruct (SFdiv_core_binary prec emax (Z.pos mx) ex (Z.pos my) ey)
    as [[mz ez] lz].
  apply SFabs_round_aux.
Qed.

(** In binary64, [abs(a / b)] is [abs(a) / abs(b)]. *)
Lemma abs_div (a b : float) :
  PrimFloat.abs (PrimFloat.div a b)
  = PrimFloat.div (PrimFloat.abs a) (PrimFloat.abs b).
Proof.
  apply Prim2SF_inj.
  rewrite FloatAxioms.abs_spec, !FloatAxioms.div_spec, !FloatAxioms.abs_spec.
  apply SFabs_div.
Qed.

Lemma abs_abs (a : float) : PrimFloat.abs (PrimFloat.abs a) = PrimFloat.abs a.
Proof.
  apply Prim2SF_inj. rewrite !FloatAxioms.abs_spec.
  destruct (Prim2SF a); reflexivity.
Qed.

End FloatFacts.

Section AnomalyFacts.
Import Py Anomaly.
Variables np_mean np_std : list float -> float.

Lemma zero_below_threshold : fgt 0%float z_threshold = false.
Proof. reflexivity. Qed.

(** One iteration appends the closed-form score, and the index when that
    score exceeds the threshold. *)
Lemma loop_body_step data ws sc an i :
  loop_body np_mean np_std data ws (sc, an) i
  = ((sc ++ [score_at np_mean np_std data ws i])%list,
     if fgt (score_at np_mean np_std data ws i) z_threshold
     then (an ++ [Z.of_nat i])%list else an).
Proof.
  unfold loop_body, score_at.
  destruct (Z.of_nat i <? ws).
  - rewrite zero_below_threshold. reflexivity.
  - cbv zeta.
    destruct (PrimFloat.eqb
                (np_std (slice data (Z.of_nat i - ws) (Z.of_nat i))) 0).
    + rewrite zero_below_threshold. reflexivity.
    + destruct (fgt _ z_threshold); reflexivity.
Qed.

Lemma flagged_S data ws k :
  flagged np_mean np_std data ws (S k)
  = (flagged np_mean np_std data ws k
     ++ (if fgt (score_at np_mean np_std data ws k) z_threshold
         then [Z.of_nat k] else []))%list.
Proof.
  unfold flagged. rewrite seq_S, filter_app, map_app. cbn [List.filter Nat.add].
  destruct (fgt (score_at np_mean np_std data ws k) z_threshold); reflexivity.
Qed.

(** The state after the first [k] iterations. *)
Lemma loop_prefix data ws k :
  fold_left (loop_body np_mean np_std data ws) (seq 0 k) ([], [])
  = (map (score_at np_mean np_std data ws) (seq 0 k),
     flagged np_mean np_std data ws k).
Proof.
  induction k as [|k IH].
  - reflexivity.
  - rewrite seq_S, fold_left_app, IH. cbn [fold_left Nat.add].
    rewrite loop_body_step, flagged_S, map_app. cbn [map].
    destruct (fgt (score_at np_mean np_std data ws k) z_threshold).
    + reflexivity.
    + rewrite app_nil_r. reflexivity.
Qed.

Lemma score_at_below data ws i :
  Z.of_nat i < ws -> score_at np_mean np_std data ws i = 0%float.
Proof.
  intros H. unfold score_at.
  assert ((Z.of_nat i <? ws) = true) as -> by (apply Z.ltb_lt; exact H).
  reflexivity.
Qed.

Lemma flagged_below data ws k :
  (forall i, (i < k)%nat -> Z.of_nat i < ws) ->
  flagged np_mean np_std data ws k = [].
Proof.
  intros H. induction k as [|k IH].
  - reflexivity.
  - rewrite flagged_S, IH by (intros i Hi; apply H; lia).
    rewrite score_at_below by (apply H; lia).
    rewrite zero_below_threshold. reflexivity.
Qed.

Lemma scores_below data ws k :
  (forall i, (i < k)%nat -> Z.of_nat i < ws) ->
  map (score_at np_mean np_std data ws) (seq 0 k) = repeat 0%float k.
Proof.
  intros H. induction k as [|k IH].
  - reflexivity.
  - rewrite seq_S, map_app, IH by (intros i Hi; apply H; lia).
    cbn [map Nat.add]. rewrite score_at_below by (apply H; lia).
    change [0%float] with (repeat 0%float 1). rewrite <- repeat_app.
    f_equal. lia.
Qed.

(** The detector in closed form, on either side of the length test. *)
Lemma detect_anomalies_closed data ws :
  detect_anomalies np_mean np_std data ws
  = {| anomalies := flagged np_mean np_std data ws (List.length data);
       scores :=
         map (score_at np_mean np_std data ws) (seq 0 (List.length data));
       threshold := 3%float |}.
Proof.
  unfold detect_anomalies.
  destruct (Z.of_nat (List.length data) <? ws) eqn:E.
  - apply Z.ltb_lt in E.
    rewrite flagged_below, scores_below by (intros i Hi; lia). reflexivity.
  - rewrite loop_prefix. reflexivity.
Qed.

Lemma nth_scores data ws k i :
  (i < k)%nat ->
  nth i (map (score_at np_mean np_std data ws) (seq 0 k)) 0%float = score_at np_mean np_std data ws i.
Proof.
  intros Hi.
  rewrite (nth_indep _ 0%float (score_at np_mean np_std data ws 0%nat))
    by (rewrite length_map, length_seq; exact Hi).
  rewrite map_nth, seq_nth by exact Hi. reflexivity.
Qed.

Lemma in_flagged data ws k z :
  In z (flagged np_mean np_std data ws k) <->
  exists i, z = Z.of_nat i /\ (i < k)%nat
            /\ fgt (score_at np_mean np_std data ws i) z_threshold = true.
Proof.
  unfold flagged. rewrite in_map_iff. split.
  - intros (i & <- & Hin). apply filter_In in Hin as [Hin Hg].
    apply in_seq in Hin. exists i. repeat split; [lia | exact Hg].
  - intros (i & -> & Hi & Hg). exists i. split; [reflexivity|].
    apply filter_In. split; [apply in_seq; lia | exact Hg].
Qed.

Lemma flagged_sorted data ws k :
  StronglySorted Z.lt (flagged np_mean np_std data ws k).
Proof.
  induction k as [|k IH].
  - constructor.
  - rewrite flagged_S.
    destruct (fgt (score_at np_mean np_std data ws k) z_threshold).
    + assert (forall l, StronglySorted Z.lt l ->
                        (forall z, In z l -> z < Z.of_nat k) ->
                        StronglySorted Z.lt (l ++ [Z.of_nat k])) as Hsnoc.
      { induction l as [|a l IHl]; intros Hs Hb; cbn [app].
        - repeat constructor.
        - inversion Hs as [|? ? Hs' Hall]; subst. constructor.
          + apply IHl; [exact Hs'|]. intros z Hz. apply Hb. right. exact Hz.
          + apply Forall_app. split; [exact Hall|].
            constructor; [|constructor]. apply Hb. left. reflexivity. }
      apply Hsnoc; [exact IH|].
      intros z Hz. apply in_flagged in Hz as (i & -> & Hi & _). lia.
    + rewrite app_nil_r. exact IH.
Qed.

(** Where the window's deviation has a clear sign bit, as a square root
    has, the appended score is the one the specification writes. *)
Lemma score_at_spec data ws i :
  (let window := slice data (Z.of_nat i - ws) (Z.of_nat i) in
   PrimFloat.abs (np_std window) = np_std window) ->
  score_at np_mean np_std data ws i = spec_score np_mean np_std data ws i.
Proof.
  cbv zeta. intros Habs. unfold score_at, spec_score.
  destruct (Z.of_nat i <? ws); [reflexivity|]. cbv zeta.
  destruct (PrimFloat.eqb _ 0); [reflexivity|].
  rewrite abs_div, Habs. reflexivity.
Qed.

(** For a positive window size no larger than the index, the window is
    made of the [window_size] elements just before index [i]. *)
Lemma slice_window (data : list float) ws i :
  0 < ws <= Z.of_nat i -> (i <= List.length data)%nat ->
  slice data (Z.of_nat i - ws) (Z.of_nat i)
  = firstn (Z.to_nat ws) (skipn (i - Z.to_nat ws) data)
  /\ List.length (slice data (Z.of_nat i - ws) (Z.of_nat i)) = Z.to_nat ws.
Proof.
  intros Hws Hi. unfold slice, clamp_index.
  assert ((Z.of_nat i - ws <? 0) = false) as -> by (apply Z.ltb_ge; lia).
  assert ((Z.of_nat i <? 0) = false) as -> by (apply Z.ltb_ge; lia).
  rewrite !Z.min_l by lia.
  replace (Z.to_nat (Z.of_nat i - (Z.of_nat i - ws))) with (Z.to_nat ws) by lia.
  replace (Z.to_nat (Z.of_nat i - ws)) with (i - Z.to_nat ws)%nat by lia.
  split; [reflexivity|].
  rewrite length_firstn, length_skipn. lia.
Qed.

End AnomalyFacts.

(** C7: for every series shorter than the window size, the detector
    returns as many scores 0.0 as the series has elements, no anomaly, and
    the threshold 3.0. *)
Theorem detect_anomalies_short_series
    (np_mean np_std : list float -> float) (data : list float) (ws : Z) :
  0 < ws ->
  Z.of_nat (List.length data) < ws ->
  Anomaly.detect_anomalies np_mean np_std data ws
  = {| Anomaly.anomalies := [];
       Anomaly.scores := repeat 0%float (List.length data);
       Anomaly.threshold := 3%float |}.
Proof.
  intros _ Hlen. unfold Anomaly.detect_anomalies.
  apply Z.ltb_lt in Hlen. rewrite Hlen. reflexivity.
Qed.

Lemma detect_anomalies_short_series_witness :
  Anomaly.detect_anomalies Anomaly.mean Anomaly.std [1; 5; 2]%float 20
  = {| Anomaly.anomalies := [];
       Anomaly.scores := [0; 0; 0]%float;
       Anomaly.threshold := 3%float |}.
Proof.
  apply (detect_anomalies_short_series Anomaly.mean Anomaly.std
           [1; 5; 2]%float 20); reflexivity.
Defined.

(** X23: for every series and window size (in particular a positive one
    no longer than the series), and whatever [np.mean] and [np.std] compute,
    [scores] has the length of the series; [scores[i]] is 0.0 for
    [i < window_size] and when the deviation computed for the window
    compares equal to 0.0, and otherwise the distance of [S[i]] from the
    computed mean of [S[i - window_size : i]] in units of the computed
    deviation; an index is in [anomalies] exactly when its score exceeds
    3.0; [anomalies] is in ascending order. *)
Theorem detect_anomalies_scores_and_flags
    (np_mean np_std : list float -> float) (data : list float) (ws : Z) :
  0 < ws ->
  ws <= Z.of_nat (List.length data) ->
  let r := Anomaly.detect_anomalies np_mean np_std data ws in
  List.length (Anomaly.scores r) = List.length data /\
  (forall i, (i < List.length data)%nat ->
     nth i (Anomaly.scores r) 0%float
     = Anomaly.score_at np_mean np_std data ws i) /\
  (forall i, (i < List.length data)%nat ->
     (let window := Anomaly.slice data (Z.of_nat i - ws) (Z.of_nat i) in
      PrimFloat.abs (np_std window) = np_std window) ->
     nth i (Anomaly.scores r) 0%float
     = Anomaly.spec_score np_mean np_std data ws i) /\
  (forall i, (i < List.length data)%nat ->
     (In (Z.of_nat i) (Anomaly.anomalies r) <->
      Py.fgt (nth i (Anomaly.scores r) 0%float) 3%float = true)) /\
  (forall z, In z (Anomaly.anomalies r) ->
     0 <= z < Z.of_nat (List.length data)) /\
  StronglySorted Z.lt (Anomaly.anomalies r) /\
  Anomaly.threshold r = 3%float.
Proof.
  intros _ _ r. unfold r. rewrite detect_anomalies_closed.
  cbn [Anomaly.scores Anomaly.anomalies Anomaly.threshold].
  split; [rewrite length_map, length_seq; reflexivity|].
  split; [intros i Hi; apply nth_scores; exact Hi|].
  split.
  { intros i Hi Habs. rewrite nth_scores by exact Hi.
    apply score_at_spec. exact Habs. }
  split.
  { intros i Hi. rewrite nth_scores by exact Hi. rewrite in_flagged. split.
    - intros (j & Hj & _ & Hg). apply Nat2Z.inj in Hj. subst j. exact Hg.
    - intros Hg. exists i. repeat split; assumption. }
  split.
  { intros z Hz. apply in_flagged in Hz as (i & -> & Hi & _). lia. }
  split; [apply flagged_sorted | reflexivity].
Qed.

Lemma detect_anomalies_scores_and_flags_witness :
  let r := Anomaly.detect_anomalies Anomaly.mean Anomaly.std
             [1; 2; 3; 2; 1; 2; 50; 2]%float 3 in
  Anomaly.anomalies r = [6] /\
  List.length (Anomaly.scores r) = 8%nat /\
  StronglySorted Z.lt (Anomaly.anomalies r).
Proof.
  pose proof (detect_anomalies_scores_and_flags Anomaly.mean Anomaly.std
                [1; 2; 3; 2; 1; 2; 50; 2]%float 3
                ltac:(reflexivity) ltac:(vm_compute; discriminate)) as H.
  cbv zeta in H. destruct H as (Hlen & _ & _ & _ & _ & Hsorted & _).
  split; [vm_compute; reflexivity|]. split; [exact Hlen | exact Hsorted].
Defined.

(** C5, at a failing input: the three elements of the window
    [[0.1, 0.1, 0.1]] are equal, so its population standard deviation is
    zero, and the score of the next point should be 0.0; the deviation
    computed is 1.39e-17, not 0.0, the guard [window_std == 0] does not fire,
    and the constant series [[0.1, 0.1, 0.1, 0.1]] gets the score 1.0 at
    index 3; with 0.2 as the last element the score is about 7.2e15 and
    index 3 is reported as an anomaly.  The window is shorter than 8
    elements, so that numpy adds its elements from left to right, as the
    reference pair does. *)
Theorem flat_window_gets_a_score :
  let flat := [0x1.999999999999ap-4; 0x1.999999999999ap-4;
               0x1.999999999999ap-4]%float in
  let r := Anomaly.detect_anomalies Anomaly.mean Anomaly.std
             (flat ++ [0x1.999999999999ap-4%float])%list 3 in
  let r' := Anomaly.detect_anomalies Anomaly.mean Anomaly.std
              (flat ++ [0x1.999999999999ap-3%float])%list 3 in
  Anomaly.slice (flat ++ [0x1.999999999999ap-4%float])%list (3 - 3) 3 = flat /\
  PrimFloat.eqb (Anomaly.std flat) 0%float = false /\
  Anomaly.scores r = [0; 0; 0; 1]%float /\
  Anomaly.anomalies r' = [3].
Proof. vm_compute. repeat split. Qed.

(* ===================================================================== *)
(** * Properties of the market-path generator *)
(* ===================================================================== *)

Section SimulationFacts.
Import Simulation.
Local Open Scope Qc_scope.

Lemma range_0 n : range 0 n = seq 0 n.
Proof. unfold range. rewrite Nat.sub_0_r. reflexivity. Qed.

Lemma loop_body_eq draws vol k cur d i :
  loop_body draws vol (k, cur, d) i
  = (S k, next_price draws vol k cur,
     (d ++ [new_point d i (next_price draws vol k cur)])%list).
Proof.
  unfold loop_body, new_point, next_price, prices_in.
  destruct (19 <=? i)%nat, (9 <=? i)%nat; reflexivity.
Qed.

Lemma run_S draws start vol n :
  run draws start vol (S n)
  = loop_body draws vol (run draws start vol n) n.
Proof.
  unfold run. rewrite !range_0, seq_S, fold_left_app. reflexivity.
Qed.

(** After [n] iterations the random source has been called [n] times and
    [n] points are recorded. *)
Lemma run_counts draws start vol n :
  fst (fst (run draws start vol n)) = n /\
  List.length (snd (run draws start vol n)) = n.
Proof.
  induction n as [|n [IHk IHd]].
  - split; reflexivity.
  - rewrite run_S.
    destruct (run draws start vol n) as [[k cur] d]. cbn [fst snd] in *.
    rewrite loop_body_eq. cbn [fst snd]. rewrite length_app. cbn [List.length].
    split; lia.
Qed.

(** The points already recorded are never changed. *)
Lemma run_prefix draws start vol n m :
  (n <= m)%nat ->
  snd (run draws start vol n) = firstn n (snd (run draws start vol m)).
Proof.
  induction 1 as [|m Hle IH].
  - rewrite firstn_all2; [reflexivity|].
    destruct (run_counts draws start vol n) as [_ ->]. lia.
  - rewrite run_S.
    destruct (run_counts draws start vol m) as [_ Hlen].
    destruct (run draws start vol m) as [[k cur] d]. cbn [fst snd] in *.
    rewrite loop_body_eq. cbn [snd].
    rewrite firstn_app, IH. replace (n - List.length d)%nat with O by lia.
    cbn [firstn]. rewrite app_nil_r. reflexivity.
Qed.

(** The point at index [i] is the one appended at iteration [i]. *)
Lemma run_point draws start vol m i :
  (i < m)%nat ->
  nth i (snd (run draws start vol m)) dummy_point
  = new_point (snd (run draws start vol i)) i
      (next_price draws vol i (snd (fst (run draws start vol i)))).
Proof.
  intros Hi.
  assert (snd (run draws start vol (S i))
          = firstn (S i) (snd (run draws start vol m))) as Hpre
    by (apply run_prefix; lia).
  assert (nth i (snd (run draws start vol m)) dummy_point
          = nth i (snd (run draws start vol (S i))) dummy_point) as ->.
  { rewrite Hpre, nth_firstn.
    assert ((i <? S i)%nat = true) as -> by (apply Nat.ltb_lt; lia).
    reflexivity. }
  rewrite run_S.
  destruct (run_counts draws start vol i) as [Hk Hlen].
  destruct (run draws start vol i) as [[k cur] d]. cbn [fst snd] in *.
  rewrite loop_body_eq. cbn [snd]. subst k.
  rewrite app_nth2 by lia. rewrite Hlen, Nat.sub_diag. reflexivity.
Qed.

End SimulationFacts.

Section SimulationOrder.
Import Simulation.
Local Open Scope Qc_scope.





Lemma price_loop_run draws asset tf :
  price_loop draws asset tf
  = run draws (fst (asset_params asset)) (snd (asset_params asset))
        (Z.to_nat tf).
Proof.
  unfold price_loop, run. destruct (asset_params asset). reflexivity.
Qed.

Lemma generate_mock_data_data draws asset strategy tf ic :
  data (generate_mock_data draws asset strategy tf ic)
  = snd (price_loop draws asset tf).
Proof.
  unfold generate_mock_data.
  destruct (price_loop draws asset tf) as [[k cur] d]. reflexivity.
Qed.


End SimulationOrder.



Section SimulationWindows.
Import Simulation.
Local Open Scope Qc_scope.

Lemma map_nth_seq {A B : Type} (f : A -> B) (l : list A) (d : A) a n :
  (a + n <= List.length l)%nat ->
  map (fun j => f (nth j l d)) (seq a n) = map f (firstn n (skipn a l)).
Proof.
  revert a l. induction n as [|n IH]; intros a l Hlen.
  - reflexivity.
  - cbn [seq map]. rewrite IH by lia.
    assert (exists x rest, skipn a l = x :: rest /\ nth a l d = x
                           /\ skipn (S a) l = rest) as (x & rest & E & Hx & Hr).
    { clear IH. revert l Hlen. induction a as [|a IHa]; intros l Hlen.
      - destruct l as [|x rest]; [cbn in Hlen; lia|].
        exists x, rest. repeat split.
      - destruct l as [|y l]; [cbn in Hlen; lia|].
        cbn [List.length] in Hlen.
        destruct (IHa l ltac:(lia)) as (x & rest & E & Hx & Hr).
        exists x, rest. repeat split; assumption. }
    rewrite E, Hr, Hx. reflexivity.
Qed.

(** The window the SMA is computed from: the 19 recorded prices before
    index [i], divided by 20; and the 9 before it, divided by 10, for the
    EMA. *)
Lemma run_windows draws start vol m i :
  (i < m)%nat ->
  let d := snd (run draws start vol m) in
  let pt := nth i d dummy_point in
  ((19 <= i)%nat ->
   sma20 pt
   = Some (round2 (qsum (map price (firstn 19 (skipn (i - 19) d)))
                   / Q2Qc 20))) /\
  ((9 <= i)%nat ->
   ema10 pt
   = Some (round2 (qsum (map price (firstn 9 (skipn (i - 9) d)))
                   / Q2Qc 10))).
Proof.
  intros Hi d pt. unfold pt, d. rewrite run_point by exact Hi.
  unfold new_point, prices_in, range. cbn [sma20 ema10].
  destruct (run_counts draws start vol i) as [_ Hlen].
  rewrite (run_prefix draws start vol i m) in * by lia.
  set (full := snd (run draws start vol m)) in *.
  assert (forall w, (w <= i)%nat ->
            map (fun j => price (nth j (firstn i full) dummy_point))
                (seq (i - w) (i - (i - w)))
            = map price (firstn w (skipn (i - w) full))) as Hwin.
  { intros w Hw. replace (i - (i - w))%nat with w by lia.
    rewrite map_nth_seq by lia.
    rewrite skipn_firstn_comm, firstn_firstn.
    replace (Init.Nat.min w (i - (i - w)))%nat with w by lia. reflexivity. }
  split; intros Hge.
  - assert ((19 <=? i)%nat = true) as -> by (apply Nat.leb_le; exact Hge).
    rewrite Hwin by exact Hge. reflexivity.
  - assert ((9 <=? i)%nat = true) as -> by (apply Nat.leb_le; exact Hge).
    rewrite Hwin by exact Hge. reflexivity.
Qed.

End SimulationWindows.

(** C2, at a failing input: with every draw equal to 0.5 the price of an
    unlisted asset stays at 100.0 for 21 days, so the mean of any window of
    prices is 100.0; the code records 95.0 as the SMA and 90.0 as the EMA of
    day 21, the sums of the 19 and of the 9 preceding prices divided by 20
    and by 10. *)
Theorem sma_window_misses_one_price :
  let r := Simulation.generate_mock_data Simulation.steady "AAPL"
             "sma_crossover" 21 (Q2Qc 10000) in
  let pt := nth 20 (Simulation.data r) Simulation.dummy_point in
  Simulation.day pt = 21 /\
  map this (Simulation.prices r) = repeat (100 # 1)%Q 21 /\
  this (Simulation.mean_of_preceding 20 (Simulation.prices r) 20)
  = (100 # 1)%Q /\
  this (Simulation.mean_of_preceding 10 (Simulation.prices r) 20)
  = (100 # 1)%Q /\
  option_map this (Simulation.sma20 pt) = Some (95 # 1)%Q /\
  option_map this (Simulation.ema10 pt) = Some (90 # 1)%Q.
Proof. vm_compute. repeat split. Qed.

(* ===================================================================== *)
(** * Properties of the market-path generator in binary64 *)
(* ===================================================================== *)

Section Simulation64Facts.
Import Simulation64.
Local Open Scope float_scope.

Variable py_sum : list float -> float.

Lemma loop_body64_eq draws vol k cur d i :
  loop_body py_sum draws vol (k, cur, d) i
  = (S k, next_price draws vol k cur,
     (d ++ [new_point py_sum d i (next_price draws vol k cur)])%list).
Proof.
  unfold loop_body, new_point, next_price, prices_in.
  destruct (19 <=? i)%nat, (9 <=? i)%nat; reflexivity.
Qed.

Lemma run64_S draws start vol n :
  run py_sum draws start vol (S n)
  = loop_body py_sum draws vol (run py_sum draws start vol n) n.
Proof.
  unfold run. rewrite !range_0, seq_S, fold_left_app. reflexivity.
Qed.

(** After [n] iterations the random source has been called [n] times and
    [n] points are recorded. *)
Lemma run64_counts draws start vol n :
  fst (fst (run py_sum draws start vol n)) = n /\
  List.length (snd (run py_sum draws start vol n)) = n.
Proof.
  induction n as [|n [IHk IHd]].
  - split; reflexivity.
  - rewrite run64_S.
    destruct (run py_sum draws start vol n) as [[k cur] d].
    cbn [fst snd] in *.
    rewrite loop_body64_eq. cbn [fst snd]. rewrite length_app.
    cbn [List.length]. split; lia.
Qed.

(** The points already recorded are never changed. *)
Lemma run64_prefix draws start vol n m :
  (n <= m)%nat ->
  snd (run py_sum draws start vol n)
  = firstn n (snd (run py_sum draws start vol m)).
Proof.
  induction 1 as [|m Hle IH].
  - rewrite firstn_all2; [reflexivity|].
    destruct (run64_counts draws start vol n) as [_ ->]. lia.
  - rewrite run64_S.
    destruct (run64_counts draws start vol m) as [_ Hlen].
    destruct (run py_sum draws start vol m) as [[k cur] d].
    cbn [fst snd] in *.
    rewrite loop_body64_eq. cbn [snd].
    rewrite firstn_app, IH. replace (n - List.length d)%nat with O by lia.
    cbn [firstn]. rewrite app_nil_r. reflexivity.
Qed.

(** The point at index [i] is the one appended at iteration [i]. *)
Lemma run64_point draws start vol m i :
  (i < m)%nat ->
  nth i (snd (run py_sum draws start vol m)) dummy_point
  = new_point py_sum (snd (run py_sum draws start vol i)) i
      (next_price draws vol i (snd (fst (run py_sum draws start vol i)))).
Proof.
  intros Hi.
  assert (snd (run py_sum draws start vol (S i))
          = firstn (S i) (snd (run py_sum draws start vol m))) as Hpre
    by (apply run64_prefix; lia).
  assert (nth i (snd (run py_sum draws start vol m)) dummy_point
          = nth i (snd (run py_sum draws start vol (S i))) dummy_point) as ->.
  { rewrite Hpre, nth_firstn.
    assert ((i <? S i)%nat = true) as -> by (apply Nat.ltb_lt; lia).
    reflexivity. }
  rewrite run64_S.
  destruct (run64_counts draws start vol i) as [Hk Hlen].
  destruct (run py_sum draws start vol i) as [[k cur] d].
  cbn [fst snd] in *.
  rewrite loop_body64_eq. cbn [snd]. subst k.
  rewrite app_nth2 by lia. rewrite Hlen, Nat.sub_diag. reflexivity.
Qed.

Lemma price_loop64_run draws asset tf :
  price_loop py_sum draws asset tf
  = run py_sum draws (fst (asset_params asset)) (snd (asset_params asset))
        (Z.to_nat tf).
Proof.
  unfold price_loop, run. destruct (asset_params asset). reflexivity.
Qed.

Lemma generate_mock_data64_data draws asset strategy tf ic :
  data (generate_mock_data py_sum draws asset strategy tf ic)
  = snd (price_loop py_sum draws asset tf).
Proof.
  unfold generate_mock_data.
  destruct (price_loop py_sum draws asset tf) as [[k cur] d]. reflexivity.
Qed.

Lemma generate_mock_data64_length draws asset strategy tf ic :
  List.length (data (generate_mock_data py_sum draws asset strategy tf ic))
  = Z.to_nat tf.
Proof.
  rewrite generate_mock_data64_data, price_loop64_run.
  apply run64_counts.
Qed.

(** The window each indicator is computed from. *)
Lemma run64_windows draws start vol m i :
  (i < m)%nat ->
  let d := snd (run py_sum draws start vol m) in
  let pt := nth i d dummy_point in
  ((19 <= i)%nat ->
   sma20 pt
   = Some (round2 (py_sum (map price (firstn 19 (skipn (i - 19) d)))
                   / 20))) /\
  ((9 <= i)%nat ->
   ema10 pt
   = Some (round2 (py_sum (map price (firstn 9 (skipn (i - 9) d)))
                   / 10))).
Proof.
  intros Hi d pt. unfold pt, d. rewrite run64_point by exact Hi.
  unfold new_point, prices_in, Simulation.range. cbn [sma20 ema10].
  destruct (run64_counts draws start vol i) as [_ Hlen].
  rewrite (run64_prefix draws start vol i m) in * by lia.
  set (full := snd (run py_sum draws start vol m)) in *.
  assert (forall w, (w <= i)%nat ->
            map (fun j => price (nth j (firstn i full) dummy_point))
                (seq (i - w) (i - (i - w)))
            = map price (firstn w (skipn (i - w) full))) as Hwin.
  { intros w Hw. replace (i - (i - w))%nat with w by lia.
    rewrite map_nth_seq by lia.
    rewrite skipn_firstn_comm, firstn_firstn.
    replace (Init.Nat.min w (i - (i - w)))%nat with w by lia. reflexivity. }
  split; intros Hge.
  - assert ((19 <=? i)%nat = true) as -> by (apply Nat.leb_le; exact Hge).
    rewrite Hwin by exact Hge. reflexivity.
  - assert ((9 <=? i)%nat = true) as -> by (apply Nat.leb_le; exact Hge).
    rewrite Hwin by exact Hge. reflexivity.
Qed.

(** The five draws of the performance table come right after the
    [timeframe] draws of the price loop. *)
Lemma performance64_table draws asset strategy tf :
  performance py_sum draws asset strategy tf
  = Simulation.dict_get (strategy_performance draws (Z.to_nat tf)) strategy
      lit_0_1.
Proof.
  unfold performance. rewrite price_loop64_run.
  destruct (run64_counts draws (fst (asset_params asset))
              (snd (asset_params asset)) (Z.to_nat tf)) as [Hk _].
  destruct (run py_sum draws _ _ (Z.to_nat tf)) as [[k cur] d].
  cbn [fst] in Hk. subst k. reflexivity.
Qed.

Lemma performance64_by_range draws asset strategy tf :
  performance py_sum draws asset strategy tf
  = match performance_range strategy with
    | Some (lo, hi, offset) => uniform draws (Z.to_nat tf + offset) lo hi
    | None => lit_0_1
    end.
Proof.
  rewrite performance64_table.
  unfold strategy_performance, performance_range.
  cbn [Simulation.dict_get].
  destruct (String.eqb "sma_crossover" strategy);
    [rewrite Nat.add_0_r; reflexivity|].
  destruct (String.eqb "ema_crossover" strategy); [reflexivity|].
  destruct (String.eqb "macd" strategy); [reflexivity|].
  destruct (String.eqb "rsi" strategy); [reflexivity|].
  destruct (String.eqb "bollinger" strategy); reflexivity.
Qed.

End Simulation64Facts.

Lemma performance64_range_known strategy :
  Simulation64.performance_range strategy <> None
  <-> In strategy Simulation.known_strategies.
Proof.
  unfold Simulation64.performance_range, Simulation.known_strategies.
  cbn [In].
  destruct (String.eqb_spec "sma_crossover" strategy) as [<-|N1];
    [split; [auto | discriminate]|].
  destruct (String.eqb_spec "ema_crossover" strategy) as [<-|N2];
    [split; [auto | discriminate]|].
  destruct (String.eqb_spec "macd" strategy) as [<-|N3];
    [split; [auto 6 | discriminate]|].
  destruct (String.eqb_spec "rsi" strategy) as [<-|N4];
    [split; [auto 6 | discriminate]|].
  destruct (String.eqb_spec "bollinger" strategy) as [<-|N5];
    [split; [auto 7 | discriminate]|].
  split; [congruence|]. intros [H|[H|[H|[H|[H|[]]]]]]; congruence.
Qed.

Section NanArithmetic.

Lemma mul_nan_r x : PrimFloat.mul x nan = nan.
Proof.
  apply Prim2SF_inj. rewrite FloatAxioms.mul_spec.
  change (Prim2SF nan) with S754_nan.
  destruct (Prim2SF x); reflexivity.
Qed.

Lemma add_nan_r x : PrimFloat.add x nan = nan.
Proof.
  apply Prim2SF_inj. rewrite FloatAxioms.add_spec.
  change (Prim2SF nan) with S754_nan.
  destruct (Prim2SF x); reflexivity.
Qed.

End NanArithmetic.

(** C9, as stated, fails: for a strategy outside the table the performance
    is not drawn from an interval of positive width; it is 0.1 whatever the
    random source returns, under either version of [sum]. *)
Lemma unknown_strategy_not_drawn :
  ~ Simulation64.drawn_from_range Simulation64.sum_left "AAPL" "momentum" 30
  /\
  ~ Simulation64.drawn_from_range Simulation64.sum_compensated "AAPL"
      "momentum" 30.
Proof.
  assert (forall py_sum,
            ~ Simulation64.drawn_from_range py_sum "AAPL" "momentum" 30) as H.
  { intros py_sum (lo & hi & k & _ & H).
    specialize (H (fun _ => nan)).
    rewrite performance64_by_range in H.
    change (Simulation64.performance_range "momentum")
      with (@None (float * float * nat)) in H.
    unfold Simulation64.uniform in H. rewrite mul_nan_r, add_nan_r in H.
    apply (f_equal PrimFloat.is_nan) in H. vm_compute in H. discriminate. }
  split; apply H.
Qed.

(** C9, amended: the performance of a strategy of the table is one draw of
    the random source (the one at its position after the [timeframe] draws
    of the price loop) mapped onto that strategy's interval by
    [random.uniform]; for any other strategy it is the fixed value 0.1,
    whatever the draws; and the result has
    [final_capital = round(initial_capital * (1 + performance), 2)] and
    [roi = round(performance * 100, 2)] for that same performance, all in
    binary64 arithmetic. *)
Theorem performance_and_capital
    (py_sum : list float -> float) (draws : Simulation64.rng)
    (asset strategy : string) (timeframe : Z) (initial_capital : float) :
  let r := Simulation64.generate_mock_data py_sum draws asset strategy
             timeframe initial_capital in
  let perf := Simulation64.performance py_sum draws asset strategy
                timeframe in
  perf = match Simulation64.performance_range strategy with
         | Some (lo, hi, offset) =>
             Simulation64.uniform draws (Z.to_nat timeframe + offset) lo hi
         | None => Simulation64.lit_0_1
         end /\
  (Simulation64.performance_range strategy <> None
   <-> In strategy Simulation.known_strategies) /\
  Simulation64.final_capital r
  = Simulation64.round2 (initial_capital * (1 + perf))%float /\
  Simulation64.roi r = Simulation64.round2 (perf * 100)%float.
Proof.
  intros r perf.
  split; [apply performance64_by_range|].
  split; [apply performance64_range_known|].
  unfold r, perf, Simulation64.generate_mock_data.
  destruct (Simulation64.price_loop py_sum draws asset timeframe)
    as [[k cur] d].
  split; reflexivity.
Qed.

(** The product is rounded as the interpreter rounds it: 0.75 * (1 + 0.1)
    is 0.8250000000000001 in binary64, and the final capital is 0.83. *)
Lemma final_capital_of_three_quarters :
  let r := Simulation64.generate_mock_data Simulation64.sum_left
             Simulation64.steady "AAPL" "momentum" 30 0.75%float in
  Simulation64.final_capital r = 0x1.a8f5c28f5c28fp-1%float /\
  Simulation64.roi r = 10%float.
Proof. vm_compute. split; reflexivity. Qed.

(* ===================================================================== *)
(** * Properties of the feedback generator *)
(* ===================================================================== *)

Section StringFacts.
Import Py.

Lemma append_cons c (a b : string) : String c a ++ b = String c (a ++ b).
Proof. reflexivity. Qed.

Lemma append_empty (b : string) : "" ++ b = b.
Proof. reflexivity. Qed.

Lemma append_empty_r (a : string) : a ++ "" = a.
Proof.
  induction a as [|c a IH]; [reflexivity|]. rewrite append_cons, IH.
  reflexivity.
Qed.

Lemma append_assoc (a b c : string) : (a ++ b) ++ c = a ++ (b ++ c).
Proof.
  induction a as [|x a IH]; [reflexivity|].
  rewrite !append_cons, IH. reflexivity.
Qed.

Lemma startswith_refl s : startswith s s = true.
Proof.
  induction s as [|c s IH]; [reflexivity|].
  cbn [startswith]. rewrite Ascii.eqb_refl. exact IH.
Qed.

Lemma startswith_app p s : startswith p (p ++ s) = true.
Proof.
  induction p as [|c p IH]; [reflexivity|].
  rewrite ?append_cons; cbn [startswith]. rewrite Ascii.eqb_refl. exact IH.
Qed.

Lemma startswith_app_both p q s :
  startswith q s = true -> startswith (p ++ q) (p ++ s) = true.
Proof.
  intros H. induction p as [|c p IH]; [exact H|].
  rewrite ?append_cons; cbn [startswith]. rewrite Ascii.eqb_refl. exact IH.
Qed.

Lemma startswith_trans a b c :
  startswith a b = true -> startswith b c = true -> startswith a c = true.
Proof.
  revert b c. induction a as [|x a IH]; intros b c Hab Hbc; [reflexivity|].
  destruct b as [|y b]; [discriminate|]. destruct c as [|z c]; [discriminate|].
  cbn [startswith] in *.
  apply andb_prop in Hab as [Hxy Hab]. apply andb_prop in Hbc as [Hyz Hbc].
  apply Ascii.eqb_eq in Hxy, Hyz. subst.
  rewrite Ascii.eqb_refl. exact (IH b c Hab Hbc).
Qed.

Lemma contains_here p s : contains p (p ++ s) = true.
Proof.
  destruct (p ++ s) eqn:E; cbn [contains]; rewrite <- E, startswith_app;
    reflexivity.
Qed.

Lemma contains_startswith p s : startswith p s = true -> contains p s = true.
Proof. intros H. destruct s; cbn [contains]; rewrite H; reflexivity. Qed.

Lemma contains_app_r p a s : contains p s = true -> contains p (a ++ s) = true.
Proof.
  intros H. induction a as [|c a IH]; [exact H|].
  rewrite ?append_cons; cbn [contains]. rewrite IH. apply orb_true_r.
Qed.

Lemma endswith_app p a : endswith p (a ++ p) = true.
Proof.
  induction a as [|c a IH].
  - rewrite append_empty.
    destruct p; cbn [endswith]; rewrite String.eqb_refl; reflexivity.
  - rewrite append_cons. cbn [endswith]. rewrite IH. apply orb_true_r.
Qed.

Lemma append_nonempty a b : b <> "" -> a ++ b <> "".
Proof.
  destruct a; [rewrite append_empty; trivial|].
  rewrite append_cons. discriminate.
Qed.

End StringFacts.

Section SplitFacts.
Import Py Feedback.

Lemma string_of_rev_snoc cur c :
  string_of_list_ascii (rev (c :: cur))
  = string_of_list_ascii (rev cur) ++ String c "".
Proof.
  cbn [rev]. generalize (rev cur) as l. intros l.
  induction l as [|x l IH]; [reflexivity|].
  cbn [app string_of_list_ascii]. rewrite append_cons, IH. reflexivity.
Qed.

(** The first piece [split] returns is the text before the first
    separator. *)
Lemma split_go_first sep cur s :
  exists rest,
    split_go sep 0 cur s
    = (string_of_list_ascii (rev cur) ++ first_piece sep s) :: rest.
Proof.
  revert cur. induction s as [|c s IH]; intros cur.
  - exists []. cbn [split_go first_piece]. rewrite append_empty_r.
    reflexivity.
  - cbn [split_go first_piece].
    destruct (startswith sep (String c s)).
    + eexists. rewrite append_empty_r. reflexivity.
    + destruct (IH (c :: cur)) as [rest ->]. exists rest. f_equal.
      rewrite string_of_rev_snoc, append_assoc, append_cons, append_empty.
      reflexivity.
Qed.

Lemma split_first sep s :
  exists rest, split sep s = first_piece sep s :: rest.
Proof. unfold split. apply (split_go_first sep [] s). Qed.

Lemma first_piece_prefix sep s : startswith (first_piece sep s) s = true.
Proof.
  induction s as [|c s IH]; [reflexivity|].
  cbn [first_piece]. destruct (startswith sep (String c s)); [reflexivity|].
  cbn [startswith]. rewrite Ascii.eqb_refl. exact IH.
Qed.

(** No separator lies inside the first piece. *)
Lemma first_piece_no_sep sep s :
  sep <> "" -> contains sep (first_piece sep s) = false.
Proof.
  intros Hne. induction s as [|c s IH].
  - destruct sep; [congruence | reflexivity].
  - cbn [first_piece]. destruct (startswith sep (String c s)) eqn:E.
    + destruct sep; [congruence | reflexivity].
    + cbn [contains]. rewrite IH, orb_false_r.
      destruct (startswith sep (String c (first_piece sep s))) eqn:E'; 
        [|reflexivity].
      rewrite <- E. symmetry.
      apply (startswith_trans sep (String c (first_piece sep s))); [exact E'|].
      cbn [startswith]. rewrite Ascii.eqb_refl. apply first_piece_prefix.
Qed.

(** After the first piece the text ends, or the separator follows. *)
Lemma first_piece_then_sep sep s :
  first_piece sep s = s \/ startswith (first_piece sep s ++ sep) s = true.
Proof.
  induction s as [|c s IH]; [left; reflexivity|].
  cbn [first_piece]. destruct (startswith sep (String c s)) eqn:E.
  - right. exact E.
  - destruct IH as [IH|IH].
    + left. rewrite IH. reflexivity.
    + right. rewrite append_cons. cbn [startswith].
      rewrite Ascii.eqb_refl. exact IH.
Qed.

End SplitFacts.

Section ParseFacts.
Import Py Feedback.

(** The loop over the sections, in closed form. *)
Lemma fold_sections sections kp sg :
  fold_left section_step sections (kp, sg)
  = ((kp ++ flat_map section_items (List.filter is_key_points sections))%list,
     (sg ++ flat_map section_items
              (List.filter
                 (fun s => negb (is_key_points s) && is_suggestions s)
                 sections))%list).
Proof.
  revert kp sg. induction sections as [|s ss IH]; intros kp sg.
  - cbn [fold_left List.filter flat_map]. rewrite !app_nil_r. reflexivity.
  - cbn [fold_left List.filter]. unfold section_step at 2.
    destruct (is_key_points s); cbn [negb andb].
    + rewrite IH. cbn [flat_map]. rewrite app_assoc. reflexivity.
    + destruct (is_suggestions s).
      * rewrite IH. cbn [flat_map]. rewrite app_assoc. reflexivity.
      * rewrite IH. reflexivity.
Qed.

Lemma parse_response_closed content :
  parse_response content
  = let sections := split (nl ++ nl) content in
    {| feedback := first_piece (nl ++ nl) content;
       key_points :=
         firstn 5
           (or_default default_key_points
              (flat_map section_items (List.filter is_key_points sections)));
       improvement_suggestions :=
         firstn 3
           (or_default default_suggestions
              (flat_map section_items
                 (List.filter
                    (fun s => negb (is_key_points s) && is_suggestions s)
                    sections))) |}.
Proof.
  unfold parse_response. cbv zeta.
  destruct (split_first (nl ++ nl) content) as [rest E].
  rewrite fold_sections. rewrite E at 1. cbn [app].
  reflexivity.
Qed.

End ParseFacts.

(** C3, as stated, fails: when the answer opens with its key-point section,
    the narrative is that section and not the first section without a
    marker; and a line without a bullet is taken as an item, with dashes
    and spaces removed at both of its ends. *)
Lemma narrative_is_first_section_even_if_marked :
  let content :=
    "Key Points:" ++ Feedback.nl ++ "- alpha" ++ Feedback.nl ++ "beta -"
    ++ Feedback.nl ++ Feedback.nl ++ "The narrative." in
  let sections := Py.split (Feedback.nl ++ Feedback.nl) content in
  let r := Feedback.parse_response content in
  Feedback.spec_narrative sections = "The narrative." /\
  Feedback.feedback r
  = "Key Points:" ++ Feedback.nl ++ "- alpha" ++ Feedback.nl ++ "beta -" /\
  Feedback.feedback r <> Feedback.spec_narrative sections /\
  Feedback.spec_bullets (Feedback.feedback r) = ["alpha"] /\
  Feedback.key_points r = ["alpha"; "beta"] /\
  Feedback.key_points r <> Feedback.spec_bullets (Feedback.feedback r).
Proof. vm_compute. repeat split; discriminate. Qed.

(** C3, amended: the answer is split at blank lines; the narrative is
    always the first section (the text before the first blank line), marked
    or not; a section containing "key point" (case-insensitive) contributes
    to the key points every non-blank line after its first line, stripped of
    dashes and spaces at both ends; any other section containing
    "improvement" or "suggestion" contributes to the suggestions in the same
    way; an empty list is replaced by the fixed default, and the lists are
    cut to 5 and 3 items. *)
Theorem parse_response_sections (content : string) :
  let sections := Py.split (Feedback.nl ++ Feedback.nl) content in
  let r := Feedback.parse_response content in
  Feedback.feedback r = hd "" sections /\
  Py.startswith (Feedback.feedback r) content = true /\
  Py.contains (Feedback.nl ++ Feedback.nl) (Feedback.feedback r) = false /\
  (Feedback.feedback r = content \/
   Py.startswith (Feedback.feedback r ++ Feedback.nl ++ Feedback.nl) content
   = true) /\
  Feedback.key_points r
  = firstn 5
      (Feedback.or_default Feedback.default_key_points
         (flat_map Feedback.section_items
            (List.filter Feedback.is_key_points sections))) /\
  Feedback.improvement_suggestions r
  = firstn 3
      (Feedback.or_default Feedback.default_suggestions
         (flat_map Feedback.section_items
            (List.filter
               (fun s => negb (Feedback.is_key_points s)
                         && Feedback.is_suggestions s)
               sections))) /\
  (forall section,
     Feedback.section_items section
     = map (Py.strip Feedback.dash_or_space)
         (List.filter (fun p => Py.truthy (Py.strip Py.is_space p))
            (tl (Py.split Feedback.nl section)))) /\
  (1 <= List.length (Feedback.key_points r) <= 5)%nat /\
  (1 <= List.length (Feedback.improvement_suggestions r) <= 3)%nat.
Proof.
  intros sections r. unfold r. rewrite parse_response_closed. cbv zeta.
  fold sections.
  cbn [Feedback.feedback Feedback.key_points Feedback.improvement_suggestions].
  destruct (split_first (Feedback.nl ++ Feedback.nl) content) as [rest E].
  split; [unfold sections; rewrite E; reflexivity|].
  split; [apply first_piece_prefix|].
  split; [apply first_piece_no_sep; discriminate|].
  split; [apply first_piece_then_sep|].
  split; [reflexivity|]. split; [reflexivity|]. split; [reflexivity|].
  assert (forall n dflt l, (1 <= n)%nat -> dflt <> [] ->
            (1 <= List.length (firstn n (Feedback.or_default dflt l)) <= n)%nat)
    as Hlen.
  { intros n dflt l Hn Hd. rewrite length_firstn.
    assert (Feedback.or_default dflt l <> []) as Hne
      by (destruct l; [exact Hd | discriminate]).
    destruct (Feedback.or_default dflt l); [congruence|].
    cbn [List.length]. lia. }
  split; apply Hlen; try lia; discriminate.
Qed.

Section TemplateFacts.
Import Py Feedback.

Lemma startswith_app_l p a s :
  startswith p a = true -> startswith p (a ++ s) = true.
Proof.
  revert a. induction p as [|c p IH]; intros a H; [reflexivity|].
  destruct a as [|d a]; [discriminate|].
  rewrite append_cons. cbn [startswith] in *.
  apply andb_prop in H as [Hc Hp]. rewrite Hc. exact (IH a Hp).
Qed.

Lemma contains_app_l p a s : contains p a = true -> contains p (a ++ s) = true.
Proof.
  induction a as [|c a IH]; intros H.
  - apply contains_startswith. destruct p; [reflexivity | discriminate].
  - rewrite append_cons. cbn [contains] in *.
    apply orb_prop in H as [H|H].
    + rewrite <- append_cons, (startswith_app_l _ _ _ H). reflexivity.
    + rewrite (IH H). apply orb_true_r.
Qed.

Lemma dict_get_here {V : Type} k (v : V) d dflt :
  Simulation.dict_get ((k, v) :: d) k dflt = v.
Proof. cbn [Simulation.dict_get]. rewrite String.eqb_refl. reflexivity. Qed.

Lemma dict_get_next {V : Type} k (v : V) d key dflt :
  k <> key ->
  Simulation.dict_get ((k, v) :: d) key dflt = Simulation.dict_get d key dflt.
Proof.
  intros H. cbn [Simulation.dict_get].
  apply String.eqb_neq in H. rewrite H. reflexivity.
Qed.

Ltac lookup_key :=
  repeat first [ rewrite dict_get_here
               | rewrite dict_get_next by (assumption || discriminate) ];
  cbn [Simulation.dict_get].

(** Finds the asset, a variable, behind the literal pieces before it. *)
Ltac find_piece :=
  first [ apply contains_here | apply contains_app_r; find_piece ].

(** Finds a literal phrase in the literal pieces at the front. *)
Ltac find_phrase :=
  first [ apply contains_app_l; vm_compute; reflexivity
        | rewrite <- append_assoc; apply contains_app_l;
          vm_compute; reflexivity ].

(** Every template has four key points and three suggestions, and its
    narrative names the asset and the strategy. *)
Lemma template_shape float_repr asset strategy tf perf :
  let t := template_for float_repr asset strategy tf perf in
  List.length (t_key_points t) = 4%nat /\
  List.length (t_improvement_suggestions t) = 3%nat /\
  contains asset (t_feedback t) = true /\
  contains (strategy_phrase strategy) (t_feedback t) = true.
Proof.
  cbv zeta. unfold template_for, strategy_templates, strategy_phrase,
    strategy_names.
  destruct (String.eqb_spec "sma_crossover" strategy) as [<-|N1];
    [lookup_key; cbn [t_key_points t_improvement_suggestions t_feedback];
     split; [reflexivity|]; split; [reflexivity|];
     split; [find_piece | find_phrase]|].
  destruct (String.eqb_spec "ema_crossover" strategy) as [<-|N2];
    [lookup_key; cbn [t_key_points t_improvement_suggestions t_feedback];
     split; [reflexivity|]; split; [reflexivity|];
     split; [find_piece | find_phrase]|].
  destruct (String.eqb_spec "macd" strategy) as [<-|N3];
    [lookup_key; cbn [t_key_points t_improvement_suggestions t_feedback];
     split; [reflexivity|]; split; [reflexivity|];
     split; [find_piece | find_phrase]|].
  destruct (String.eqb_spec "rsi" strategy) as [<-|N4];
    [lookup_key; cbn [t_key_points t_improvement_suggestions t_feedback];
     split; [reflexivity|]; split; [reflexivity|];
     split; [find_piece | find_phrase]|].
  destruct (String.eqb_spec "bollinger" strategy) as [<-|N5];
    [lookup_key; cbn [t_key_points t_improvement_suggestions t_feedback];
     split; [reflexivity|]; split; [reflexivity|];
     split; [find_piece | find_phrase]|].
  lookup_key. unfold default_template.
  cbn [t_key_points t_improvement_suggestions t_feedback].
  split; [reflexivity|]. split; [reflexivity|]. split; [find_piece|].
  apply contains_app_r. apply contains_startswith.
  apply startswith_app_both. apply startswith_app_l. reflexivity.
Qed.

(** The comparison with an integer succeeds exactly on numbers. *)
Lemma py_gt_number v n :
  is_number v = true -> exists b, py_gt v n = Ok b.
Proof. destruct v; try discriminate; intros _; eexists; reflexivity. Qed.

Lemma py_gt_not_number v n :
  is_number v = false -> py_gt v n = Raise TypeError.
Proof. destruct v; try discriminate; reflexivity. Qed.

(** With a numeric ROI the template tier returns the template's narrative
    followed by a space and one performance sentence. *)
Lemma template_feedback_number float_repr asset strategy tf perf :
  is_number (roi_of perf) = true ->
  exists sentence,
    _get_template_feedback float_repr asset strategy tf perf
    = Ok {| feedback :=
              t_feedback (template_for float_repr asset strategy tf perf)
              ++ " " ++ sentence;
            key_points :=
              t_key_points (template_for float_repr asset strategy tf perf);
            improvement_suggestions :=
              t_improvement_suggestions
                (template_for float_repr asset strategy tf perf) |}.
Proof.
  intros Hnum. unfold _get_template_feedback. cbv zeta.
  fold (roi_of perf). fold (template_for float_repr asset strategy tf perf).
  destruct (py_gt_number _ 15 Hnum) as [b15 E15].
  destruct (py_gt_number _ 0 Hnum) as [b0 E0].
  rewrite E15, E0. unfold mbind, result_bind.
  destruct b15; [eexists; reflexivity|].
  destruct b0; eexists; reflexivity.
Qed.

Lemma template_feedback_not_number float_repr asset strategy tf perf :
  is_number (roi_of perf) = false ->
  _get_template_feedback float_repr asset strategy tf perf = Raise TypeError.
Proof.
  intros Hnum. unfold _get_template_feedback. cbv zeta.
  fold (roi_of perf). rewrite (py_gt_not_number _ 15 Hnum).
  reflexivity.
Qed.

(** Without a ['roi'] entry the ROI is the integer 0 and the sentence is
    the one for an ROI that is not positive. *)
Lemma template_feedback_no_roi float_repr asset strategy tf
    (perf : gmap string pyval) :
  perf !! "roi" = None ->
  roi_of perf = PyInt 0 /\
  _get_template_feedback float_repr asset strategy tf perf
  = Ok {| feedback :=
            t_feedback (template_for float_repr asset strategy tf perf)
            ++ " " ++ learning_sentence;
          key_points :=
            t_key_points (template_for float_repr asset strategy tf perf);
          improvement_suggestions :=
            t_improvement_suggestions
              (template_for float_repr asset strategy tf perf) |}.
Proof.
  intros Hnone.
  assert (roi_of perf = PyInt 0) as Hroi
    by (unfold roi_of, dict_get; rewrite Hnone; reflexivity).
  split; [exact Hroi|].
  unfold _get_template_feedback. cbv zeta.
  fold (roi_of perf). fold (template_for float_repr asset strategy tf perf).
  rewrite Hroi. reflexivity.
Qed.

Lemma tier_unavailable key attempt next :
  unavailable key attempt -> tier key attempt next = next.
Proof.
  unfold tier. intros [Hkey|[e He]].
  - rewrite Hkey. reflexivity.
  - destruct (truthy key); [|reflexivity]. rewrite He. reflexivity.
Qed.

Lemma apology_well_formed : well_formed apology.
Proof. unfold well_formed, apology. cbn. repeat split; try lia. discriminate. Qed.

End TemplateFacts.

(** C4, as stated, fails: with no provider configured and a ['roi'] entry
    that is not a number, the comparison in the template tier raises, the
    outer handler returns the fixed apology, and its narrative does not
    mention the asset. *)
Lemma non_numeric_roi_gets_apology :
  let float_repr := fun _ : float => "" in
  let chat :=
    fun (_ _ : string) (_ : Z) (_ : gmap string Feedback.pyval) =>
      @Feedback.Raise string (Feedback.ProviderError "") in
  let performance : gmap string Feedback.pyval :=
    {[ "roi" := Feedback.PyStr "high" ]} in
  let r :=
    Feedback.get_educational_feedback float_repr "" "" chat chat
      "BTC" "macd" 30 performance in
  Feedback._get_template_feedback float_repr "BTC" "macd" 30 performance
  = Feedback.Raise Feedback.TypeError /\
  r = Feedback.apology /\
  Py.contains "BTC" (Feedback.feedback r) = false.
Proof. vm_compute. repeat split. Qed.

(** C4, amended: when both providers are unconfigured or failing, the
    caller always gets a result with at most 5 key points, at most 3
    suggestions and a non-empty narrative, and never an exception.  When
    the ['roi'] entry is absent or a number, that result is the template
    tier's, for strategies inside and outside the template bank alike, with
    4 key points and 3 suggestions and a narrative that names the asset and
    the strategy; when the entry is present and not a number, the template
    tier raises and the result is the fixed apology. *)
Theorem template_tier_fallback
    (float_repr : float -> string) (DEEPSEEK_API_KEY OPENAI_API_KEY : string)
    (deepseek_chat openai_chat :
       string -> string -> Z -> gmap string Feedback.pyval
       -> Feedback.result string)
    (asset strategy : string) (timeframe : Z)
    (performance : gmap string Feedback.pyval) :
  Feedback.unavailable DEEPSEEK_API_KEY
    (Feedback._get_deepseek_feedback deepseek_chat asset strategy timeframe
       performance) ->
  Feedback.unavailable OPENAI_API_KEY
    (Feedback._get_openai_feedback openai_chat asset strategy timeframe
       performance) ->
  let r :=
    Feedback.get_educational_feedback float_repr DEEPSEEK_API_KEY
      OPENAI_API_KEY deepseek_chat openai_chat asset strategy timeframe
      performance in
  Feedback.well_formed r /\
  (Feedback.is_number (Feedback.roi_of performance) = true ->
   Feedback._get_template_feedback float_repr asset strategy timeframe
     performance = Feedback.Ok r /\
   List.length (Feedback.key_points r) = 4%nat /\
   List.length (Feedback.improvement_suggestions r) = 3%nat /\
   Py.contains asset (Feedback.feedback r) = true /\
   Py.contains (Feedback.strategy_phrase strategy) (Feedback.feedback r)
   = true) /\
  (Feedback.is_number (Feedback.roi_of performance) = false ->
   Feedback._get_template_feedback float_repr asset strategy timeframe
     performance = Feedback.Raise Feedback.TypeError /\
   r = Feedback.apology).
Proof.
  intros Hd Ho r. unfold r, Feedback.get_educational_feedback.
  rewrite (tier_unavailable _ _ _ Hd), (tier_unavailable _ _ _ Ho).
  destruct (template_shape float_repr asset strategy timeframe performance)
    as (Hkp & Hsg & Hasset & Hphrase).
  destruct (Feedback.is_number (Feedback.roi_of performance)) eqn:Hnum.
  - destruct (template_feedback_number float_repr asset strategy timeframe
                performance Hnum) as [sentence ->].
    cbn [Feedback.feedback Feedback.key_points
         Feedback.improvement_suggestions].
    split.
    { unfold Feedback.well_formed.
      cbn [Feedback.feedback Feedback.key_points
           Feedback.improvement_suggestions].
      rewrite Hkp, Hsg. split; [lia|]. split; [lia|].
      apply append_nonempty. rewrite append_cons. discriminate. }
    split; [|intros H; discriminate].
    intros _. split; [reflexivity|]. split; [exact Hkp|].
    split; [exact Hsg|].
    split; apply contains_app_l; assumption.
  - rewrite (template_feedback_not_number float_repr asset strategy timeframe
               performance Hnum).
    split; [apply apology_well_formed|].
    split; [intros H; discriminate|]. intros _. split; reflexivity.
Qed.

Lemma template_tier_fallback_witness :
  let r :=
    Feedback.get_educational_feedback (fun _ => "") "" ""
      (fun _ _ _ _ => Feedback.Raise (Feedback.ProviderError ""))
      (fun _ _ _ _ => Feedback.Raise (Feedback.ProviderError ""))
      "BTC" "momentum" 30 {[ "roi" := Feedback.PyInt 12 ]} in
  Feedback.well_formed r.
Proof.
  refine (proj1 (template_tier_fallback (fun _ => "") "" ""
            (fun _ _ _ _ => Feedback.Raise (Feedback.ProviderError ""))
            (fun _ _ _ _ => Feedback.Raise (Feedback.ProviderError ""))
            "BTC" "momentum" 30 {[ "roi" := Feedback.PyInt 12 ]} _ _));
    left; reflexivity.
Defined.

(** C10: in the template tier, a [performance] dictionary without a ['roi']
    key is treated as an ROI of 0: the tier returns a result, with at most
    5 key points, at most 3 suggestions, and a narrative that ends with the
    sentence for an ROI that is not positive, written for the value 0. *)
Theorem template_feedback_without_roi
    (float_repr : float -> string) (asset strategy : string) (timeframe : Z)
    (performance : gmap string Feedback.pyval) :
  performance !! "roi" = None ->
  exists r,
    Feedback._get_template_feedback float_repr asset strategy timeframe
      performance = Feedback.Ok r /\
    Feedback.roi_of performance = Feedback.PyInt 0 /\
    Feedback.well_formed r /\
    Py.endswith Feedback.learning_sentence (Feedback.feedback r) = true /\
    Feedback.learning_sentence
    = "The strategy resulted in a negative ROI of 0%. This provides a valuable learning opportunity to understand what factors contributed to the underperformance.".
Proof.
  intros Hnone.
  destruct (template_feedback_no_roi float_repr asset strategy timeframe
              performance Hnone) as [Hroi Hres].
  destruct (template_shape float_repr asset strategy timeframe performance)
    as (Hkp & Hsg & _ & _).
  eexists. split; [exact Hres|]. split; [exact Hroi|].
  split; [|split; [|reflexivity]].
  - unfold Feedback.well_formed.
    cbn [Feedback.feedback Feedback.key_points
         Feedback.improvement_suggestions].
    rewrite Hkp, Hsg. split; [lia|]. split; [lia|].
    apply append_nonempty. rewrite append_cons. discriminate.
  - cbn [Feedback.feedback]. rewrite <- append_assoc. apply endswith_app.
Qed.

Lemma template_feedback_without_roi_witness :
  exists r,
    Feedback._get_template_feedback (fun _ => "") "ETH" "rsi" 14 ∅
    = Feedback.Ok r /\
    Py.endswith Feedback.learning_sentence (Feedback.feedback r) = true.
Proof.
  assert ((∅ : gmap string Feedback.pyval) !! "roi" = None) as Hnone
    by (vm_compute; reflexivity).
  destruct (template_feedback_without_roi (fun _ => "") "ETH" "rsi" 14 ∅
              Hnone) as (r & Hr & _ & _ & Hend & _).
  exists r. split; [exact Hr | exact Hend].
Defined.

(* ===================================================================== *)
(** * Further properties of the sentiment scorer *)
(* ===================================================================== *)

Section LowerFacts.
Import Py.

Lemma lower_char_idempotent c : lower_char (lower_char c) = lower_char c.
Proof. destruct c as [[] [] [] [] [] [] [] []]; reflexivity. Qed.

Lemma lower_idempotent s : lower (lower s) = lower s.
Proof.
  induction s as [|c s IH]; [reflexivity|].
  cbn [lower]. rewrite lower_char_idempotent, IH. reflexivity.
Qed.

Lemma lower_char_word c : is_word (lower_char c) = is_word c.
Proof. destruct c as [[] [] [] [] [] [] [] []]; reflexivity. Qed.

Lemma lower_all_word s : Notions.all_word (lower s) = Notions.all_word s.
Proof.
  induction s as [|c s IH]; [reflexivity|].
  cbn [lower Notions.all_word]. rewrite lower_char_word, IH. reflexivity.
Qed.

End LowerFacts.

(** X1: the scorer does not see letter case: lower-casing the text
    beforehand changes nothing in the result. *)
Theorem analyze_sentiment_ignores_case (text : string) :
  Sentiment.analyze_sentiment (Py.lower text) = Sentiment.analyze_sentiment text.
Proof.
  rewrite !analyze_sentiment_unfold. cbv zeta.
  unfold Sentiment.positive_count, Sentiment.negative_count.
  rewrite lower_idempotent. reflexivity.
Qed.

Lemma category_from_counts (text : string) :
  let p := Sentiment.positive_count text in
  let n := Sentiment.negative_count text in
  Sentiment.sentiment (Sentiment.analyze_sentiment text)
  = (if 5 * n <? 3 * p then "positive"
     else if 5 * p <? 3 * n then "negative"
     else "neutral").
Proof.
  cbv zeta. rewrite analyze_sentiment_category_exact. cbv zeta.
  generalize (Sentiment.positive_count text) (Sentiment.negative_count text).
  intros p n.
  replace (p + n <? 4 * (p - n)) with (5 * n <? 3 * p)
    by (destruct (Z.ltb_spec (5 * n) (3 * p));
        destruct (Z.ltb_spec (p + n) (4 * (p - n))); (reflexivity || lia)).
  replace (4 * (p - n) <? - (p + n)) with (5 * p <? 3 * n)
    by (destruct (Z.ltb_spec (5 * p) (3 * n));
        destruct (Z.ltb_spec (4 * (p - n)) (- (p + n))); (reflexivity || lia)).
  reflexivity.
Qed.

(** X2: the category follows the exact counts: positive exactly when
    [3 * positive_count > 5 * negative_count], negative exactly when
    [3 * negative_count > 5 * positive_count], neutral otherwise; the tests
    made on the binary64 score never decide otherwise. *)
Theorem sentiment_category_from_counts (text : string) :
  let p := Sentiment.positive_count text in
  let n := Sentiment.negative_count text in
  Sentiment.sentiment (Sentiment.analyze_sentiment text)
  = (if 5 * n <? 3 * p then "positive"
     else if 5 * p <? 3 * n then "negative"
     else "neutral").
Proof. exact (category_from_counts text). Qed.

Section WholeWordFacts.
Import Py Sentiment Notions.

(** Past its first boundary, the pattern of a keyword matches a run of
    word characters exactly when the run is the keyword. *)
Lemma match_here_keyword kw prev w :
  kw <> "" -> all_word w = true ->
  match_here (lits kw ++ [Boundary]) prev w = String.eqb kw w.
Proof.
  revert prev w. induction kw as [|c kw IH]; intros prev w Hne Hw;
    [congruence|].
  destruct w as [|d w]; [reflexivity|].
  cbn [all_word] in Hw. apply andb_prop in Hw as [Hd Hw].
  cbn [lits app match_here String.eqb].
  destruct (Ascii.eqb_spec c d) as [<-|Hcd]; [|reflexivity].
  cbn [andb]. destruct kw as [|c' kw].
  - cbn [lits app match_here is_word_opt]. rewrite Hd.
    destruct w as [|e w]; [reflexivity|].
    cbn [all_word] in Hw. apply andb_prop in Hw as [He _].
    cbn [next_char is_word_opt String.eqb]. rewrite He. reflexivity.
  - apply IH; [discriminate | exact Hw].
Qed.

Lemma match_here_at_start kw w :
  kw <> "" -> all_word w = true ->
  match_here (word_pattern kw) None w = String.eqb kw w.
Proof.
  intros Hne Hw. unfold word_pattern. cbn [match_here is_word_opt].
  rewrite (match_here_keyword kw None w Hne Hw).
  destruct w as [|d w].
  - destruct kw; [congruence | reflexivity].
  - cbn [all_word] in Hw. apply andb_prop in Hw as [Hd _].
    cbn [next_char is_word_opt]. rewrite Hd. reflexivity.
Qed.

(** Inside or at the end of a run of word characters there is no word
    boundary to start a match from. *)
Lemma search_from_inside kw p w :
  kw <> "" -> is_word p = true -> all_word w = true ->
  search_from (word_pattern kw) (Some p) w = false.
Proof.
  intros Hne. revert p. induction w as [|d w IH]; intros p Hp Hw.
  - cbn [search_from]. unfold word_pattern.
    cbn [match_here is_word_opt next_char]. rewrite Hp.
    destruct kw as [|c kw]; [congruence|]. reflexivity.
  - cbn [all_word] in Hw. apply andb_prop in Hw as [Hd Hw].
    cbn [search_from]. rewrite (IH d Hd Hw), orb_false_r.
    unfold word_pattern. cbn [match_here is_word_opt next_char].
    rewrite Hp, Hd. reflexivity.
Qed.

(** A keyword is found in a single word exactly when it is that word. *)
Lemma re_search_single_word kw w :
  kw <> "" -> all_word w = true ->
  re_search (word_pattern kw) w = String.eqb kw w.
Proof.
  intros Hne Hw. unfold re_search.
  destruct w as [|d w].
  - cbn [search_from]. rewrite orb_false_r.
    apply match_here_at_start; assumption.
  - cbn [search_from]. rewrite (match_here_at_start kw _ Hne Hw).
    cbn [all_word] in Hw. apply andb_prop in Hw as [Hd Hw'].
    rewrite (search_from_inside kw d w Hne Hd Hw'). apply orb_false_r.
Qed.

Lemma keyword_count_single_word keywords w acc :
  forallb (fun kw => negb (String.eqb kw "")) keywords = true ->
  all_word w = true ->
  in_lexicon keywords w = false ->
  fold_left
    (fun acc keyword =>
       if re_search (word_pattern keyword) w then acc + 1 else acc)
    keywords acc = acc.
Proof.
  revert acc. induction keywords as [|k ks IH]; intros acc Hks Hw Hin;
    [reflexivity|].
  cbn [forallb] in Hks. apply andb_prop in Hks as [Hk Hks].
  unfold in_lexicon in Hin. cbn [existsb] in Hin.
  apply orb_false_elim in Hin as [Hwk Hin].
  cbn [fold_left]. rewrite re_search_single_word; [|
    intros ->; discriminate | exact Hw].
  rewrite String.eqb_sym, Hwk. apply IH; assumption.
Qed.

Lemma keyword_count_absent keywords w :
  forallb (fun kw => negb (String.eqb kw "")) keywords = true ->
  all_word w = true ->
  in_lexicon keywords w = false ->
  keyword_count keywords w = 0.
Proof. intros. unfold keyword_count. apply keyword_count_single_word; assumption. Qed.

Lemma in_lexicon_In keywords w :
  in_lexicon keywords w = true -> In w keywords.
Proof.
  unfold in_lexicon. intros H. apply existsb_exists in H as (k & Hk & E).
  apply String.eqb_eq in E. subst. exact Hk.
Qed.

End WholeWordFacts.

(** X3: on a text that is one word (word characters only), whole-word
    matching means that a keyword counts only when it is the whole word: the
    text is positive exactly when its lower-cased form is a term of the
    positive lexicon, negative exactly when it is a term of the negative
    one, and neutral otherwise, however many keywords it contains as
    parts. *)
Theorem single_word_sentiment (text : string) :
  Notions.all_word text = true ->
  Sentiment.sentiment (Sentiment.analyze_sentiment text)
  = (if Notions.in_lexicon Sentiment.positive_keywords (Py.lower text)
     then "positive"
     else if Notions.in_lexicon Sentiment.negative_keywords (Py.lower text)
     then "negative"
     else "neutral").
Proof.
  intros Hw. rewrite <- lower_all_word in Hw.
  rewrite category_from_counts. cbv zeta.
  unfold Sentiment.positive_count, Sentiment.negative_count.
  generalize dependent (Py.lower text). intros w Hw.
  destruct (Notions.in_lexicon Sentiment.positive_keywords w) eqn:Hp.
  - apply in_lexicon_In in Hp. unfold Sentiment.positive_keywords in Hp.
    cbn [In] in Hp.
    repeat (destruct Hp as [<-|Hp]; [vm_compute; reflexivity|]).
    destruct Hp.
  - rewrite (keyword_count_absent Sentiment.positive_keywords w)
      by (reflexivity || assumption).
    destruct (Notions.in_lexicon Sentiment.negative_keywords w) eqn:Hn.
    + apply in_lexicon_In in Hn. unfold Sentiment.negative_keywords in Hn.
      cbn [In] in Hn.
      repeat (destruct Hn as [<-|Hn]; [vm_compute; reflexivity|]).
      destruct Hn.
    + rewrite (keyword_count_absent Sentiment.negative_keywords w)
        by (reflexivity || assumption).
      reflexivity.
Qed.

Lemma single_word_sentiment_witness :
  Sentiment.sentiment (Sentiment.analyze_sentiment "Upgrade") = "positive"
  /\ Sentiment.sentiment (Sentiment.analyze_sentiment "upside") = "neutral".
Proof.
  split.
  - rewrite (single_word_sentiment "Upgrade"); reflexivity.
  - rewrite (single_word_sentiment "upside"); reflexivity.
Defined.

(* ===================================================================== *)
(** * Further properties of the anomaly detector *)
(* ===================================================================== *)

(** X4: no index before the first full window is ever flagged: every
    anomaly lies at or after [window_size], and inside the series. *)
Theorem anomalies_need_full_window
    (np_mean np_std : list float -> float) (data : list float) (ws z : Z) :
  In z (Anomaly.anomalies (Anomaly.detect_anomalies np_mean np_std data ws)) ->
  ws <= z < Z.of_nat (List.length data).
Proof.
  rewrite detect_anomalies_closed. cbn [Anomaly.anomalies].
  intros Hz. apply in_flagged in Hz as (i & -> & Hi & Hg).
  split; [|lia].
  destruct (Z.lt_ge_cases (Z.of_nat i) ws) as [Hlt|Hge]; [|exact Hge].
  rewrite (score_at_below np_mean np_std data ws i Hlt) in Hg.
  rewrite zero_below_threshold in Hg. discriminate.
Qed.

Lemma anomalies_need_full_window_witness :
  3 <= 6 < 8.
Proof.
  apply (anomalies_need_full_window Anomaly.mean Anomaly.std
           [1; 2; 3; 2; 1; 2; 50; 2]%float 3 6).
  vm_compute. left. reflexivity.
Defined.

Section AnomalyPrefix.
Import Py Anomaly.
Variables np_mean np_std : list float -> float.

Lemma firstn_skipn_firstn {A : Type} (l : list A) k a n :
  (a + n <= k)%nat ->
  firstn n (skipn a (firstn k l)) = firstn n (skipn a l).
Proof.
  intros H. rewrite skipn_firstn_comm, firstn_firstn.
  replace (Init.Nat.min n (k - a))%nat with n by lia. reflexivity.
Qed.

Lemma firstn_seq_prefix a n k :
  (k <= n)%nat -> firstn k (seq a n) = seq a k.
Proof.
  revert a n. induction k as [|k IH]; intros a n H; [reflexivity|].
  destruct n as [|n]; [lia|]. cbn [seq firstn]. rewrite IH by lia.
  reflexivity.
Qed.

(** The window of an index below [k] is the same in the series cut after
    [k] elements. *)
Lemma slice_firstn (data : list float) ws k i :
  (i < k)%nat -> (k <= List.length data)%nat -> ws <= Z.of_nat i ->
  slice (firstn k data) (Z.of_nat i - ws) (Z.of_nat i)
  = slice data (Z.of_nat i - ws) (Z.of_nat i).
Proof.
  intros Hi Hk Hws. unfold slice, clamp_index.
  rewrite length_firstn. rewrite Nat.min_l by exact Hk.
  assert ((Z.of_nat i <? 0) = false) as -> by (apply Z.ltb_ge; lia).
  assert ((Z.of_nat i - ws <? 0) = false) as -> by (apply Z.ltb_ge; lia).
  rewrite (Z.min_l (Z.of_nat i) (Z.of_nat k)) by lia.
  rewrite (Z.min_l (Z.of_nat i) (Z.of_nat (List.length data))) by lia.
  destruct (Z.le_gt_cases (Z.of_nat i - ws) (Z.of_nat i)) as [Hle|Hgt].
  - rewrite !Z.min_l by lia. apply firstn_skipn_firstn. lia.
  - assert (forall a, Z.of_nat i < a ->
                      Z.to_nat (Z.of_nat i - a) = 0%nat) as Hz
      by (intros a Ha; lia).
    rewrite !Hz by lia. reflexivity.
Qed.

Lemma score_at_firstn (data : list float) ws k i :
  (i < k)%nat -> (k <= List.length data)%nat ->
  score_at np_mean np_std (firstn k data) ws i
  = score_at np_mean np_std data ws i.
Proof.
  intros Hi Hk. unfold score_at.
  destruct (Z.of_nat i <? ws) eqn:E; [reflexivity|].
  apply Z.ltb_ge in E. cbv zeta.
  rewrite slice_firstn by assumption.
  rewrite nth_firstn.
  assert ((i <? k)%nat = true) as -> by (apply Nat.ltb_lt; exact Hi).
  reflexivity.
Qed.

End AnomalyPrefix.

(** X5: the detector is causal: running it on the first [k] elements of a
    series gives the first [k] scores of the full run, and flags exactly the
    anomalies of the full run that lie below [k]; later data never changes
    an earlier score. *)
Theorem detect_anomalies_prefix
    (np_mean np_std : list float -> float) (data : list float) (ws : Z)
    (k : nat) :
  (k <= List.length data)%nat ->
  let full := Anomaly.detect_anomalies np_mean np_std data ws in
  let part := Anomaly.detect_anomalies np_mean np_std (firstn k data) ws in
  Anomaly.scores part = firstn k (Anomaly.scores full) /\
  forall z, In z (Anomaly.anomalies part)
            <-> In z (Anomaly.anomalies full) /\ z < Z.of_nat k.
Proof.
  intros Hk full part. unfold full, part.
  rewrite !detect_anomalies_closed.
  cbn [Anomaly.scores Anomaly.anomalies].
  rewrite length_firstn, Nat.min_l by exact Hk.
  split.
  - rewrite firstn_map, firstn_seq_prefix by exact Hk.
    apply map_ext_in. intros i Hi. apply in_seq in Hi.
    apply score_at_firstn; [lia | exact Hk].
  - intros z. rewrite !in_flagged. split.
    + intros (i & -> & Hi & Hg).
      rewrite score_at_firstn in Hg by assumption.
      split; [|lia]. exists i. repeat split; [lia | exact Hg].
    + intros [(i & -> & Hi & Hg) Hz].
      assert (i < k)%nat as Hik by lia.
      exists i. repeat split; [exact Hik|].
      rewrite score_at_firstn by assumption. exact Hg.
Qed.

Lemma detect_anomalies_prefix_witness :
  Anomaly.scores
    (Anomaly.detect_anomalies Anomaly.mean Anomaly.std
       (firstn 5 [1; 2; 3; 2; 1; 2; 50; 2]%float) 3)
  = firstn 5
      (Anomaly.scores
         (Anomaly.detect_anomalies Anomaly.mean Anomaly.std
            [1; 2; 3; 2; 1; 2; 50; 2]%float 3)).
Proof.
  refine (proj1 (detect_anomalies_prefix Anomaly.mean Anomaly.std
                   [1; 2; 3; 2; 1; 2; 50; 2]%float 3 5 _)).
  cbn [List.length]. lia.
Defined.

Section NanFacts.

Lemma Prim2SF_nan : Prim2SF nan = S754_nan.
Proof. reflexivity. Qed.

Lemma sub_nan_l x : PrimFloat.sub nan x = nan.
Proof.
  apply Prim2SF_inj. rewrite FloatAxioms.sub_spec, Prim2SF_nan.
  destruct (Prim2SF x); reflexivity.
Qed.

Lemma div_nan_l x : PrimFloat.div nan x = nan.
Proof.
  apply Prim2SF_inj. rewrite FloatAxioms.div_spec, Prim2SF_nan.
  destruct (Prim2SF x); reflexivity.
Qed.

End NanFacts.

(** X6: a NaN in the series is never flagged at its own index; its score
    is 0.0 before the first full window and on a window of zero deviation,
    and NaN otherwise. *)
Theorem nan_point_is_not_flagged
    (np_mean np_std : list float -> float) (data : list float) (ws : Z)
    (i : nat) :
  (i < List.length data)%nat ->
  nth i data 0%float = nan ->
  let r := Anomaly.detect_anomalies np_mean np_std data ws in
  ~ In (Z.of_nat i) (Anomaly.anomalies r) /\
  (nth i (Anomaly.scores r) 0%float = 0%float \/
   nth i (Anomaly.scores r) 0%float = nan).
Proof.
  intros Hi Hnan r. unfold r. rewrite detect_anomalies_closed.
  cbn [Anomaly.scores Anomaly.anomalies].
  rewrite nth_scores by exact Hi.
  assert (Anomaly.score_at np_mean np_std data ws i = 0%float \/
          Anomaly.score_at np_mean np_std data ws i = nan) as Hs.
  { unfold Anomaly.score_at.
    destruct (Z.of_nat i <? ws); [left; reflexivity|]. cbv zeta.
    destruct (PrimFloat.eqb _ 0); [left; reflexivity|].
    right. rewrite Hnan, sub_nan_l, div_nan_l. reflexivity. }
  split; [|exact Hs].
  intros Hin. apply in_flagged in Hin as (j & Hj & _ & Hg).
  apply Nat2Z.inj in Hj. subst j.
  destruct Hs as [Hs|Hs]; rewrite Hs in Hg; discriminate.
Qed.

Lemma nan_point_is_not_flagged_witness :
  ~ In 3 (Anomaly.anomalies
            (Anomaly.detect_anomalies Anomaly.mean Anomaly.std
               [1; 2; 4; nan; 5]%float 3)).
Proof.
  refine (proj1 (nan_point_is_not_flagged Anomaly.mean Anomaly.std
                   [1; 2; 4; nan; 5]%float 3 3 _ _)).
  - cbn [List.length]. lia.
  - reflexivity.
Defined.

(* ===================================================================== *)
(** * Further properties of the market-path generator *)
(* ===================================================================== *)

Lemma generate_mock_data_length draws asset strategy tf ic :
  List.length
    (Simulation.data (Simulation.generate_mock_data draws asset strategy tf ic))
  = Z.to_nat tf.
Proof.
  rewrite generate_mock_data_data, price_loop_run.
  apply run_counts.
Qed.

(** X7: what the two indicators hold, for every run and either version of
    [sum]: at a point of index [i >= 19] (day 20 or later) the SMA is the
    sum of the 19 recorded prices before it, divided by 20 and rounded to two
    decimals; at a point of index [i >= 9] the EMA is the sum of the 9
    recorded prices before it, divided by 10 and rounded, all in binary64
    arithmetic.  The point's own price is not part of either. *)
Theorem indicator_windows
    (py_sum : list float -> float) (draws : Simulation64.rng)
    (asset strategy : string) (timeframe : Z) (initial_capital : float)
    (i : nat) :
  let r := Simulation64.generate_mock_data py_sum draws asset strategy
             timeframe initial_capital in
  (i < List.length (Simulation64.data r))%nat ->
  let pt := nth i (Simulation64.data r) Simulation64.dummy_point in
  ((19 <= i)%nat ->
   Simulation64.sma20 pt
   = Some (Simulation64.round2
             (py_sum (firstn 19 (skipn (i - 19) (Simulation64.prices r)))
              / 20)%float)) /\
  ((9 <= i)%nat ->
   Simulation64.ema10 pt
   = Some (Simulation64.round2
             (py_sum (firstn 9 (skipn (i - 9) (Simulation64.prices r)))
              / 10)%float)).
Proof.
  intros r. unfold r, Simulation64.prices.
  rewrite generate_mock_data64_data, price_loop64_run.
  set (start := fst (Simulation64.asset_params asset)).
  set (vol := snd (Simulation64.asset_params asset)).
  destruct (run64_counts py_sum draws start vol (Z.to_nat timeframe))
    as [_ Hlen].
  rewrite Hlen. cbv zeta. intros Hi.
  destruct (run64_windows py_sum draws start vol (Z.to_nat timeframe) i Hi)
    as [Hsma Hema].
  cbv zeta in Hsma, Hema.
  rewrite <- !firstn_map, <- !skipn_map in Hsma, Hema.
  split; assumption.
Qed.

Lemma indicator_windows_witness :
  let r := Simulation64.generate_mock_data Simulation64.sum_left
             Simulation64.steady "ETH" "macd" 25 10000%float in
  Simulation64.ema10 (nth 12 (Simulation64.data r) Simulation64.dummy_point)
  = Some (Simulation64.round2
            (Simulation64.sum_left
               (firstn 9 (skipn 3 (Simulation64.prices r))) / 10)%float).
Proof.
  refine (proj2 (indicator_windows Simulation64.sum_left Simulation64.steady
                   "ETH" "macd" 25 10000%float 12 _) _).
  - rewrite generate_mock_data64_length. cbn. lia.
  - lia.
Defined.

(** The failing input of C2 in binary64: every value of the run is exact,
    and the code records 95.0 and 90.0 under either version of [sum]. *)
Lemma steady_run_in_binary64 :
  let r := Simulation64.generate_mock_data Simulation64.sum_left
             Simulation64.steady "AAPL" "sma_crossover" 21 10000%float in
  let r' := Simulation64.generate_mock_data Simulation64.sum_compensated
              Simulation64.steady "AAPL" "sma_crossover" 21 10000%float in
  let pt := nth 20 (Simulation64.data r) Simulation64.dummy_point in
  r' = r /\
  Simulation64.prices r = repeat 100%float 21 /\
  Simulation64.sma20 pt = Some 95%float /\
  Simulation64.ema10 pt = Some 90%float.
Proof. vm_compute. repeat split. Qed.

(** X24: for every call in binary64, the series has [max(timeframe, 0)]
    points, the point at position [i] (from 0) has day [i + 1], its SMA
    indicator is present exactly when its day is at least 20 and its EMA
    indicator exactly when its day is at least 10, whatever the draws, the
    asset and the version of [sum]. *)
Theorem series_shape_in_binary64
    (py_sum : list float -> float) (draws : Simulation64.rng)
    (asset strategy : string) (timeframe : Z) (initial_capital : float) :
  let r := Simulation64.generate_mock_data py_sum draws asset strategy
             timeframe initial_capital in
  Z.of_nat (List.length (Simulation64.data r)) = Z.max timeframe 0 /\
  forall i, (i < List.length (Simulation64.data r))%nat ->
    let pt := nth i (Simulation64.data r) Simulation64.dummy_point in
    Simulation64.day pt = Z.of_nat i + 1 /\
    (Simulation64.sma20 pt <> None <-> 20 <= Simulation64.day pt) /\
    (Simulation64.ema10 pt <> None <-> 10 <= Simulation64.day pt).
Proof.
  intros r. unfold r.
  rewrite generate_mock_data64_data, price_loop64_run.
  set (start := fst (Simulation64.asset_params asset)).
  set (vol := snd (Simulation64.asset_params asset)).
  destruct (run64_counts py_sum draws start vol (Z.to_nat timeframe))
    as [_ Hlen].
  rewrite Hlen. split; [lia|].
  intros i Hi. cbv zeta. rewrite run64_point by exact Hi.
  unfold Simulation64.new_point.
  cbn [Simulation64.day Simulation64.sma20 Simulation64.ema10].
  split; [reflexivity|]. split.
  - destruct (19 <=? i)%nat eqn:E.
    + apply Nat.leb_le in E. split; [lia | discriminate].
    + apply Nat.leb_gt in E. split; [congruence | lia].
  - destruct (9 <=? i)%nat eqn:E.
    + apply Nat.leb_le in E. split; [lia | discriminate].
    + apply Nat.leb_gt in E. split; [congruence | lia].
Qed.

(** X25: a strategy outside the table always reports an ROI of exactly
    10.0 and the final capital [round(initial_capital * 1.1, 2)], where 1.1
    is the float [1 + 0.1]: nothing of the result's two figures depends on
    the random source. *)
Theorem unknown_strategy_reports_ten_percent
    (py_sum : list float -> float) (draws : Simulation64.rng)
    (asset strategy : string) (timeframe : Z) (initial_capital : float) :
  ~ In strategy Simulation.known_strategies ->
  let r := Simulation64.generate_mock_data py_sum draws asset strategy
             timeframe initial_capital in
  Simulation64.roi r = 10%float /\
  Simulation64.final_capital r
  = Simulation64.round2 (initial_capital * 0x1.199999999999ap+0)%float.
Proof.
  intros Hnot. cbv zeta.
  assert (Simulation64.performance py_sum draws asset strategy timeframe
          = Simulation64.lit_0_1) as Hperf.
  { rewrite performance64_by_range.
    destruct (Simulation64.performance_range strategy) as [[[lo hi] k]|] eqn:E;
      [|reflexivity].
    exfalso. apply Hnot. apply performance64_range_known. congruence. }
  unfold Simulation64.generate_mock_data.
  rewrite Hperf.
  destruct (Simulation64.price_loop py_sum draws asset timeframe)
    as [[k cur] d].
  cbn [Simulation64.roi Simulation64.final_capital].
  split.
  - vm_compute. reflexivity.
  - assert ((1 + Simulation64.lit_0_1)%float = 0x1.199999999999ap+0%float)
      as -> by (vm_compute; reflexivity).
    reflexivity.
Qed.

Lemma unknown_strategy_reports_ten_percent_witness :
  let r := Simulation64.generate_mock_data Simulation64.sum_left
             Simulation64.steady "AAPL" "momentum" 30 0.75%float in
  Simulation64.roi r = 10%float /\
  Simulation64.final_capital r
  = Simulation64.round2 (0.75 * 0x1.199999999999ap+0)%float.
Proof.
  apply (unknown_strategy_reports_ten_percent Simulation64.sum_left
           Simulation64.steady "AAPL" "momentum" 30 0.75%float).
  unfold Simulation.known_strategies. cbn [In].
  intros [H|[H|[H|[H|[H|[]]]]]]; discriminate.
Defined.

(* ===================================================================== *)
(** * Further properties of the feedback generator *)
(* ===================================================================== *)

Section StripFacts.
Import Py Notions.

Lemma lstrip_first f s : holds_opt f (first_char (lstrip f s)) = false.
Proof.
  induction s as [|c s IH]; [reflexivity|].
  cbn [lstrip]. destruct (f c) eqn:E; [exact IH|].
  cbn [first_char next_char holds_opt]. exact E.
Qed.

Lemma rstrip_last f s : holds_opt f (last_char (rstrip f s)) = false.
Proof.
  induction s as [|c s IH]; [reflexivity|].
  cbn [rstrip]. destruct (rstrip f s) as [|d r] eqn:E.
  - destruct (f c) eqn:Ec; [reflexivity|].
    cbn [last_char holds_opt]. exact Ec.
  - cbn [last_char] in *. exact IH.
Qed.

Lemma rstrip_first f s :
  holds_opt f (first_char s) = false ->
  holds_opt f (first_char (rstrip f s)) = false.
Proof.
  destruct s as [|c s]; [reflexivity|].
  cbn [first_char next_char holds_opt rstrip]. intros Hc.
  destruct (rstrip f s); [rewrite Hc|]; cbn [next_char holds_opt]; exact Hc.
Qed.

(** [strip] leaves no character of the set at either end. *)
Lemma strip_ends f s :
  holds_opt f (first_char (strip f s)) = false /\
  holds_opt f (last_char (strip f s)) = false.
Proof.
  unfold strip. split; [|apply rstrip_last].
  apply rstrip_first, lstrip_first.
Qed.

End StripFacts.

Section ListShape.
Import Feedback.

Lemma or_default_firstn_length n dflt l :
  (1 <= n)%nat -> dflt <> [] ->
  (1 <= List.length (firstn n (or_default dflt l)) <= n)%nat.
Proof.
  intros Hn Hd. rewrite length_firstn.
  assert (or_default dflt l <> []) as Hne
    by (destruct l; [exact Hd | discriminate]).
  destruct (or_default dflt l); [congruence|].
  cbn [List.length]. lia.
Qed.

Lemma parse_response_lists content :
  (1 <= List.length (key_points (parse_response content)) <= 5)%nat /\
  (1 <= List.length (improvement_suggestions (parse_response content))
   <= 3)%nat.
Proof.
  rewrite parse_response_closed. cbv zeta.
  cbn [key_points improvement_suggestions].
  split; apply or_default_firstn_length; try lia; discriminate.
Qed.

Lemma in_firstn_in {A : Type} n (l : list A) x :
  In x (firstn n l) -> In x l.
Proof.
  revert l. induction n as [|n IH]; intros l H; [destruct H|].
  destruct l as [|y l]; [destruct H|].
  cbn [firstn In] in *. destruct H as [H|H]; [left; exact H|].
  right. apply IH. exact H.
Qed.

Lemma in_or_default dflt l (x : string) :
  In x (or_default dflt l) -> In x dflt \/ In x l.
Proof. destruct l; [left | right]; assumption. Qed.

End ListShape.

(** X9: every item the parser extracts from a provider's answer, and every
    item of the default lists, is free of dashes and spaces at both ends:
    no key point or suggestion of a parsed answer starts or ends with ['-']
    or a space. *)
Theorem parsed_items_are_stripped (content item : string) :
  In item (Feedback.key_points (Feedback.parse_response content)) \/
  In item (Feedback.improvement_suggestions (Feedback.parse_response content))
  ->
  Notions.holds_opt Feedback.dash_or_space (Notions.first_char item) = false
  /\
  Notions.holds_opt Feedback.dash_or_space (Notions.last_char item) = false.
Proof.
  rewrite parse_response_closed. cbv zeta.
  cbn [Feedback.key_points Feedback.improvement_suggestions].
  assert (forall dflt sections n,
            (forall d, In d dflt ->
               Notions.holds_opt Feedback.dash_or_space (Notions.first_char d)
               = false /\
               Notions.holds_opt Feedback.dash_or_space (Notions.last_char d)
               = false) ->
            In item
               (firstn n
                  (Feedback.or_default dflt
                     (flat_map Feedback.section_items sections))) ->
            Notions.holds_opt Feedback.dash_or_space (Notions.first_char item)
            = false /\
            Notions.holds_opt Feedback.dash_or_space (Notions.last_char item)
            = false) as Hitems.
  { intros dflt sections n Hd Hin.
    apply in_firstn_in in Hin. apply in_or_default in Hin as [Hin|Hin];
      [apply Hd; exact Hin|].
    apply in_flat_map in Hin as (section & _ & Hin).
    unfold Feedback.section_items in Hin.
    apply in_map_iff in Hin as (line & <- & _). apply strip_ends. }
  intros [Hin|Hin]; (eapply Hitems; [|exact Hin]); intros d Hd;
    cbn [In Feedback.default_key_points Feedback.default_suggestions] in Hd;
    repeat (destruct Hd as [<-|Hd]; [split; reflexivity|]); destruct Hd.
Qed.

Lemma parsed_items_are_stripped_witness :
  Notions.holds_opt Feedback.dash_or_space (Notions.first_char "beta") = false
  /\
  Notions.holds_opt Feedback.dash_or_space (Notions.last_char "beta") = false.
Proof.
  apply (parsed_items_are_stripped
           ("Key Points:" ++ Feedback.nl ++ "- alpha" ++ Feedback.nl
            ++ "-- beta - "
            ++ Feedback.nl ++ Feedback.nl ++ "The narrative.") "beta").
  left. vm_compute. right. left. reflexivity.
Defined.

Section TierFacts.
Import Py Feedback.

Lemma template_result_lists float_repr asset strategy tf perf r :
  _get_template_feedback float_repr asset strategy tf perf = Ok r ->
  List.length (key_points r) = 4%nat /\
  List.length (improvement_suggestions r) = 3%nat.
Proof.
  intros Hr.
  destruct (template_shape float_repr asset strategy tf perf)
    as (Hkp & Hsg & _ & _).
  destruct (is_number (roi_of perf)) eqn:Hnum.
  - destruct (template_feedback_number float_repr asset strategy tf perf Hnum)
      as [sentence E].
    rewrite E in Hr. injection Hr as <-.
    cbn [key_points improvement_suggestions]. split; assumption.
  - rewrite (template_feedback_not_number float_repr asset strategy tf perf
               Hnum) in Hr.
    discriminate.
Qed.

(** A guarded tier either yields its own result or hands over to the
    next one. *)
Lemma tier_cases key attempt next :
  tier key attempt next = next \/
  exists r, attempt = Ok r /\ tier key attempt next = Ok r.
Proof.
  unfold tier, try_except. destruct (truthy key); [|left; reflexivity].
  destruct attempt as [r|e]; [right; exists r; split; reflexivity|].
  left. reflexivity.
Qed.

(** A provider tier that returns, returns a parsed answer. *)
Lemma provider_result_lists
    (chat : string -> string -> Z -> gmap string pyval -> result string)
    (asset strategy : string) (tf : Z) (perf : gmap string pyval) r :
  (content ← chat asset strategy tf perf; Ok (parse_response content))
  = Ok r ->
  (1 <= List.length (key_points r) <= 5)%nat /\
  (1 <= List.length (improvement_suggestions r) <= 3)%nat.
Proof.
  unfold mbind, result_bind.
  destruct (chat asset strategy tf perf) as [c|e]; [|discriminate].
  intros H. injection H as <-. apply parse_response_lists.
Qed.

End TierFacts.

(** X10: whatever tier answers (a provider, the templates or the apology
    of the outer handler), and for every input, the result has between 1 and
    5 key points and between 1 and 3 suggestions: neither list is ever
    empty. *)
Theorem feedback_lists_never_empty
    (float_repr : float -> string) (DEEPSEEK_API_KEY OPENAI_API_KEY : string)
    (deepseek_chat openai_chat :
       string -> string -> Z -> gmap string Feedback.pyval
       -> Feedback.result string)
    (asset strategy : string) (timeframe : Z)
    (performance : gmap string Feedback.pyval) :
  let r :=
    Feedback.get_educational_feedback float_repr DEEPSEEK_API_KEY
      OPENAI_API_KEY deepseek_chat openai_chat asset strategy timeframe
      performance in
  (1 <= List.length (Feedback.key_points r) <= 5)%nat /\
  (1 <= List.length (Feedback.improvement_suggestions r) <= 3)%nat.
Proof.
  intros r. unfold r, Feedback.get_educational_feedback.
  destruct (tier_cases DEEPSEEK_API_KEY
              (Feedback._get_deepseek_feedback deepseek_chat asset strategy
                 timeframe performance)
              (Feedback.tier OPENAI_API_KEY
                 (Feedback._get_openai_feedback openai_chat asset strategy
                    timeframe performance)
                 (Feedback._get_template_feedback float_repr asset strategy
                    timeframe performance)))
    as [->|(r1 & H1 & ->)].
  - destruct (tier_cases OPENAI_API_KEY
                (Feedback._get_openai_feedback openai_chat asset strategy
                   timeframe performance)
                (Feedback._get_template_feedback float_repr asset strategy
                   timeframe performance))
      as [->|(r2 & H2 & ->)].
    + destruct (Feedback._get_template_feedback float_repr asset strategy
                  timeframe performance) as [r0|e] eqn:E.
      * destruct (template_result_lists _ _ _ _ _ _ E) as [-> ->]. lia.
      * cbn. lia.
    + apply provider_result_lists in H2. exact H2.
  - apply provider_result_lists in H1. exact H1.
Qed.

(** X11: the first provider has priority: when its key is configured and
    its call returns a text, the result is the parsing of that text, whatever
    the second provider would answer and whatever the [performance]
    dictionary holds. *)
Theorem primary_provider_wins
    (float_repr : float -> string) (DEEPSEEK_API_KEY OPENAI_API_KEY : string)
    (deepseek_chat openai_chat :
       string -> string -> Z -> gmap string Feedback.pyval
       -> Feedback.result string)
    (asset strategy : string) (timeframe : Z)
    (performance : gmap string Feedback.pyval) (content : string) :
  DEEPSEEK_API_KEY <> "" ->
  deepseek_chat asset strategy timeframe performance = Feedback.Ok content ->
  Feedback.get_educational_feedback float_repr DEEPSEEK_API_KEY
    OPENAI_API_KEY deepseek_chat openai_chat asset strategy timeframe
    performance
  = Feedback.parse_response content.
Proof.
  intros Hkey Hchat.
  unfold Feedback.get_educational_feedback, Feedback.tier,
    Feedback.try_except, Feedback._get_deepseek_feedback, mbind,
    Feedback.result_bind.
  rewrite Hchat.
  destruct DEEPSEEK_API_KEY; [congruence|]. reflexivity.
Qed.

Lemma primary_provider_wins_witness :
  Feedback.get_educational_feedback (fun _ => "") "k1" "k2"
    (fun _ _ _ _ => Feedback.Ok "Plain answer.")
    (fun _ _ _ _ => Feedback.Ok "Other answer.")
    "BTC" "macd" 30 ∅
  = Feedback.parse_response "Plain answer.".
Proof.
  apply (primary_provider_wins (fun _ => "") "k1" "k2"
           (fun _ _ _ _ => Feedback.Ok "Plain answer.")
           (fun _ _ _ _ => Feedback.Ok "Other answer.")
           "BTC" "macd" 30 ∅ "Plain answer.");
    [discriminate | reflexivity].
Defined.

(** X12: the second provider is consulted only when the first yields
    nothing: with the first provider unconfigured or failing, the second one
    configured and returning a text, the result is the parsing of that
    text. *)
Theorem secondary_provider_after_primary
    (float_repr : float -> string) (DEEPSEEK_API_KEY OPENAI_API_KEY : string)
    (deepseek_chat openai_chat :
       string -> string -> Z -> gmap string Feedback.pyval
       -> Feedback.result string)
    (asset strategy : string) (timeframe : Z)
    (performance : gmap string Feedback.pyval) (content : string) :
  Feedback.unavailable DEEPSEEK_API_KEY
    (Feedback._get_deepseek_feedback deepseek_chat asset strategy timeframe
       performance) ->
  OPENAI_API_KEY <> "" ->
  openai_chat asset strategy timeframe performance = Feedback.Ok content ->
  Feedback.get_educational_feedback float_repr DEEPSEEK_API_KEY
    OPENAI_API_KEY deepseek_chat openai_chat asset strategy timeframe
    performance
  = Feedback.parse_response content.
Proof.
  intros Hd Hkey Hchat. unfold Feedback.get_educational_feedback.
  rewrite (tier_unavailable _ _ _ Hd).
  unfold Feedback.tier, Feedback.try_except, Feedback._get_openai_feedback,
    mbind, Feedback.result_bind.
  rewrite Hchat.
  destruct OPENAI_API_KEY; [congruence|]. reflexivity.
Qed.

Lemma secondary_provider_after_primary_witness :
  Feedback.get_educational_feedback (fun _ => "") "k1" "k2"
    (fun _ _ _ _ => Feedback.Raise (Feedback.ProviderError "timeout"))
    (fun _ _ _ _ => Feedback.Ok "Other answer.")
    "BTC" "macd" 30 ∅
  = Feedback.parse_response "Other answer.".
Proof.
  apply (secondary_provider_after_primary (fun _ => "") "k1" "k2"
           (fun _ _ _ _ => Feedback.Raise (Feedback.ProviderError "timeout"))
           (fun _ _ _ _ => Feedback.Ok "Other answer.")
           "BTC" "macd" 30 ∅ "Other answer.");
    [right; eexists; reflexivity | discriminate | reflexivity].
Defined.

Section SentenceFacts.
Import Py Feedback.

(** The narrative of the template tier, once the two comparisons are
    known. *)
Lemma template_feedback_sentence float_repr asset strategy tf perf b15 b0 :
  py_gt (roi_of perf) 15 = Ok b15 ->
  py_gt (roi_of perf) 0 = Ok b0 ->
  exists r,
    _get_template_feedback float_repr asset strategy tf perf = Ok r /\
    endswith
      (if b15 then Notions.well_sentence (py_str float_repr (roi_of perf))
       else if b0
            then Notions.moderate_sentence (py_str float_repr (roi_of perf))
            else Notions.negative_sentence (py_str float_repr (roi_of perf)))
      (feedback r) = true.
Proof.
  intros E15 E0. unfold _get_template_feedback. cbv zeta.
  fold (roi_of perf). fold (template_for float_repr asset strategy tf perf).
  rewrite E15, E0. unfold mbind, result_bind.
  destruct b15; [|destruct b0]; eexists; (split; [reflexivity|]);
    cbn [feedback]; rewrite <- append_assoc; apply endswith_app.
Qed.

End SentenceFacts.

(** X13: how the template tier words the performance.  For an integer ROI
    the narrative ends with the "performed well" sentence when the ROI
    exceeds 15, with the "moderate result" sentence when it is between 1 and
    15, and with the "negative ROI" sentence when it is 0 or less; for a
    float ROI the same holds with the tests [roi > 15] and [roi > 0], so
    that 15.0 is moderate and 0.0 and NaN get the "negative ROI" wording. *)
Theorem template_sentence_by_roi
    (float_repr : float -> string) (asset strategy : string) (timeframe : Z)
    (performance : gmap string Feedback.pyval) :
  (forall z, performance !! "roi" = Some (Feedback.PyInt z) ->
     exists r,
       Feedback._get_template_feedback float_repr asset strategy timeframe
         performance = Feedback.Ok r /\
       Py.endswith
         (if 15 <? z then Notions.well_sentence (Py.str_of_int z)
          else if 0 <? z then Notions.moderate_sentence (Py.str_of_int z)
          else Notions.negative_sentence (Py.str_of_int z))
         (Feedback.feedback r) = true) /\
  (forall f, performance !! "roi" = Some (Feedback.PyFloat f) ->
     exists r,
       Feedback._get_template_feedback float_repr asset strategy timeframe
         performance = Feedback.Ok r /\
       Py.endswith
         (if PrimFloat.ltb 15 f then Notions.well_sentence (float_repr f)
          else if PrimFloat.ltb 0 f
               then Notions.moderate_sentence (float_repr f)
               else Notions.negative_sentence (float_repr f))
         (Feedback.feedback r) = true).
Proof.
  split.
  - intros z Hz.
    assert (Feedback.roi_of performance = Feedback.PyInt z) as Hroi
      by (unfold Feedback.roi_of, Feedback.dict_get; rewrite Hz; reflexivity).
    destruct (template_feedback_sentence float_repr asset strategy timeframe
                performance (z >? 15) (z >? 0)) as (r & Hr & Hend);
      [rewrite Hroi; reflexivity | rewrite Hroi; reflexivity |].
    exists r. split; [exact Hr|].
    rewrite Hroi in Hend. cbn [Feedback.py_str] in Hend.
    rewrite !Z.gtb_ltb in Hend. exact Hend.
  - intros f Hf.
    assert (Feedback.roi_of performance = Feedback.PyFloat f) as Hroi
      by (unfold Feedback.roi_of, Feedback.dict_get; rewrite Hf; reflexivity).
    destruct (template_feedback_sentence float_repr asset strategy timeframe
                performance (Py.fgt f (Py.float_of_Z 15))
                (Py.fgt f (Py.float_of_Z 0))) as (r & Hr & Hend);
      [rewrite Hroi; reflexivity | rewrite Hroi; reflexivity |].
    exists r. split; [exact Hr|].
    rewrite Hroi in Hend. cbn [Feedback.py_str] in Hend. exact Hend.
Qed.

Lemma template_sentence_by_roi_witness :
  exists r,
    Feedback._get_template_feedback (fun _ => "") "BTC" "macd" 30
      {[ "roi" := Feedback.PyInt 20 ]} = Feedback.Ok r /\
    Py.endswith (Notions.well_sentence "20") (Feedback.feedback r) = true.
Proof.
  assert (E : ({[ "roi" := Feedback.PyInt 20 ]} : gmap string Feedback.pyval)
              !! "roi" = Some (Feedback.PyInt 20))
    by (vm_compute; reflexivity).
  exact (proj1 (template_sentence_by_roi (fun _ => "") "BTC" "macd" 30
                  {[ "roi" := Feedback.PyInt 20 ]}) 20 E).
Defined.

(* ===================================================================== *)
(** * Properties of the handlers *)
(* ===================================================================== *)

Section CacheFacts.
Import Py Http AiApi.

Context {R : Type}.
Variable str_http : Z -> string -> string.
Variable to_json : R -> string.
Variable parse_raw : string -> outcome R.

(** With the cache out of reach nothing is computed. *)
Lemma cached_call_unreachable key compute redis message :
  failure redis = Some message ->
  cached_call str_http to_json parse_raw key compute redis
  = Raises (HTTPException 500 message).
Proof.
  intros H. unfold cached_call, redis_get, mbind, outcome_bind.
  rewrite H. reflexivity.
Qed.

Lemma cached_call_returns_or_500 key compute redis :
  returns_or_500 (cached_call str_http to_json parse_raw key compute redis).
Proof.
  unfold cached_call, except_500.
  destruct (_ ← redis_get redis key; _) as [a|e]; [exact I | reflexivity].
Qed.

(** A miss: the fresh result is returned and stored for one hour. *)
Lemma cached_call_miss key compute redis :
  failure redis = None ->
  (forall seconds c raw,
     entries redis !! key <> Some (seconds, String c raw)) ->
  cached_call str_http to_json parse_raw key compute redis
  = Returns (compute,
             {| failure := None;
                entries := <[key := (3600, to_json compute)]>
                             (entries redis) |}).
Proof.
  intros Hup Hmiss. unfold cached_call, redis_get, redis_setex, mbind,
    outcome_bind.
  rewrite Hup.
  destruct (entries redis !! key) as [[seconds value]|] eqn:E;
    [|reflexivity].
  destruct value as [|c raw]; [reflexivity|].
  exfalso. exact (Hmiss seconds c raw eq_refl).
Qed.

(** A hit: the stored text is parsed; nothing is computed or stored. *)
Lemma cached_call_hit key compute redis seconds value :
  failure redis = None ->
  entries redis !! key = Some (seconds, value) ->
  value <> "" ->
  cached_call str_http to_json parse_raw key compute redis
  = except_500 str_http
      (response ← parse_raw value; Returns (response, redis)).
Proof.
  intros Hup Hhit Hne. unfold cached_call, redis_get, mbind, outcome_bind.
  rewrite Hup, Hhit. cbn [fmap option_fmap option_map snd].
  destruct value as [|c raw]; [congruence|]. reflexivity.
Qed.

End CacheFacts.

(** X14: when the Redis server cannot be reached, each of the three
    handlers of [ai.py] fails with status 500 and the message of the
    connection error, although none of the analyses needs the cache; and in
    no case does a handler raise anything but a response with status 500. *)
Theorem ai_handlers_need_the_cache
    (str_http : Z -> string -> string) (py_hash : string -> Z)
    (json_dumps : list float -> string)
    (sentiment_json : Sentiment.SentimentAnalysisResponse -> string)
    (sentiment_parse :
       string -> Http.outcome Sentiment.SentimentAnalysisResponse)
    (np_mean np_std : list float -> float)
    (anomaly_json : Anomaly.AnomalyDetectionResponse -> string)
    (anomaly_parse : string -> Http.outcome Anomaly.AnomalyDetectionResponse)
    (float_repr : float -> string) (DEEPSEEK_API_KEY OPENAI_API_KEY : string)
    (deepseek_chat openai_chat :
       string -> string -> Z -> gmap string Feedback.pyval
       -> Feedback.result string)
    (feedback_json : Feedback.EducationalFeedbackResponse -> string)
    (feedback_parse :
       string -> Http.outcome Feedback.EducationalFeedbackResponse)
    (text : string) (data : list float) (window_size : Z)
    (asset strategy : string) (timeframe : Z)
    (performance : gmap string Feedback.pyval) (redis : Http.redis_client) :
  let sentiment :=
    AiApi.sentiment_analysis str_http py_hash sentiment_json sentiment_parse
      text redis in
  let anomalies :=
    AiApi.anomaly_detection str_http py_hash json_dumps np_mean np_std
      anomaly_json anomaly_parse data window_size redis in
  let feedback :=
    AiApi.educational_feedback str_http float_repr DEEPSEEK_API_KEY
      OPENAI_API_KEY deepseek_chat openai_chat feedback_json feedback_parse
      asset strategy timeframe performance redis in
  (Http.returns_or_500 sentiment /\ Http.returns_or_500 anomalies
   /\ Http.returns_or_500 feedback) /\
  forall message,
    Http.failure redis = Some message ->
    sentiment = Http.Raises (Http.HTTPException 500 message) /\
    anomalies = Http.Raises (Http.HTTPException 500 message) /\
    feedback = Http.Raises (Http.HTTPException 500 message).
Proof.
  cbv zeta. unfold AiApi.sentiment_analysis, AiApi.anomaly_detection,
    AiApi.educational_feedback.
  split.
  - split; [|split]; apply cached_call_returns_or_500.
  - intros message H.
    split; [|split]; apply cached_call_unreachable; exact H.
Qed.

Lemma ai_handlers_need_the_cache_witness :
  AiApi.sentiment_analysis (fun _ d => d) (fun _ => 0) (fun _ => "{}")
    (fun _ => Http.Raises (Http.OtherException "no JSON")) "gain"
    {| Http.failure := Some "Connection refused"; Http.entries := ∅ |}
  = Http.Raises (Http.HTTPException 500 "Connection refused").
Proof.
  pose proof (ai_handlers_need_the_cache (fun _ d => d) (fun _ => 0)
                (fun _ => "[]") (fun _ => "{}")
                (fun _ => Http.Raises (Http.OtherException "no JSON"))
                (fun _ => 0%float) (fun _ => 0%float) (fun _ => "{}")
                (fun _ => Http.Raises (Http.OtherException "no JSON"))
                (fun _ => "") "" "" (fun _ _ _ _ => Feedback.Ok "")
                (fun _ _ _ _ => Feedback.Ok "") (fun _ => "{}")
                (fun _ => Http.Raises (Http.OtherException "no JSON"))
                "gain" [] 20 "BTC" "macd" 30 ∅
                {| Http.failure := Some "Connection refused";
                   Http.entries := ∅ |}) as H.
  cbv zeta in H. destruct H as [_ H].
  exact (proj1 (H "Connection refused" eq_refl)).
Defined.

(** X15: a request that misses the cache is answered with the freshly
    computed result, which is stored under the request's key for 3600
    seconds while every other entry is kept; the same key then hits: the
    answer is the parsing of the stored text, whatever would be computed, and
    the cache is left as it is.  This is the body of [sentiment_analysis],
    [anomaly_detection] and [educational_feedback]. *)
Theorem cache_miss_then_hit
    {R : Type} (str_http : Z -> string -> string) (to_json : R -> string)
    (parse_raw : string -> Http.outcome R) (key : string) (compute : R)
    (redis : Http.redis_client) :
  Http.failure redis = None ->
  (forall seconds c raw,
     Http.entries redis !! key <> Some (seconds, String c raw)) ->
  to_json compute <> "" ->
  exists redis',
    AiApi.cached_call str_http to_json parse_raw key compute redis
    = Http.Returns (compute, redis') /\
    Http.entries redis' !! key = Some (3600, to_json compute) /\
    (forall other, other <> key ->
       Http.entries redis' !! other = Http.entries redis !! other) /\
    forall compute',
      AiApi.cached_call str_http to_json parse_raw key compute' redis'
      = Http.except_500 str_http
          (response ← parse_raw (to_json compute);
           Http.Returns (response, redis')).
Proof.
  intros Hup Hmiss Hne. eexists. split; [apply cached_call_miss; assumption|].
  cbn [Http.entries]. split; [apply lookup_insert_eq|].
  split; [intros other Ho; apply lookup_insert_ne; congruence|].
  intros compute'. apply (cached_call_hit str_http to_json parse_raw key
                            compute' _ 3600 (to_json compute));
    [reflexivity | apply lookup_insert_eq | exact Hne].
Qed.

Lemma cache_miss_then_hit_witness :
  exists redis',
    AiApi.cached_call (fun _ d => d) (fun _ : Z => "{}")
      (fun _ => Http.Returns 7) "k" 7
      {| Http.failure := None; Http.entries := ∅ |}
    = Http.Returns (7, redis').
Proof.
  destruct (cache_miss_then_hit (fun _ d => d) (fun _ : Z => "{}")
              (fun _ => Http.Returns 7) "k" 7
              {| Http.failure := None; Http.entries := ∅ |})
    as (redis' & H & _); [reflexivity | | discriminate |].
  - intros seconds c raw. cbn [Http.entries]. rewrite lookup_empty.
    discriminate.
  - exists redis'. exact H.
Defined.

(** X16: the key of [educational_feedback] is built from the asset, the
    strategy and the timeframe only.  After a first request has been
    answered and stored, a second request with the same three values is
    answered from the cache with the first request's feedback (as far as
    the stored text parses back to it), whatever [performance] it carries. *)
Theorem feedback_cache_ignores_performance
    (str_http : Z -> string -> string)
    (float_repr : float -> string) (DEEPSEEK_API_KEY OPENAI_API_KEY : string)
    (deepseek_chat openai_chat :
       string -> string -> Z -> gmap string Feedback.pyval
       -> Feedback.result string)
    (to_json : Feedback.EducationalFeedbackResponse -> string)
    (parse_raw : string -> Http.outcome Feedback.EducationalFeedbackResponse)
    (asset strategy : string) (timeframe : Z)
    (performance : gmap string Feedback.pyval) (redis : Http.redis_client) :
  let first :=
    Feedback.get_educational_feedback float_repr DEEPSEEK_API_KEY
      OPENAI_API_KEY deepseek_chat openai_chat asset strategy timeframe
      performance in
  Http.failure redis = None ->
  (forall seconds c raw,
     Http.entries redis !! AiApi.feedback_key asset strategy timeframe
     <> Some (seconds, String c raw)) ->
  to_json first <> "" ->
  parse_raw (to_json first) = Http.Returns first ->
  exists redis',
    AiApi.educational_feedback str_http float_repr DEEPSEEK_API_KEY
      OPENAI_API_KEY deepseek_chat openai_chat to_json parse_raw asset
      strategy timeframe performance redis
    = Http.Returns (first, redis') /\
    forall performance',
      AiApi.educational_feedback str_http float_repr DEEPSEEK_API_KEY
        OPENAI_API_KEY deepseek_chat openai_chat to_json parse_raw asset
        strategy timeframe performance' redis'
      = Http.Returns (first, redis').
Proof.
  intros first Hup Hmiss Hne Hround. unfold AiApi.educational_feedback.
  eexists. split; [apply cached_call_miss; assumption|].
  intros performance'.
  rewrite (cached_call_hit str_http to_json parse_raw _ _ _ 3600
             (to_json first));
    [| reflexivity | apply lookup_insert_eq | exact Hne].
  fold first. rewrite Hround. reflexivity.
Qed.

Lemma feedback_cache_ignores_performance_witness :
  exists redis',
    forall performance',
      AiApi.educational_feedback (fun _ d => d) (fun _ => "") "" ""
        (fun _ _ _ _ => Feedback.Raise (Feedback.ProviderError ""))
        (fun _ _ _ _ => Feedback.Raise (Feedback.ProviderError ""))
        (fun _ => "{}")
        (fun _ =>
           Http.Returns
             (Feedback.get_educational_feedback (fun _ => "") "" ""
                (fun _ _ _ _ => Feedback.Raise (Feedback.ProviderError ""))
                (fun _ _ _ _ => Feedback.Raise (Feedback.ProviderError ""))
                "BTC" "macd" 30 {[ "roi" := Feedback.PyInt 20 ]}))
        "BTC" "macd" 30 performance' redis'
      = Http.Returns
          (Feedback.get_educational_feedback (fun _ => "") "" ""
             (fun _ _ _ _ => Feedback.Raise (Feedback.ProviderError ""))
             (fun _ _ _ _ => Feedback.Raise (Feedback.ProviderError ""))
             "BTC" "macd" 30 {[ "roi" := Feedback.PyInt 20 ]},
           redis').
Proof.
  destruct (feedback_cache_ignores_performance (fun _ d => d) (fun _ => "")
              "" ""
              (fun _ _ _ _ => Feedback.Raise (Feedback.ProviderError ""))
              (fun _ _ _ _ => Feedback.Raise (Feedback.ProviderError ""))
              (fun _ => "{}")
              (fun _ =>
                 Http.Returns
                   (Feedback.get_educational_feedback (fun _ => "") "" ""
                      (fun _ _ _ _ =>
                         Feedback.Raise (Feedback.ProviderError ""))
                      (fun _ _ _ _ =>
                         Feedback.Raise (Feedback.ProviderError ""))
                      "BTC" "macd" 30 {[ "roi" := Feedback.PyInt 20 ]}))
              "BTC" "macd" 30 {[ "roi" := Feedback.PyInt 20 ]}
              {| Http.failure := None; Http.entries := ∅ |})
    as (redis' & _ & H); [reflexivity | | discriminate | reflexivity |].
  - intros seconds c raw. cbn [Http.entries]. rewrite lookup_empty.
    discriminate.
  - exists redis'. exact H.
Defined.

Section SimulationApiFacts.
Import Py Http SimulationApi.

Lemma simulation_key_inj a b :
  simulation_key a = simulation_key b -> a = b.
Proof.
  unfold simulation_key. generalize "simulation:" as p.
  induction p as [|c p IH]; intros H.
  - exact H.
  - rewrite !append_cons in H. injection H as H. exact (IH H).
Qed.

End SimulationApiFacts.

(** X17: a simulation that was created can be fetched: on a reachable
    cache, [create_simulation] returns the generated simulation under the
    fresh id and stores it for 3600 seconds; [get_simulation] with that id
    then returns it (as far as the stored text parses back to it), and the
    answers for every other id are what they were before. *)
Theorem create_then_get_simulation
    (str_http : Z -> string -> string)
    (to_json : SimulationApi.StoredSimulation -> string)
    (parse_raw : string -> Http.outcome SimulationApi.StoredSimulation)
    (uuid now : string) (draws : Simulation.rng) (asset strategy : string)
    (timeframe : Z) (initial_capital : Qc) (redis : Http.redis_client) :
  let created :=
    {| SimulationApi.id := uuid;
       SimulationApi.created_at := now;
       SimulationApi.result :=
         Simulation.generate_mock_data draws asset strategy timeframe
           initial_capital |} in
  Http.failure redis = None ->
  to_json created <> "" ->
  parse_raw (to_json created) = Http.Returns created ->
  exists redis',
    SimulationApi.create_simulation str_http to_json uuid now draws asset
      strategy timeframe initial_capital redis
    = Http.Returns (created, redis') /\
    Http.entries redis' !! SimulationApi.simulation_key uuid
    = Some (3600, to_json created) /\
    SimulationApi.get_simulation parse_raw uuid redis'
    = Http.Returns created /\
    forall other, other <> uuid ->
      SimulationApi.get_simulation parse_raw other redis'
      = SimulationApi.get_simulation parse_raw other redis.
Proof.
  intros created Hup Hne Hround.
  unfold SimulationApi.create_simulation, Http.redis_setex, mbind,
    Http.outcome_bind.
  rewrite Hup. cbv zeta. fold created. cbn [SimulationApi.id Http.except_500].
  eexists. split; [reflexivity|].
  cbn [Http.entries]. split; [apply lookup_insert_eq|]. split.
  - unfold SimulationApi.get_simulation, Http.redis_get, mbind,
      Http.outcome_bind.
    cbn [Http.failure Http.entries]. rewrite lookup_insert_eq.
    cbn [fmap option_fmap option_map snd].
    destruct (to_json created) as [|c raw] eqn:E; [congruence|].
    rewrite Hround. reflexivity.
  - intros other Ho.
    unfold SimulationApi.get_simulation, Http.redis_get.
    cbn [Http.failure Http.entries]. rewrite Hup.
    rewrite lookup_insert_ne; [reflexivity|].
    intros E. apply simulation_key_inj in E.
    unfold created in E. cbn [SimulationApi.id] in E. congruence.
Qed.

Lemma create_then_get_simulation_witness :
  exists redis',
    SimulationApi.get_simulation
      (fun _ =>
         Http.Returns
           {| SimulationApi.id := "u1";
              SimulationApi.created_at := "t";
              SimulationApi.result :=
                Simulation.generate_mock_data Simulation.steady "BTC" "rsi" 7
                  (Q2Qc 10000) |})
      "u1" redis'
    = Http.Returns
        {| SimulationApi.id := "u1";
           SimulationApi.created_at := "t";
           SimulationApi.result :=
             Simulation.generate_mock_data Simulation.steady "BTC" "rsi" 7
               (Q2Qc 10000) |}.
Proof.
  destruct (create_then_get_simulation (fun _ d => d) (fun _ => "{}")
              (fun _ =>
                 Http.Returns
                   {| SimulationApi.id := "u1";
                      SimulationApi.created_at := "t";
                      SimulationApi.result :=
                        Simulation.generate_mock_data Simulation.steady "BTC"
                          "rsi" 7 (Q2Qc 10000) |})
              "u1" "t" Simulation.steady "BTC" "rsi" 7 (Q2Qc 10000)
              {| Http.failure := None; Http.entries := ∅ |})
    as (redis' & _ & _ & H & _); [reflexivity | discriminate | reflexivity |].
  exists redis'. exact H.
Defined.

(** X18: [get_simulation] answers 404 "Simulation not found" when the
    cache is reachable and holds nothing (or an empty text) under the id,
    and 500 with the error's message when the cache cannot be reached: the
    404 raised inside the handler is passed on, not turned into a 500. *)
Theorem get_simulation_missing_or_unreachable
    (parse_raw : string -> Http.outcome SimulationApi.StoredSimulation)
    (simulation_id : string) (redis : Http.redis_client) :
  (Http.failure redis = None ->
   (forall seconds c raw,
      Http.entries redis !! SimulationApi.simulation_key simulation_id
      <> Some (seconds, String c raw)) ->
   SimulationApi.get_simulation parse_raw simulation_id redis
   = Http.Raises (Http.HTTPException 404 "Simulation not found")) /\
  (forall message,
     Http.failure redis = Some message ->
     SimulationApi.get_simulation parse_raw simulation_id redis
     = Http.Raises (Http.HTTPException 500 message)).
Proof.
  unfold SimulationApi.get_simulation, Http.redis_get, mbind,
    Http.outcome_bind.
  split.
  - intros Hup Hmiss. rewrite Hup.
    destruct (Http.entries redis !! SimulationApi.simulation_key simulation_id)
      as [[seconds value]|] eqn:E; [|reflexivity].
    destruct value as [|c raw]; [reflexivity|].
    exfalso. exact (Hmiss seconds c raw eq_refl).
  - intros message H. rewrite H. reflexivity.
Qed.

Lemma get_simulation_missing_or_unreachable_witness :
  SimulationApi.get_simulation
    (fun _ => Http.Raises (Http.OtherException "no JSON")) "u1"
    {| Http.failure := None; Http.entries := ∅ |}
  = Http.Raises (Http.HTTPException 404 "Simulation not found").
Proof.
  apply (proj1 (get_simulation_missing_or_unreachable
                  (fun _ => Http.Raises (Http.OtherException "no JSON")) "u1"
                  {| Http.failure := None; Http.entries := ∅ |}));
    [reflexivity |].
  intros seconds c raw. cbn [Http.entries]. rewrite lookup_empty.
  discriminate.
Defined.

Section MockListFacts.
Import SimulationApi.

Lemma choice_in {A : Type} picks j (seq : list A) d :
  seq <> [] -> In (choice picks j seq d) seq.
Proof.
  intros Hne. unfold choice. apply nth_In.
  apply Nat.mod_upper_bound. destruct seq; [congruence | discriminate].
Qed.

End MockListFacts.

Section MockListShape.
Import SimulationApi.

Lemma generate_mock_data_fields draws asset strategy tf ic :
  let r := Simulation.generate_mock_data draws asset strategy tf ic in
  Simulation.asset r = asset /\ Simulation.strategy r = strategy /\
  Simulation.timeframe r = tf /\ Simulation.initial_capital r = ic.
Proof.
  cbv zeta. unfold Simulation.generate_mock_data.
  destruct (Simulation.price_loop draws asset tf) as [[k cur] d].
  repeat split.
Qed.

Lemma mock_simulation_shape draws picks st :
  mock_shape (fst (mock_simulation draws picks st)).
Proof.
  destruct st as [k j]. unfold mock_simulation. cbn [fst].
  set (asset := choice picks j mock_assets "").
  set (strategy := choice picks (j + 1) mock_strategies "").
  set (tf := choice picks (j + 2) mock_timeframes 0).
  destruct (generate_mock_data_fields (fun n => draws (k + n)%nat) asset
              strategy tf (Q2Qc 10000)) as (Ha & Hs & Ht & Hc).
  assert (In tf mock_timeframes) as Htf
    by (apply choice_in; discriminate).
  unfold mock_shape. rewrite Ha, Hs, Ht, Hc, generate_mock_data_length.
  split; [apply choice_in; discriminate|].
  split; [apply (choice_in picks (j + 1) mock_strategies ""); discriminate|].
  split; [exact Htf|]. split; [reflexivity|].
  unfold mock_timeframes in Htf. cbn [In] in Htf.
  destruct Htf as [<-|[<-|[<-|[<-|[<-|[]]]]]]; reflexivity.
Qed.

Lemma mock_simulations_shape draws picks n st :
  List.length (mock_simulations draws picks n st) = n /\
  Forall mock_shape (mock_simulations draws picks n st).
Proof.
  revert st. induction n as [|n IH]; intros st.
  - split; [reflexivity | constructor].
  - cbn [mock_simulations].
    pose proof (mock_simulation_shape draws picks st) as Hs.
    destruct (mock_simulation draws picks st) as [r st'].
    destruct (IH st') as [Hlen Hall]. cbn [fst] in Hs.
    split; [cbn [List.length]; rewrite Hlen; reflexivity|].
    constructor; assumption.
Qed.

End MockListShape.

(** X19: [list_simulations] returns [min(limit, 5)] mock simulations, none
    for a limit of 0 or less and never more than 5; each has an asset, a
    strategy and a timeframe from the three fixed lists, an initial capital
    of 10000 and as many points as its timeframe.  The [offset] plays no
    part. *)
Theorem list_simulations_shape
    (draws : Simulation.rng) (picks : nat -> nat) (limit offset : Z) :
  let l := SimulationApi.list_simulations draws picks limit offset in
  Z.of_nat (List.length l) = Z.max 0 (Z.min limit 5) /\
  Forall SimulationApi.mock_shape l /\
  forall offset',
    SimulationApi.list_simulations draws picks limit offset' = l.
Proof.
  intros l. unfold l, SimulationApi.list_simulations.
  destruct (mock_simulations_shape draws picks (Z.to_nat (Z.min limit 5))
              (O, O)) as [Hlen Hall].
  rewrite Hlen. split; [lia|]. split; [exact Hall|].
  intros offset'. reflexivity.
Qed.

Section AuthFacts.
Import Http AuthApi.
Variable str_http : Z -> string -> string.

Lemma except_500_returns_or_500 {A : Type} (body : outcome A) :
  returns_or_500 (except_500 str_http body).
Proof. destruct body; [exact I | reflexivity]. Qed.

End AuthFacts.

(** X20: the four handlers of [auth.py] never answer 400 or 401: the
    [HTTPException] raised inside the [try] for an error of the identity
    provider is caught by the handler's own [except Exception] and reported
    with status 500, its detail being the text of the caught exception; an
    exception of the provider call is reported with status 500 as well. *)
Theorem auth_errors_are_reported_as_500
    (str_http : Z -> string -> string)
    (call : Http.outcome AuthApi.auth_response) :
  (Http.returns_or_500 (AuthApi.register str_http call) /\
   Http.returns_or_500 (AuthApi.login str_http call) /\
   Http.returns_or_500 (AuthApi.logout str_http call) /\
   Http.returns_or_500 (AuthApi.reset_password str_http call)) /\
  forall response message,
    call = Http.Returns response ->
    AuthApi.error response = Some message ->
    AuthApi.register str_http call
    = Http.Raises (Http.HTTPException 500 (str_http 400 message)) /\
    AuthApi.login str_http call
    = Http.Raises
        (Http.HTTPException 500 (str_http 401 "Invalid credentials")) /\
    AuthApi.logout str_http call
    = Http.Raises (Http.HTTPException 500 (str_http 400 message)) /\
    AuthApi.reset_password str_http call
    = Http.Raises (Http.HTTPException 500 (str_http 400 message)).
Proof.
  split.
  - repeat split; apply except_500_returns_or_500.
  - intros response message -> Herr.
    unfold AuthApi.register, AuthApi.login, AuthApi.logout,
      AuthApi.reset_password, AuthApi.check_error, mbind, Http.outcome_bind.
    rewrite Herr. repeat split.
Qed.

Lemma auth_errors_are_reported_as_500_witness :
  AuthApi.login (fun _ d => d)
    (Http.Returns
       {| AuthApi.error := Some "bad password"; AuthApi.user_id := "";
          AuthApi.user_email := ""; AuthApi.access_token := "" |})
  = Http.Raises (Http.HTTPException 500 "Invalid credentials").
Proof.
  exact (proj1 (proj2 (proj2 (auth_errors_are_reported_as_500 (fun _ d => d)
           (Http.Returns
              {| AuthApi.error := Some "bad password"; AuthApi.user_id := "";
                 AuthApi.user_email := ""; AuthApi.access_token := "" |}))
           _ "bad password" eq_refl eq_refl))).
Defined.

Section ExtremeScores.
Import Py Sentiment Notions.

Lemma extreme_table :
  forallb (fun p => forallb (extreme_ok p) count_range) count_range = true.
Proof. vm_compute. reflexivity. Qed.

Lemma extreme_ok_all p n :
  0 <= p <= 23 -> 0 <= n <= 23 -> extreme_ok p n = true.
Proof.
  intros Hp Hn. pose proof extreme_table as T.
  rewrite forallb_forall in T. specialize (T p (in_count_range p Hp)).
  rewrite forallb_forall in T. exact (T n (in_count_range n Hn)).
Qed.

Lemma quotient_extremes p n :
  0 <= p <= 23 -> 0 <= n <= 23 ->
  (n = 0 -> 0 < p -> quotient p n = 1%float) /\
  (p = 0 -> 0 < n -> quotient p n = (-1)%float) /\
  (p = n -> 0 < p -> quotient p n = 0%float).
Proof.
  intros Hp Hn. pose proof (extreme_ok_all p n Hp Hn) as H.
  unfold extreme_ok in H.
  apply andb_prop in H as [H H3]. apply andb_prop in H as [H1 H2].
  split; [|split].
  - intros -> Hpos. rewrite Z.eqb_refl in H1.
    assert ((0 <? p) = true) as E by (apply Z.ltb_lt; exact Hpos).
    rewrite E in H1. cbn [andb] in H1.
    apply FloatAxioms.Leibniz.eqb_spec. exact H1.
  - intros -> Hpos. rewrite Z.eqb_refl in H2.
    assert ((0 <? n) = true) as E by (apply Z.ltb_lt; exact Hpos).
    rewrite E in H2. cbn [andb] in H2.
    apply FloatAxioms.Leibniz.eqb_spec. exact H2.
  - intros -> Hpos. rewrite Z.eqb_refl in H3.
    assert ((0 <? n) = true) as E by (apply Z.ltb_lt; exact Hpos).
    rewrite E in H3. cbn [andb] in H3.
    apply FloatAxioms.Leibniz.eqb_spec. exact H3.
Qed.

End ExtremeScores.

(** X21: a text with positive keywords and no negative one scores exactly
    1.0 and is positive; one with negative keywords and no positive one
    scores exactly -1.0 and is negative; one with as many of each scores
    exactly 0.0 and is neutral. *)
Theorem one_sided_and_balanced_scores (text : string) :
  let p := Sentiment.positive_count text in
  let n := Sentiment.negative_count text in
  let r := Sentiment.analyze_sentiment text in
  (n = 0 -> 0 < p ->
   Sentiment.score r = 1%float /\ Sentiment.sentiment r = "positive") /\
  (p = 0 -> 0 < n ->
   Sentiment.score r = (-1)%float /\ Sentiment.sentiment r = "negative") /\
  (p = n -> Sentiment.score r = 0%float /\ Sentiment.sentiment r = "neutral").
Proof.
  cbv zeta. rewrite analyze_sentiment_unfold. cbv zeta.
  generalize (positive_count_range text) (negative_count_range text).
  generalize (Sentiment.positive_count text) (Sentiment.negative_count text).
  intros p n Hp Hn.
  destruct (quotient_extremes p n Hp Hn) as (H1 & H2 & H3).
  split; [|split].
  - intros Hn0 Hpos. specialize (H1 Hn0 Hpos).
    assert ((p + n =? 0) = false) as -> by (apply Z.eqb_neq; lia).
    rewrite H1. split; reflexivity.
  - intros Hp0 Hpos. specialize (H2 Hp0 Hpos).
    assert ((p + n =? 0) = false) as -> by (apply Z.eqb_neq; lia).
    rewrite H2. split; reflexivity.
  - intros Heq. destruct (p + n =? 0) eqn:E; [split; reflexivity|].
    apply Z.eqb_neq in E. assert (0 < p) as Hpos by lia.
    rewrite (H3 Heq Hpos). split; reflexivity.
Qed.

Lemma one_sided_and_balanced_scores_witness :
  Sentiment.score (Sentiment.analyze_sentiment "strong gain") = 1%float /\
  Sentiment.sentiment (Sentiment.analyze_sentiment "strong gain")
  = "positive".
Proof.
  pose proof (one_sided_and_balanced_scores "strong gain") as H.
  cbv zeta in H. destruct H as [H _].
  apply H; vm_compute; reflexivity.
Defined.

(** X22: the template tier reads nothing from [performance] but the
    ['roi'] entry: two dictionaries with the same entry (or both without)
    get the same answer, whatever else they hold. *)
Theorem template_reads_only_roi
    (float_repr : float -> string) (asset strategy : string) (timeframe : Z)
    (performance performance' : gmap string Feedback.pyval) :
  performance !! "roi" = performance' !! "roi" ->
  Feedback._get_template_feedback float_repr asset strategy timeframe
    performance
  = Feedback._get_template_feedback float_repr asset strategy timeframe
      performance'.
Proof.
  intros H. unfold Feedback._get_template_feedback,
    Feedback.default_template, Feedback.dict_get.
  rewrite H. reflexivity.
Qed.

Lemma template_reads_only_roi_witness :
  Feedback._get_template_feedback (fun _ => "") "BTC" "macd" 30
    {[ "roi" := Feedback.PyInt 3 ]}
  = Feedback._get_template_feedback (fun _ => "") "BTC" "macd" 30
      (<[ "final_capital" := Feedback.PyInt 10300 ]>
         {[ "roi" := Feedback.PyInt 3 ]}).
Proof.
  apply (template_reads_only_roi (fun _ => "") "BTC" "macd" 30
           {[ "roi" := Feedback.PyInt 3 ]}
           (<[ "final_capital" := Feedback.PyInt 10300 ]>
              {[ "roi" := Feedback.PyInt 3 ]})).
  vm_compute. reflexivity.
Defined.

(* ===================================================================== *)
(** * The floor of the walk in binary64 *)
(* ===================================================================== *)

(** [max(current_price + change, 0.1)] keeps the price from going
    negative.  That the recorded prices stay positive needs a few facts about
    the rounding of binary64 operations, proved here from their
    specification: the digits of a mantissa, the right shifts of
    [binary_round_aux], and what it returns on a mantissa of at least 53
    digits. *)

Section DigitFacts.

Local Open Scope Z_scope.

Lemma digits2_pos_bounds (p : positive) :
  2 ^ (Z.pos (digits2_pos p) - 1) <= Z.pos p < 2 ^ Z.pos (digits2_pos p).
Proof.
  induction p as [p IH|p IH|]; cbn [digits2_pos].
  - rewrite Pos2Z.inj_succ.
    replace (Z.succ (Z.pos (digits2_pos p)) - 1) with (Z.pos (digits2_pos p))
      by lia.
    rewrite Z.pow_succ_r by lia.
    assert (2 ^ Z.pos (digits2_pos p)
            = 2 * 2 ^ (Z.pos (digits2_pos p) - 1)) as E.
    { rewrite <- Z.pow_succ_r by lia. f_equal. lia. }
    lia.
  - rewrite Pos2Z.inj_succ.
    replace (Z.succ (Z.pos (digits2_pos p)) - 1) with (Z.pos (digits2_pos p))
      by lia.
    rewrite Z.pow_succ_r by lia.
    assert (2 ^ Z.pos (digits2_pos p)
            = 2 * 2 ^ (Z.pos (digits2_pos p) - 1)) as E.
    { rewrite <- Z.pow_succ_r by lia. f_equal. lia. }
    lia.
  - cbn. lia.
Qed.

(** The number of binary digits is decided by the power of two below. *)
Lemma digits2_pos_unique (p : positive) (d : Z) :
  2 ^ (d - 1) <= Z.pos p < 2 ^ d -> Z.pos (digits2_pos p) = d.
Proof.
  intros [Hlo Hhi]. pose proof (digits2_pos_bounds p) as [Blo Bhi].
  set (k := Z.pos (digits2_pos p)) in *.
  assert (0 < d) as Hd.
  { destruct (Z.ltb_spec 0 d) as [H|H]; [exact H|].
    destruct (Z.eq_dec d 0) as [->|N]; [cbn in Hhi; lia|].
    rewrite Z.pow_neg_r in Hhi by lia. lia. }
  destruct (Z.lt_trichotomy k d) as [H|[H|H]]; [|exact H|].
  - assert (2 ^ k <= 2 ^ (d - 1)) by (apply Z.pow_le_mono_r; lia). lia.
  - assert (2 ^ d <= 2 ^ (k - 1)) by (apply Z.pow_le_mono_r; lia). lia.
Qed.

Lemma digits2_pos_ge (p : positive) (d : Z) :
  2 ^ (d - 1) <= Z.pos p -> d <= Z.pos (digits2_pos p).
Proof.
  intros Hlo. pose proof (digits2_pos_bounds p) as [_ Bhi].
  destruct (Z.le_gt_cases d (Z.pos (digits2_pos p))) as [H|H]; [exact H|].
  assert (2 ^ Z.pos (digits2_pos p) <= 2 ^ (d - 1))
    by (apply Z.pow_le_mono_r; lia).
  lia.
Qed.

End DigitFacts.
Section ShiftFacts.

Local Open Scope Z_scope.

Lemma fexp_eq (x : Z) : fexp prec emax x = Z.max (x - 53) (-1074).
Proof. reflexivity. Qed.

Lemma shr_m_shr_1 (r : shr_record) :
  0 <= shr_m r -> shr_m (shr_1 r) = shr_m r / 2.
Proof.
  destruct r as [m b c]. cbn [shr_m]. intros Hm. unfold shr_1.
  destruct m as [|p|p]; [reflexivity| |lia].
  destruct p as [p|p|]; cbn [shr_m].
  - rewrite Pos2Z.inj_xI. apply Z.div_unique with (r := 1); lia.
  - rewrite Pos2Z.inj_xO. apply Z.div_unique with (r := 0); lia.
  - reflexivity.
Qed.

Lemma shr_m_iter (k : positive) (r : shr_record) :
  0 <= shr_m r ->
  shr_m (iter_pos shr_1 k r) = shr_m r / 2 ^ Z.pos k.
Proof.
  revert r. induction k as [k IH|k IH|]; intros r Hr; cbn [iter_pos].
  - assert (0 <= shr_m (shr_1 r)) as H1
      by (rewrite shr_m_shr_1 by exact Hr; apply Z.div_pos; lia).
    assert (0 <= shr_m (iter_pos shr_1 k (shr_1 r))) as H2
      by (rewrite IH by exact H1; apply Z.div_pos; [lia|];
          apply Z.pow_pos_nonneg; lia).
    rewrite IH by exact H2. rewrite IH by exact H1.
    rewrite shr_m_shr_1 by exact Hr.
    assert (2 ^ Z.pos k <> 0) as Hpow by (apply Z.pow_nonzero; lia).
    rewrite !Z.div_div by (first [exact Hpow | lia]).
    f_equal. rewrite Pos2Z.inj_xI.
    replace (2 * Z.pos k + 1) with (Z.succ (2 * Z.pos k)) by lia.
    rewrite Z.pow_succ_r, Z.pow_twice_r by lia. lia.
  - assert (0 <= shr_m (iter_pos shr_1 k r)) as H2
      by (rewrite IH by exact Hr; apply Z.div_pos; [lia|];
          apply Z.pow_pos_nonneg; lia).
    rewrite IH by exact H2. rewrite IH by exact Hr.
    assert (2 ^ Z.pos k <> 0) as Hpow by (apply Z.pow_nonzero; lia).
    rewrite !Z.div_div by (first [exact Hpow | lia]).
    f_equal. replace (Z.pos k~0) with (Z.pos k + Z.pos k) by lia.
    rewrite Z.pow_add_r by lia. reflexivity.
  - rewrite shr_m_shr_1 by exact Hr. reflexivity.
Qed.

(** Shifting a record right by [n >= 0] places. *)
Lemma shr_m_shr (r : shr_record) (e n : Z) :
  0 <= shr_m r -> 0 <= n ->
  shr_m (fst (shr r e n)) = shr_m r / 2 ^ n /\ snd (shr r e n) = e + n.
Proof.
  intros Hr Hn. unfold shr. destruct n as [|p|p]; [| |lia].
  - cbn [fst snd]. rewrite Z.pow_0_r, Z.div_1_r. split; [reflexivity | lia].
  - cbn [fst snd]. split; [apply shr_m_iter; exact Hr | reflexivity].
Qed.

Lemma shr_m_record_of_loc (m : Z) (l : location) :
  shr_m (shr_record_of_loc m l) = m.
Proof. destruct l as [|[]]; reflexivity. Qed.

Lemma round_nearest_even_cases (m : Z) (l : location) :
  round_nearest_even m l = m \/ round_nearest_even m l = m + 1.
Proof.
  unfold round_nearest_even. destruct l as [|[]]; auto.
  destruct (Z.even m); auto.
Qed.

End ShiftFacts.
Section RoundFacts.

Local Open Scope Z_scope.

(** The second shift of [binary_round_aux]: a mantissa of 53 digits is
    left alone, and [2^53], which a carry produces, becomes [2^52]. *)
Lemma shr_fexp_after_rounding (m2 e1 : Z) :
  2 ^ 52 <= m2 <= 2 ^ 53 -> -1074 <= e1 ->
  let res := shr_fexp prec emax m2 e1 loc_Exact in
  exists m3 : positive,
    shr_m (fst res) = Z.pos m3 /\ Z.pos (digits2_pos m3) = 53 /\
    e1 <= snd res <= e1 + 1.
Proof.
  intros Hm He. destruct m2 as [|p2|p2]; [lia| |lia].
  cbv zeta. unfold shr_fexp. cbn [Zdigits2 shr_record_of_loc].
  destruct (Z.eq_dec (Z.pos p2) (2 ^ 53)) as [E|N].
  - assert (Z.pos (digits2_pos p2) = 54) as Hd
      by (apply digits2_pos_unique; rewrite E; split; [reflexivity|];
          apply Z.pow_lt_mono_r; lia).
    rewrite Hd, fexp_eq.
    replace (Z.max (54 + e1 - 53) (-1074) - e1) with 1 by lia.
    destruct (shr_m_shr {| shr_m := Z.pos p2; shr_r := false;
                           shr_s := false |} e1 1) as [H1 H2];
      [cbn [shr_m]; lia | lia |].
    rewrite H1, H2. cbn [shr_m]. rewrite E.
    exists (2 ^ 52)%positive. split; [reflexivity|]. split; [reflexivity|lia].
  - assert (Z.pos (digits2_pos p2) = 53) as Hd
      by (apply digits2_pos_unique; lia).
    rewrite Hd, fexp_eq.
    replace (Z.max (53 + e1 - 53) (-1074) - e1) with 0 by lia.
    destruct (shr_m_shr {| shr_m := Z.pos p2; shr_r := false;
                           shr_s := false |} e1 0) as [H1 H2];
      [cbn [shr_m]; lia | lia |].
    rewrite H1, H2. cbn [shr_m]. rewrite Z.pow_0_r, Z.div_1_r.
    exists p2. split; [reflexivity|]. split; [exact Hd | lia].
Qed.

(** Rounding a positive mantissa of at least 53 digits, at an exponent
    that is not below the smallest one, gives a valid number of the same
    sign that is finite and not zero, or the infinity of that sign. *)
Lemma binary_round_aux_shape (s : bool) (mp : positive) (e : Z)
    (l : location) :
  53 <= Z.pos (digits2_pos mp) -> -1074 <= e ->
  exists (m3 : positive) (e2 : Z),
    binary_round_aux prec emax s (Z.pos mp) e l
    = (if e2 <=? emax - prec then S754_finite s m3 e2 else S754_infinity s)
    /\ Z.pos (digits2_pos m3) = 53 /\ -1074 <= e2
    /\ e2 <= e + (Z.pos (digits2_pos mp) - 53) + 1.
Proof.
  intros Hd He. unfold binary_round_aux.
  pose proof (digits2_pos_bounds mp) as [Blo Bhi].
  set (d := Z.pos (digits2_pos mp)) in *.
  unfold shr_fexp at 1. cbn [Zdigits2]. fold d. rewrite fexp_eq.
  replace (Z.max (d + e - 53) (-1074) - e) with (d - 53) by lia.
  destruct (shr_m_shr (shr_record_of_loc (Z.pos mp) l) e (d - 53))
    as [H1 H2]; [rewrite shr_m_record_of_loc; lia | lia |].
  rewrite shr_m_record_of_loc in H1.
  destruct (shr (shr_record_of_loc (Z.pos mp) l) e (d - 53))
    as [mrs' e'] eqn:E1.
  cbn [fst snd] in H1, H2.
  assert (2 ^ (d - 53) * 2 ^ 52 = 2 ^ (d - 1)) as P1
    by (rewrite <- Z.pow_add_r by lia; f_equal; lia).
  assert (2 ^ (d - 53) * 2 ^ 53 = 2 ^ d) as P2
    by (rewrite <- Z.pow_add_r by lia; f_equal; lia).
  assert (0 < 2 ^ (d - 53)) as Ppos by (apply Z.pow_pos_nonneg; lia).
  assert (2 ^ 52 <= shr_m mrs' < 2 ^ 53) as Hm1.
  { rewrite H1. split.
    - apply Z.div_le_lower_bound; [exact Ppos | lia].
    - apply Z.div_lt_upper_bound; [exact Ppos | lia]. }
  set (m2 := round_nearest_even (shr_m mrs') (loc_of_shr_record mrs')).
  assert (2 ^ 52 <= m2 <= 2 ^ 53) as Hm2.
  { unfold m2.
    destruct (round_nearest_even_cases (shr_m mrs') (loc_of_shr_record mrs'))
      as [-> | ->]; lia. }
  destruct (shr_fexp_after_rounding m2 e' Hm2 ltac:(lia))
    as (m3 & H3 & Hd3 & He3).
  destruct (shr_fexp prec emax m2 e' loc_Exact) as [mrs'' e''].
  cbn [fst snd] in H3, He3. rewrite H3.
  exists m3, e''. split; [reflexivity|]. split; [exact Hd3|]. lia.
Qed.

(** Rounding a positive mantissa of at least 53 digits, at an exponent
    that is not below the smallest one, gives a valid number of the same
    sign that is finite and not zero, or the infinity of that sign. *)
Lemma binary_round_aux_positive (s : bool) (mp : positive) (e : Z)
    (l : location) :
  53 <= Z.pos (digits2_pos mp) -> -1074 <= e ->
  let r := binary_round_aux prec emax s (Z.pos mp) e l in
  valid_binary r = true /\
  ((exists m' e', r = S754_finite s m' e') \/ r = S754_infinity s).
Proof.
  intros Hd He r.
  destruct (binary_round_aux_shape s mp e l Hd He)
    as (m3 & e2 & E & Hd3 & He3 & _).
  unfold r. rewrite E. destruct (e2 <=? emax - prec) eqn:Ee.
  - split; [|left; exists m3, e2; reflexivity].
    cbn [SpecFloat.valid_binary]. unfold bounded, canonical_mantissa.
    rewrite Ee, Hd3, fexp_eq, andb_true_r. apply Z.eqb_eq. lia.
  - split; [reflexivity | right; reflexivity].
Qed.

End RoundFacts.

Section HundredthsFacts.

Local Open Scope Z_scope.

(** The quotient of a positive integer by 100, as [of_hundredths] forms
    it, is a valid number of the sign of the integer, finite and not zero
    or infinite. *)
Lemma SFdiv_by_hundred (s : bool) (p : positive) :
  let r := SFdiv prec emax (S754_finite s p 0) (S754_finite false 100 0) in
  valid_binary r = true /\
  ((exists m e, r = S754_finite s m e) \/ r = S754_infinity s).
Proof.
  cbv zeta. unfold SFdiv, SFdiv_core_binary.
  rewrite xorb_false_r.
  change (Zdigits2 100) with 7. cbn [Zdigits2].
  pose proof (digits2_pos_bounds p) as [Blo Bhi].
  set (d := Z.pos (digits2_pos p)) in *.
  assert (0 < d) as Hd0 by (unfold d; lia).
  rewrite fexp_eq.
  replace (d + 0 - (7 + 0) - 53) with (d - 60) by lia.
  replace (0 - 0) with 0 by lia.
  set (e' := Z.min (Z.max (d - 60) (-1074)) 0).
  set (m' := match 0 - e' with
             | 0 => Z.pos p
             | Z.pos _ => Z.shiftl (Z.pos p) (0 - e')
             | Z.neg _ => 0
             end).
  assert (-59 <= e' <= 0) as He' by (unfold e'; lia).
  assert (2 ^ 59 <= m') as Hm'.
  { unfold m'. destruct (0 - e') as [|k|k] eqn:Ek; [| |lia].
    - assert (60 <= d) by (unfold e' in *; lia).
      assert (2 ^ 59 <= 2 ^ (d - 1)) by (apply Z.pow_le_mono_r; lia). lia.
    - rewrite Z.shiftl_mul_pow2 by lia.
      assert (Z.pos k = 60 - d) as -> by (unfold e' in *; lia).
      assert (2 ^ (d - 1) * 2 ^ (60 - d) = 2 ^ 59) as <-
        by (rewrite <- Z.pow_add_r by lia; f_equal; lia).
      apply Z.mul_le_mono_nonneg_r; [apply Z.pow_nonneg; lia | exact Blo]. }
  destruct (Z.div_eucl m' 100) as [q r] eqn:Eq.
  assert (q = m' / 100) as Hq by (unfold Z.div; rewrite Eq; reflexivity).
  assert (2 ^ 52 <= q) as Hq52.
  { rewrite Hq. apply Z.div_le_lower_bound; [lia|].
    transitivity (2 ^ 59); [|exact Hm'].
    change (2 ^ 59) with (128 * 2 ^ 52). lia. }
  destruct q as [|qp|qp]; [lia| |lia].
  apply binary_round_aux_positive; [|lia].
  apply digits2_pos_ge. exact Hq52.
Qed.

Lemma of_hundredths_positive (p : positive) :
  PrimFloat.ltb 0 (Simulation64.of_hundredths (Z.pos p) false) = true.
Proof.
  unfold Simulation64.of_hundredths.
  destruct (SFdiv_by_hundred false p) as [Hv Hr]. cbv zeta in Hv, Hr.
  rewrite FloatAxioms.ltb_spec, Prim2SF_SF2Prim by exact Hv.
  change (Prim2SF 0) with (S754_zero false).
  destruct Hr as [(m & e & ->) | ->]; reflexivity.
Qed.

End HundredthsFacts.

Section Round2Facts.

Local Open Scope Z_scope.

Lemma round_half_even_ge_floor (x : Q) :
  Qfloor x <= Simulation64.round_half_even x.
Proof.
  unfold Simulation64.round_half_even.
  destruct (Qcompare (x - inject_Z (Qfloor x)) (1 # 2)); [|lia|lia].
  destruct (Z.even (Qfloor x)); lia.
Qed.

Lemma hundredfold_floor (n : Z) (d : positive) :
  Z.pos d <= n * 100 -> 1 <= Qfloor ((n # d) * 100).
Proof.
  intros H. unfold Qmult, Qfloor. cbn [Qnum Qden inject_Z].
  apply Z.div_le_lower_bound; lia.
Qed.

(** A float that is at least 0.1 is still strictly positive after
    [round(x, 2)]. *)
Lemma round2_positive (x : float) :
  PrimFloat.leb Simulation64.lit_0_1 x = true ->
  PrimFloat.ltb 0 (Simulation64.round2 x) = true.
Proof.
  intros H. rewrite FloatAxioms.leb_spec in H.
  change (Prim2SF Simulation64.lit_0_1)
    with (S754_finite false 7205759403792794 (-56)) in H.
  pose proof (Prim2SF_valid x) as Hv.
  unfold Simulation64.round2, Simulation64.exact.
  destruct (Prim2SF x) as [s|s| |s m e] eqn:E.
  - destruct s; discriminate.
  - destruct s; [discriminate|].
    rewrite FloatAxioms.ltb_spec, E. reflexivity.
  - discriminate.
  - destruct s; [discriminate|].
    unfold SFleb, SFcompare in H.
    change (Pos.compare_cont Eq 7205759403792794 m)
      with (Pos.compare 7205759403792794 m) in H.
    cbn [SpecFloat.valid_binary] in Hv. unfold bounded in Hv.
    apply andb_prop in Hv as [Hc _]. unfold canonical_mantissa in Hc.
    apply Z.eqb_eq in Hc. rewrite fexp_eq in Hc.
    pose proof (digits2_pos_bounds m) as [Blo _].
    set (d := Z.pos (digits2_pos m)) in *.
    match goal with
    | |- context [Simulation64.round_half_even ?q] =>
        assert (1 <= Simulation64.round_half_even q) as Hn
    end.
    { etransitivity; [|apply round_half_even_ge_floor].
      destruct e as [|k|k].
      - apply hundredfold_floor. lia.
      - apply hundredfold_floor.
        assert (0 < 2 ^ Z.pos k) by (apply Z.pow_pos_nonneg; lia). nia.
      - apply hundredfold_floor. rewrite Pos2Z.inj_pow.
        destruct (Z.compare_spec (-56) (Z.neg k)) as [Ee|Ee|Ee];
          [| |discriminate].
        + destruct (Pos.compare_spec 7205759403792794 m) as [Em|Em|Em];
            [| |discriminate].
          * subst m. replace (Z.pos k) with 56 by lia. vm_compute.
            discriminate.
          * replace (Z.pos k) with 56 by lia.
            assert (7205759403792794 < Z.pos m) by lia.
            change (2 ^ 56) with 72057594037927936. lia.
        + assert (d = 53) as Hd53 by lia. rewrite Hd53 in Blo.
          assert (2 ^ Z.pos k <= 2 ^ 55) by (apply Z.pow_le_mono_r; lia).
          change (2 ^ (53 - 1)) with 4503599627370496 in Blo.
          change (2 ^ 55) with 36028797018963968 in *. lia. }
    match goal with
    | |- context [Simulation64.round_half_even ?q] =>
        destruct (Simulation64.round_half_even q) as [|p|p]; [lia| |lia]
    end.
    apply of_hundredths_positive.
Qed.

End Round2Facts.

Section NotNanFacts.

Local Open Scope Z_scope.

Lemma shr_m_nonneg (r : shr_record) (e n : Z) :
  0 <= shr_m r -> 0 <= shr_m (fst (shr r e n)).
Proof.
  intros Hr. unfold shr. destruct n as [|k|k]; cbn [fst]; [exact Hr| |exact Hr].
  rewrite shr_m_iter by exact Hr.
  apply Z.div_pos; [exact Hr | apply Z.pow_pos_nonneg; lia].
Qed.

(** Rounding a mantissa that is not negative never gives NaN. *)
Lemma binary_round_aux_not_nan (s : bool) (mx e : Z) (l : location) :
  0 <= mx -> binary_round_aux prec emax s mx e l <> S754_nan.
Proof.
  intros Hm. unfold binary_round_aux, shr_fexp.
  pose proof (shr_m_nonneg (shr_record_of_loc mx l) e
                (fexp prec emax (Zdigits2 mx + e) - e)) as H1.
  rewrite shr_m_record_of_loc in H1. specialize (H1 Hm).
  destruct (shr (shr_record_of_loc mx l) e
              (fexp prec emax (Zdigits2 mx + e) - e)) as [mrs' e'].
  cbn [fst] in H1.
  set (m2 := round_nearest_even (shr_m mrs') (loc_of_shr_record mrs')).
  assert (0 <= m2) as H2.
  { unfold m2.
    destruct (round_nearest_even_cases (shr_m mrs') (loc_of_shr_record mrs'))
      as [-> | ->]; lia. }
  pose proof (shr_m_nonneg (shr_record_of_loc m2 loc_Exact) e'
                (fexp prec emax (Zdigits2 m2 + e') - e')) as H3.
  rewrite shr_m_record_of_loc in H3. specialize (H3 H2).
  destruct (shr (shr_record_of_loc m2 loc_Exact) e'
              (fexp prec emax (Zdigits2 m2 + e') - e')) as [mrs'' e''].
  cbn [fst] in H3.
  destruct (shr_m mrs'') as [|q|q]; [discriminate| |lia].
  destruct (e'' <=? emax - prec); discriminate.
Qed.

Lemma binary_normalize_not_nan (m e : Z) (szero : bool) :
  binary_normalize prec emax m e szero <> S754_nan.
Proof.
  unfold binary_normalize, binary_round.
  destruct m as [|p|p]; [discriminate| |].
  - destruct (shl_align p e _) as [mz ez].
    apply binary_round_aux_not_nan. lia.
  - destruct (shl_align p e _) as [mz ez].
    apply binary_round_aux_not_nan. lia.
Qed.

Lemma SFadd_finite_not_nan (s : bool) (m : positive) (e : Z)
    (y : spec_float) :
  y <> S754_nan -> SFadd prec emax (S754_finite s m e) y <> S754_nan.
Proof.
  intros Hy. destruct y as [sy|sy| |sy my ey]; cbn [SFadd];
    [discriminate | discriminate | congruence |].
  apply binary_normalize_not_nan.
Qed.

Lemma SFsub_finite_not_nan (x : spec_float) (s : bool) (m : positive)
    (e : Z) :
  x <> S754_nan -> SFsub prec emax x (S754_finite s m e) <> S754_nan.
Proof.
  intros Hx. destruct x as [sx|sx| |sx mx ex]; cbn [SFsub];
    [discriminate | discriminate | congruence |].
  apply binary_normalize_not_nan.
Qed.

Lemma SFmul_finite_not_nan (s : bool) (m : positive) (e : Z)
    (y : spec_float) :
  y <> S754_nan -> SFmul prec emax (S754_finite s m e) y <> S754_nan.
Proof.
  intros Hy. destruct y as [sy|sy| |sy my ey]; cbn [SFmul];
    [discriminate | discriminate | congruence |].
  apply binary_round_aux_not_nan. lia.
Qed.

(** The product of two positive normal numbers whose exponents leave
    room is finite and not zero. *)
Lemma SFmul_normal (mx my : positive) (ex ey : Z) :
  Z.pos (digits2_pos mx) = 53 -> Z.pos (digits2_pos my) = 53 ->
  -1074 <= ex + ey -> ex + ey <= 917 ->
  exists m e,
    SFmul prec emax (S754_finite false mx ex) (S754_finite false my ey)
    = S754_finite false m e.
Proof.
  intros Hdx Hdy Hlo Hhi. cbn [SFmul xorb].
  pose proof (digits2_pos_bounds mx) as [Xlo Xhi].
  pose proof (digits2_pos_bounds my) as [Ylo Yhi].
  rewrite Hdx in Xlo, Xhi. rewrite Hdy in Ylo, Yhi.
  change (2 ^ (53 - 1)) with 4503599627370496 in *.
  change (2 ^ 53) with 9007199254740992 in *.
  pose proof (digits2_pos_bounds (mx * my)) as [Plo Phi].
  set (d := Z.pos (digits2_pos (mx * my))) in *.
  rewrite Pos2Z.inj_mul in Plo, Phi.
  assert (105 <= d <= 106) as Hd.
  { split.
    - apply digits2_pos_ge. rewrite Pos2Z.inj_mul.
      change (2 ^ (105 - 1)) with (4503599627370496 * 4503599627370496).
      apply Z.mul_le_mono_nonneg; lia.
    - destruct (Z.le_gt_cases d 106) as [H|H]; [exact H|].
      assert (2 ^ 106 <= 2 ^ (d - 1)) by (apply Z.pow_le_mono_r; lia).
      change (2 ^ 106) with (9007199254740992 * 9007199254740992) in *.
      assert (Z.pos mx * Z.pos my < 9007199254740992 * 9007199254740992)
        by (apply Z.mul_lt_mono_nonneg; lia).
      lia. }
  destruct (binary_round_aux_shape false (mx * my) (ex + ey) loc_Exact)
    as (m3 & e2 & E & _ & _ & He2); [fold d; lia | lia |].
  fold d in He2. rewrite E.
  assert ((e2 <=? emax - prec) = true) as ->
    by (apply Z.leb_le; change (emax - prec) with 971; lia).
  exists m3, e2. reflexivity.
Qed.

End NotNanFacts.

Section FloorFacts.

Local Open Scope Z_scope.

Lemma not_nan_spec (x : float) : x <> nan -> Prim2SF x <> S754_nan.
Proof.
  intros Hx E. apply Hx. apply Prim2SF_inj. rewrite E. reflexivity.
Qed.

(** What a float is when it is at least 0.1: plus infinity, or a
    positive normal number. *)
Lemma at_least_tenth_cases (x : float) :
  PrimFloat.leb Simulation64.lit_0_1 x = true ->
  x = infinity \/
  exists m e,
    Prim2SF x = S754_finite false m e /\ Z.pos (digits2_pos m) = 53 /\
    -56 <= e <= 971.
Proof.
  intros H. rewrite FloatAxioms.leb_spec in H.
  change (Prim2SF Simulation64.lit_0_1)
    with (S754_finite false 7205759403792794 (-56)) in H.
  pose proof (Prim2SF_valid x) as Hv.
  destruct (Prim2SF x) as [s|s| |s m e] eqn:E.
  - destruct s; discriminate.
  - destruct s; [discriminate|]. left. apply Prim2SF_inj. rewrite E.
    reflexivity.
  - discriminate.
  - destruct s; [discriminate|]. right. exists m, e.
    split; [reflexivity|].
    unfold SFleb, SFcompare in H.
    cbn [SpecFloat.valid_binary] in Hv. unfold bounded in Hv.
    apply andb_prop in Hv as [Hc Hb]. unfold canonical_mantissa in Hc.
    apply Z.eqb_eq in Hc. rewrite fexp_eq in Hc.
    apply Z.leb_le in Hb. change (emax - prec) with 971 in Hb.
    destruct (Z.compare_spec (-56) e) as [Ee|Ee|Ee]; [| |discriminate]; lia.
Qed.

(** [max(y, 0.1)] is at least 0.1 unless [y] is NaN. *)
Lemma py_max_floor (y : float) :
  y <> nan ->
  PrimFloat.leb Simulation64.lit_0_1 (Simulation64.py_max y Simulation64.lit_0_1)
  = true.
Proof.
  intros Hy. apply not_nan_spec in Hy. unfold Simulation64.py_max.
  destruct (PrimFloat.ltb y Simulation64.lit_0_1) eqn:L;
    [vm_compute; reflexivity|].
  rewrite FloatAxioms.ltb_spec in L. rewrite FloatAxioms.leb_spec.
  change (Prim2SF Simulation64.lit_0_1)
    with (S754_finite false 7205759403792794 (-56)) in L.
  change (Prim2SF Simulation64.lit_0_1)
    with (S754_finite false 7205759403792794 (-56)).
  destruct (Prim2SF y) as [s|s| |s m e].
  - destruct s; discriminate.
  - destruct s; [discriminate | reflexivity].
  - exfalso. apply Hy. reflexivity.
  - destruct s; [discriminate|].
    unfold SFltb, SFcompare in L. unfold SFleb, SFcompare.
    rewrite (Z.compare_antisym e (-56)).
    change (Pos.compare_cont Eq 7205759403792794 m)
      with (Pos.compare_cont (CompOpp Eq) 7205759403792794 m).
    rewrite <- (Pos.compare_cont_antisym m 7205759403792794 Eq).
    destruct (e ?= -56)%Z; cbn [CompOpp] in *;
      [|discriminate|reflexivity].
    destruct (Pos.compare_cont Eq m 7205759403792794); cbn [CompOpp] in *;
      [reflexivity | discriminate | reflexivity].
Qed.

(** One step of the walk from a finite price of at least 0.1, with a draw
    that is a number: the new price is at least 0.1. *)
Lemma next_price_at_least_tenth (draws : Simulation64.rng) (vol : float)
    (k : nat) (p : float) (mp mv : positive) (ep ev : Z) :
  Prim2SF p = S754_finite false mp ep ->
  Z.pos (digits2_pos mp) = 53 -> -56 <= ep <= 971 ->
  Prim2SF vol = S754_finite false mv ev ->
  Z.pos (digits2_pos mv) = 53 -> -60 <= ev <= -54 ->
  draws k <> nan ->
  PrimFloat.leb Simulation64.lit_0_1 (Simulation64.next_price draws vol k p)
  = true.
Proof.
  intros Hp Hdp Hep Hvol Hdv Hev Hu.
  unfold Simulation64.next_price. apply py_max_floor.
  intros Hy. apply (f_equal Prim2SF) in Hy.
  rewrite FloatAxioms.add_spec, !FloatAxioms.mul_spec, FloatAxioms.sub_spec
    in Hy.
  rewrite Hp, Hvol in Hy. unfold SF64add, SF64mul, SF64sub in Hy.
  destruct (SFmul_normal mp mv ep ev Hdp Hdv ltac:(lia) ltac:(lia))
    as (mt & et & Et).
  rewrite Et in Hy. revert Hy. change (Prim2SF nan) with S754_nan.
  apply SFadd_finite_not_nan. apply SFmul_finite_not_nan.
  change (Prim2SF 0.5) with (S754_finite false 4503599627370496 (-53)).
  apply SFsub_finite_not_nan. apply not_nan_spec. exact Hu.
Qed.

(** The start price and the volatility of every asset. *)
Lemma asset_params_shape (asset : string) :
  (exists m e,
     Prim2SF (fst (Simulation64.asset_params asset)) = S754_finite false m e
     /\ Z.pos (digits2_pos m) = 53 /\ -56 <= e <= 971) /\
  (exists m e,
     Prim2SF (snd (Simulation64.asset_params asset)) = S754_finite false m e
     /\ Z.pos (digits2_pos m) = 53 /\ -60 <= e <= -54).
Proof.
  unfold Simulation64.asset_params.
  destruct (String.eqb asset "BTC"); [|destruct (String.eqb asset "ETH")];
    cbn [fst snd].
  - split; [exists 8246337208320000%positive, (-38) | exists 8646911284551352%positive, (-58)];
      (split; [reflexivity|]); (split; [reflexivity|lia]).
  - split; [exists 8796093022208000%positive, (-42) | exists 5764607523034235%positive, (-57)];
      (split; [reflexivity|]); (split; [reflexivity|lia]).
  - split; [exists 7036874417766400%positive, (-46) | exists 5764607523034235%positive, (-58)];
      (split; [reflexivity|]); (split; [reflexivity|lia]).
Qed.

End FloorFacts.

Section WalkFacts.

Local Open Scope Z_scope.

Variable py_sum : list float -> float.

(** As long as no recorded price is infinite and every draw is a number,
    the current price is a positive normal number of at least 0.1. *)
Lemma run64_current_price (draws : Simulation64.rng) (asset : string)
    (n : nat) :
  (forall k, draws k <> nan) ->
  let start := fst (Simulation64.asset_params asset) in
  let vol := snd (Simulation64.asset_params asset) in
  let st := Simulation64.run py_sum draws start vol n in
  (forall j, (j < n)%nat ->
     Simulation64.price (nth j (snd st) Simulation64.dummy_point)
     <> infinity) ->
  exists m e,
    Prim2SF (snd (fst st)) = S754_finite false m e /\
    Z.pos (digits2_pos m) = 53 /\ -56 <= e <= 971.
Proof.
  intros Hd start vol.
  destruct (asset_params_shape asset) as [Hstart (mv & ev & Hv & Hdv & Hev)].
  fold start in Hstart. fold vol in Hv.
  induction n as [|n IH]; cbv zeta; intros Hfin.
  - exact Hstart.
  - rewrite run64_S in *.
    destruct (run64_counts py_sum draws start vol n) as [Hk Hlen].
    cbv zeta in IH.
    destruct (Simulation64.run py_sum draws start vol n) as [[k cur] d].
    cbn [fst snd] in *. subst k.
    rewrite loop_body64_eq in *. cbn [fst snd] in *.
    destruct IH as (m & e & Hp & Hdp & Hep).
    { intros j Hj. specialize (Hfin j ltac:(lia)).
      rewrite app_nth1 in Hfin by lia. exact Hfin. }
    pose proof (next_price_at_least_tenth draws vol n cur m mv e ev
                  Hp Hdp Hep Hv Hdv Hev (Hd n)) as Hnext.
    destruct (at_least_tenth_cases _ Hnext) as [Einf | Hshape];
      [|exact Hshape].
    exfalso. apply (Hfin n ltac:(lia)).
    rewrite app_nth2 by lia. rewrite Hlen, Nat.sub_diag. cbn [nth].
    unfold Simulation64.new_point. cbn [Simulation64.price].
    rewrite Einf. reflexivity.
Qed.

(** Whatever the draws, the price recorded after a step is NaN or
    strictly positive. *)
Lemma recorded_price_nan_or_positive (draws : Simulation64.rng)
    (vol : float) (k : nat) (cur : float) :
  let p := Simulation64.round2 (Simulation64.next_price draws vol k cur) in
  p = nan \/ PrimFloat.ltb 0 p = true.
Proof.
  cbv zeta. unfold Simulation64.next_price.
  set (y := (cur + cur * vol * (draws k - 0.5))%float).
  destruct (PrimFloat.Leibniz.eqb y nan) eqn:E.
  - apply FloatAxioms.Leibniz.eqb_spec in E. rewrite E. left. reflexivity.
  - right. apply round2_positive. apply py_max_floor.
    intros H. apply FloatAxioms.Leibniz.eqb_spec in H. congruence.
Qed.

End WalkFacts.

(** X26: no recorded price is zero or negative.  For every run in binary64
    a recorded price is NaN or strictly positive; and when every draw of the
    random source is a number, a recorded price is strictly positive unless
    an earlier recorded price is infinite: only after the walk has
    overflowed can a price fail to be positive. *)
Theorem recorded_prices_stay_positive
    (py_sum : list float -> float) (draws : Simulation64.rng)
    (asset strategy : string) (timeframe : Z) (initial_capital : float)
    (i : nat) :
  let r := Simulation64.generate_mock_data py_sum draws asset strategy
             timeframe initial_capital in
  (i < List.length (Simulation64.data r))%nat ->
  let price_at j :=
    Simulation64.price (nth j (Simulation64.data r) Simulation64.dummy_point)
  in
  (price_at i = nan \/ PrimFloat.ltb 0 (price_at i) = true) /\
  ((forall k, draws k <> nan) ->
   (forall j, (j < i)%nat -> price_at j <> infinity) ->
   PrimFloat.ltb 0 (price_at i) = true).
Proof.
  intros r. unfold r.
  rewrite generate_mock_data64_data, price_loop64_run.
  set (start := fst (Simulation64.asset_params asset)).
  set (vol := snd (Simulation64.asset_params asset)).
  destruct (run64_counts py_sum draws start vol (Z.to_nat timeframe))
    as [_ Hlen].
  rewrite Hlen. intros Hi. cbv zeta.
  rewrite (run64_point py_sum draws start vol (Z.to_nat timeframe) i Hi).
  unfold Simulation64.new_point at 1 2 3. cbn [Simulation64.price].
  split; [apply recorded_price_nan_or_positive|].
  intros Hd Hfin.
  destruct (run64_current_price py_sum draws asset i Hd) as (m & e & Hp & Hdp & Hep).
  { cbv zeta. fold start vol. intros j Hj.
    rewrite (run64_prefix py_sum draws start vol i (Z.to_nat timeframe))
      by lia.
    rewrite nth_firstn.
    assert ((j <? i)%nat = true) as -> by (apply Nat.ltb_lt; exact Hj).
    apply Hfin. exact Hj. }
  cbv zeta in Hp. fold start vol in Hp.
  destruct (asset_params_shape asset) as [_ (mv & ev & Hv & Hdv & Hev)].
  fold vol in Hv.
  apply round2_positive.
  apply (next_price_at_least_tenth draws vol i _ m mv e ev
           Hp Hdp Hep Hv Hdv Hev (Hd i)).
Qed.

Lemma recorded_prices_stay_positive_witness :
  PrimFloat.ltb 0
    (Simulation64.price
       (nth 2
          (Simulation64.data
             (Simulation64.generate_mock_data Simulation64.sum_left
                Simulation64.steady "BTC" "rsi" 5 10000%float))
          Simulation64.dummy_point))
  = true.
Proof.
  refine (proj2 (recorded_prices_stay_positive Simulation64.sum_left
                   Simulation64.steady "BTC" "rsi" 5 10000%float 2 _) _ _).
  - rewrite generate_mock_data64_length. cbn. lia.
  - intros k H. apply (f_equal PrimFloat.is_nan) in H. vm_compute in H.
    discriminate.
  - intros j Hj H. apply (f_equal PrimFloat.is_infinity) in H.
    destruct j as [|[|j]]; [| |lia]; vm_compute in H; discriminate.
Defined.
